(** * Movie and book recommendations from tweet sentiment

    A shallow embedding of [sentiment.py] ([SentimentAnalyzer],
    [MediaRecommender]) and of the batch loop of [app.py], with the
    properties of the recommendation allocator, of the catalog lookup, of
    the dominant-sentiment choice, of the batch loop and of the tweet
    preprocessing.

    Conventions of the embedding:
    - a Python [int] is a [Z]; a Python [float] is an IEEE 754 binary64
      value, [spec_float] at precision 53 and maximal exponent 1024;
    - a Python [str] is a [string], the bytes of its UTF-8 encoding;
      [len] and slices count characters, not bytes;
    - a Python [dict] is an association list in insertion order, with keys
      pairwise distinct ([dict_wf]);
    - [==] on catalog entries is a boolean function of their fields
      ([item_eqb]): it is not the equality of the terms, as [0.0 == -0.0];
    - a raised exception is the [Raise] case of [result];
    - the random module is an explicit state, a list of numbers that
      [randbelow] consumes. *)

From Stdlib Require Import ZArith List String Ascii Bool Lia Permutation.
From Stdlib Require Import SpecFloat.
Import ListNotations.

Local Open Scope string_scope.
Local Open Scope Z_scope.
Local Open Scope list_scope.

(** ** Python primitives *)

Module Py.

(** The exceptions that the embedded code can raise. *)
Inductive exn : Type :=
| ValueError
| OverflowError
| IndexError
| KeyError.

Inductive result (A : Type) : Type :=
| Ok (a : A)
| Raise (e : exn).

Arguments Ok {A} a.
Arguments Raise {A} e.

Definition bind_result {A B : Type} (r : result A) (k : A -> result B) : result B :=
  match r with
  | Ok a => k a
  | Raise e => Raise e
  end.

(** *** Floats *)

Definition float : Type := spec_float.

Definition prec : Z := 53.
Definition emax : Z := 1024.

Definition is_nan (x : float) : bool :=
  match x with
  | S754_nan => true
  | _ => false
  end.

Definition is_finite (x : float) : bool :=
  match x with
  | S754_zero _ | S754_finite _ _ _ => true
  | _ => false
  end.

(** [float(n)] for an [int]: rounded to nearest, ties to even;
    [OverflowError] when the integer is too large for a double. *)
Definition float_of_int (n : Z) : result float :=
  match binary_normalize prec emax n 0 false with
  | S754_infinity _ => Raise OverflowError
  | x => Ok x
  end.

Definition float_mul (x y : float) : float := SFmul prec emax x y.

(** [x > y] on floats. *)
Definition float_gt (x y : float) : bool := SFltb y x.

(** [x <= y] on floats. *)
Definition float_le (x y : float) : bool := SFleb x y.

(** [x == y] on floats: [0.0 == -0.0], and a NaN equals no float. *)
Definition float_eq (x y : float) : bool := SFeqb x y.

(** [n * x] for an [int] n and a [float] x: the integer is converted first. *)
Definition int_mul_float (n : Z) (x : float) : result float :=
  bind_result (float_of_int n) (fun fn => Ok (float_mul fn x)).

(** [m * 2 ^ e] rounded to the nearest integer, ties to the even one. *)
Definition round_half_even (m e : Z) : Z :=
  if 0 <=? e then m * 2 ^ e
  else
    let d := 2 ^ (- e) in
    let q := m / d in
    let r := m mod d in
    match 2 * r ?= d with
    | Lt => q
    | Gt => q + 1
    | Eq => if Z.even q then q else q + 1
    end.

(** [round(x)] with one argument: an [int]; infinities and NaN raise. *)
Definition round (x : float) : result Z :=
  match x with
  | S754_zero _ => Ok 0
  | S754_infinity _ => Raise OverflowError
  | S754_nan => Raise ValueError
  | S754_finite s m e =>
      let v := round_half_even (Zpos m) e in
      Ok (if s then - v else v)
  end.

(** The literal [1.0]. *)
Definition float_1 : float := S754_finite false 4503599627370496 (-52).

(** The literal [0.1]: the double nearest to one tenth. *)
Definition float_0_1 : float := S754_finite false 7205759403792794 (-56).

(** The double nearest to [n / d], for integers that are doubles
    themselves: a decimal literal such as [0.05] is [float_of_ratio 5 100]. *)
Definition float_of_ratio (n d : Z) : float :=
  SFdiv prec emax (binary_normalize prec emax n 0 false)
                  (binary_normalize prec emax d 0 false).

(** A decimal literal with one digit after the point, [tenths / 10]. *)
Definition float_of_tenths (tenths : Z) : float := float_of_ratio tenths 10.

(** *** Strings *)

(** A [str] is held as the bytes of its UTF-8 encoding.  A character is a
    leading byte with the continuation bytes that it announces; a byte that
    no leading byte announces counts as a character of its own. *)

(** A continuation byte, [10xxxxxx]. *)
Definition is_continuation (c : ascii) : bool :=
  let n := nat_of_ascii c in
  (128 <=? n)%nat && (n <? 192)%nat.

(** The number of continuation bytes that a leading byte announces. *)
Definition followers (c : ascii) : nat :=
  let n := nat_of_ascii c in
  if (n <? 192)%nat then 0%nat
  else if (n <? 224)%nat then 1%nat
  else if (n <? 240)%nat then 2%nat
  else if (n <? 248)%nat then 3%nat
  else 0%nat.

(** The number of characters that start in [s], when the character before
    [s] still expects [k] continuation bytes. *)
Fixpoint len_from (k : nat) (s : string) : Z :=
  match s with
  | EmptyString => 0
  | String c rest =>
      match k with
      | S k' =>
          if is_continuation c then len_from k' rest
          else 1 + len_from (followers c) rest
      | O => 1 + len_from (followers c) rest
      end
  end.

(** [len(s)]: the number of characters. *)
Definition len_str (s : string) : Z := len_from 0 s.

(** [s.startswith(p)] *)
Definition startswith (s p : string) : bool := String.prefix p s.

(** [s.split(sep)] for a separator of one character: every occurrence
    splits, so the result is never empty and may hold empty words. *)
Fixpoint split (sep : ascii) (s : string) : list string :=
  match s with
  | EmptyString => [EmptyString]
  | String c rest =>
      if Ascii.eqb c sep then EmptyString :: split sep rest
      else
        match split sep rest with
        | w :: ws => String c w :: ws
        | [] => [String c EmptyString]
        end
  end.

(** [sep.join(words)] *)
Definition join (sep : string) (words : list string) : string :=
  String.concat sep words.

(** The first [n] characters that start in [s], behind the continuation
    bytes of the character before, which still expects [k] of them. *)
Fixpoint take_chars (n k : nat) (s : string) : string :=
  match s with
  | EmptyString => EmptyString
  | String c rest =>
      let next :=
        match n with
        | O => EmptyString
        | S n' => String c (take_chars n' (followers c) rest)
        end in
      match k with
      | S k' => if is_continuation c then String c (take_chars n k' rest) else next
      | O => next
      end
  end.

(** [s[:n]] for [n >= 0]: the first n characters. *)
Definition slice_to (n : nat) (s : string) : string := take_chars n 0 s.

(** *** Lists *)

Definition len {A : Type} (l : list A) : Z := Z.of_nat (List.length l).

(** Truth value of a list: non-empty. *)
Definition truthy {A : Type} (l : list A) : bool :=
  match l with
  | [] => false
  | _ :: _ => true
  end.

(** Equality of Python values, as [==] and [in] use it: the same object,
    or objects that compare equal. *)
Class Eq (A : Type) : Type :=
  eqb : A -> A -> bool.

(** [x in l]: [any(x is e or x == e for e in l)]. *)
Definition contains {A : Type} `{Eq A} (x : A) (l : list A) : bool :=
  existsb (fun e => eqb x e) l.

(** *** Dictionaries *)

Definition dict (V : Type) : Type := list (string * V).

Definition keys {V : Type} (d : dict V) : list string := map fst d.

(** Keys of a dictionary are pairwise distinct. *)
Definition dict_wf {V : Type} (d : dict V) : Prop := NoDup (keys d).

(** [d.get(k)]: [None] when the key is absent. *)
Fixpoint get {V : Type} (d : dict V) (k : string) : option V :=
  match d with
  | [] => None
  | (k', v) :: rest => if String.eqb k' k then Some v else get rest k
  end.

(** [d.get(k, default)] *)
Definition get_default {V : Type} (d : dict V) (k : string) (default : V) : V :=
  match get d k with
  | Some v => v
  | None => default
  end.

(** [d[k]]: [KeyError] when the key is absent. *)
Definition getitem {V : Type} (d : dict V) (k : string) : result V :=
  match get d k with
  | Some v => Ok v
  | None => Raise KeyError
  end.

(** [max(d, key=d.get)] over float values: the keys are visited in
    insertion order and the running maximum is replaced only by a strictly
    greater value; an empty dictionary raises [ValueError]. *)
Fixpoint max_key_from (best : string) (best_val : float) (d : dict float) : string :=
  match d with
  | [] => best
  | (k, v) :: rest =>
      if float_gt v best_val then max_key_from k v rest
      else max_key_from best best_val rest
  end.

Definition max_key (d : dict float) : result string :=
  match d with
  | [] => Raise ValueError
  | (k, v) :: rest => Ok (max_key_from k v rest)
  end.

(** *** The random module *)

(** The state of the generator: the numbers still to be drawn. *)
Definition rng : Type := list nat.

(** A computation that draws random numbers and may raise. *)
Definition M (A : Type) : Type := rng -> result (A * rng).

Definition ret {A : Type} (a : A) : M A := fun g => Ok (a, g).

Definition bind {A B : Type} (m : M A) (k : A -> M B) : M B :=
  fun g =>
    match m g with
    | Ok (a, g') => k a g'
    | Raise e => Raise e
    end.

Definition lift {A : Type} (r : result A) : M A :=
  fun g =>
    match r with
    | Ok a => Ok (a, g)
    | Raise e => Raise e
    end.

Definition raise {A : Type} (e : exn) : M A := fun _ => Raise e.

(** [randbelow(n)] for [n > 0]: a number below n. *)
Definition randbelow (n : nat) : M nat :=
  fun g =>
    match g with
    | [] => Ok (0%nat, [])
    | r :: g' => Ok (Nat.modulo r n, g')
    end.

(** The list without its element at position j. *)
Fixpoint remove_at {A : Type} (j : nat) (l : list A) : list A :=
  match l, j with
  | [], _ => []
  | _ :: tl, O => tl
  | x :: tl, S j' => x :: remove_at j' tl
  end.

(** k draws without replacement: each draw takes a position of what is left
    of the pool. *)
Fixpoint draw {A : Type} (k : nat) (pool : list A) : M (list A) :=
  match k with
  | O => ret []
  | S k' =>
      match pool with
      | [] => ret []
      | x :: _ =>
          bind (randbelow (List.length pool)) (fun j =>
          bind (draw k' (remove_at j pool)) (fun tl =>
          ret (nth j pool x :: tl)))
      end
  end.

(** [random.sample(population, k)], of the standard library: k elements at
    pairwise distinct positions of the population, in the order drawn;
    [ValueError] unless [0 <= k <= len(population)].  Every choice of
    positions is the outcome of some state of the generator. *)
Definition sample {A : Type} (population : list A) (k : Z) : M (list A) :=
  if (0 <=? k) && (k <=? len population)
  then draw (Z.to_nat k) population
  else raise ValueError.

End Py.

Declare Scope py_scope.
Delimit Scope py_scope with py.
Notation "x <- m ;; k" := (Py.bind m (fun x => k))
  (at level 61, m at next level, right associativity) : py_scope.

Local Open Scope py_scope.

(** A [for] loop over a list that threads an accumulator. *)
Fixpoint for_each {A B : Type} (l : list B) (acc : A) (body : A -> B -> Py.M A) : Py.M A :=
  match l with
  | [] => Py.ret acc
  | b :: tl => acc' <- body acc b ;; for_each tl acc' body
  end.

(** The same loop for code that draws no random number. *)
Fixpoint for_each_result {A B : Type} (l : list B) (acc : A)
    (body : A -> B -> Py.result A) : Py.result A :=
  match l with
  | [] => Py.Ok acc
  | b :: tl => Py.bind_result (body acc b) (fun acc' => for_each_result tl acc' body)
  end.

(** ** sentiment.py: SentimentAnalyzer *)

Module SentimentAnalyzer.

(** The tokenizer, the pre-trained model and the softmax are external: the
    analyzer holds them as one function from the preprocessed text to the
    vector of scores. *)
Record t : Type := { model : string -> list Py.float }.

Definition LABELS : list string := ["Negative"; "Neutral"; "Positive"].

(** The body of the loop of [preprocess_tweet], for one word. *)
Definition preprocess_word (word : string) : string :=
  if Py.startswith word "@" && (1 <? Py.len_str word) then "@user"
  else if Py.startswith word "http" then "http"
  else word.

Definition preprocess_tweet (tweet : string) : string :=
  Py.join " " (map preprocess_word (Py.split " "%char tweet)).

Record sentiment_result : Type :=
  { probabilities : Py.dict Py.float;
    max_sentiment : string }.

(** [{LABELS[i]: float(scores[i]) for i in range(len(LABELS))}]: the labels
    are pairwise distinct, so every entry is a new key, appended in order. *)
Definition label_scores (scores : list Py.float) : Py.result (Py.dict Py.float) :=
  for_each_result (seq 0 (List.length LABELS)) []
    (fun d i =>
       match nth_error scores i with
       | Some x => Py.Ok (d ++ [(nth i LABELS "", x)])
       | None => Py.Raise Py.IndexError
       end).

Definition analyze_sentiment (self : t) (tweet : string) : Py.result sentiment_result :=
  let tweet_proc := preprocess_tweet tweet in
  let scores := model self tweet_proc in
  Py.bind_result (label_scores scores) (fun sentiment_probabilities =>
  Py.bind_result (Py.max_key sentiment_probabilities) (fun max_sentiment =>
  Py.Ok {| probabilities := sentiment_probabilities;
           max_sentiment := max_sentiment |})).

End SentimentAnalyzer.

(** ** sentiment.py: MediaRecommender *)

(** A catalog entry: the dictionary of a book or of a movie, with its keys
    in the order of the source. *)
Inductive item : Type :=
| Book (title author genre : string) (year : Z) (description : string)
| Movie (title : string) (release_year : Z) (genre : string)
        (rating : Py.float) (description : string).

(** [==] on the ratings of two entries: equal floats, or the same object.
    An entry is held by its fields, so that a rating that is a NaN is the
    one object [math.nan], equal to itself and to no other float. *)
Definition rating_eqb (x y : Py.float) : bool :=
  (Py.is_nan x && Py.is_nan y) || Py.float_eq x y.

(** [==] on two entries, as [item not in total_items] uses it: dictionaries
    with the same keys whose values are equal, key by key.  A book and a
    movie have different keys. *)
Definition item_eqb (x y : item) : bool :=
  match x, y with
  | Book title author genre year description,
    Book title' author' genre' year' description' =>
      String.eqb title title' && String.eqb author author'
      && String.eqb genre genre' && Z.eqb year year'
      && String.eqb description description'
  | Movie title release_year genre rating description,
    Movie title' release_year' genre' rating' description' =>
      String.eqb title title' && Z.eqb release_year release_year'
      && String.eqb genre genre' && rating_eqb rating rating'
      && String.eqb description description'
  | _, _ => false
  end.

#[global] Instance item_eq : Py.Eq item := item_eqb.

Module MediaRecommender.

(** [_get_mock_positive_movies]: mock positive sentiment movies. *)
Definition _get_mock_positive_movies : list item :=
  [
    Movie "The Pursuit of Happyness" 2006 "Drama, Biography" (Py.float_of_tenths 80)
      "A struggling salesman takes custody of his son as he's poised to begin a life-changing professional career.";
    Movie "La La Land" 2016 "Musical, Romance" (Py.float_of_tenths 80)
      "While navigating their careers in Los Angeles, a pianist and an actress fall in love while attempting to reconcile their aspirations for the future.";
    Movie "Soul" 2020 "Animation, Adventure" (Py.float_of_tenths 81)
      "A musician who has lost his passion for music is transported out of his body and must find his way back with the help of an infant soul learning about herself.";
    Movie "Forrest Gump" 1994 "Drama, Romance" (Py.float_of_tenths 88)
      "The presidencies of Kennedy and Johnson, the Vietnam War, the Watergate scandal and other historical events unfold from the perspective of an Alabama man with an IQ of 75.";
    Movie "Toy Story" 1995 "Animation, Adventure" (Py.float_of_tenths 83)
      "A cowboy doll is profoundly threatened and jealous when a new spaceman figure supplants him as top toy in a boy's room.";
    Movie "Inside Out" 2015 "Animation, Adventure" (Py.float_of_tenths 81)
      "After young Riley is uprooted from her Midwest life and moved to San Francisco, her emotions - Joy, Fear, Anger, Disgust and Sadness - conflict on how best to navigate a new city, house, and school.";
    Movie "CODA" 2021 "Drama, Music" (Py.float_of_tenths 80)
      "As a CODA (Child of Deaf Adults), Ruby is the only hearing person in her deaf family. When the family's fishing business is threatened, Ruby finds herself torn between pursuing her love of music and her fear of abandoning her parents.";
    Movie "Love Actually" 2003 "Comedy, Drama" (Py.float_of_tenths 76)
      "Follows the lives of eight very different couples in dealing with their love lives in various loosely interrelated tales all set during a frantic month before Christmas in London, England.";
    Movie "The Intouchables" 2011 "Biography, Comedy" (Py.float_of_tenths 85)
      "After he becomes a quadriplegic from a paragliding accident, an aristocrat hires a young man from the projects to be his caregiver.";
    Movie "Up" 2009 "Animation, Adventure" (Py.float_of_tenths 82)
      "78-year-old Carl Fredricksen travels to Paradise Falls in his house equipped with balloons, inadvertently taking a young stowaway."
  ].

(** [_get_mock_neutral_movies]: mock neutral sentiment movies. *)
Definition _get_mock_neutral_movies : list item :=
  [
    Movie "Inception" 2010 "Action, Adventure" (Py.float_of_tenths 88)
      "A thief who steals corporate secrets through the use of dream-sharing technology is given the inverse task of planting an idea into the mind of a C.E.O.";
    Movie "The Social Network" 2010 "Biography, Drama" (Py.float_of_tenths 77)
      "As Harvard student Mark Zuckerberg creates the social networking site that would become known as Facebook, he is sued by the twins who claimed he stole their idea, and by the co-founder who was later squeezed out of the business.";
    Movie "The Martian" 2015 "Adventure, Drama" (Py.float_of_tenths 80)
      "An astronaut becomes stranded on Mars after his team assume him dead, and must rely on his ingenuity to find a way to signal to Earth that he is alive.";
    Movie "The Matrix" 1999 "Action, Sci-Fi" (Py.float_of_tenths 87)
      "When a beautiful stranger leads computer hacker Neo to a forbidding underworld, he discovers the shocking truth--the life he knows is the elaborate deception of an evil cyber-intelligence.";
    Movie "Avatar" 2009 "Action, Adventure" (Py.float_of_tenths 78)
      "A paraplegic Marine dispatched to the moon Pandora on a unique mission becomes torn between following his orders and protecting the world he feels is his home.";
    Movie "Dune" 2021 "Action, Adventure" (Py.float_of_tenths 80)
      "Feature adaptation of Frank Herbert's science fiction novel about the son of a noble family entrusted with the protection of the most valuable asset and most vital element in the galaxy.";
    Movie "Casino Royale" 2006 "Action, Adventure" (Py.float_of_tenths 80)
      "After earning 00 status and a licence to kill, Secret Agent James Bond sets out on his first mission as 007. Bond must defeat a private banker funding terrorists in a high-stakes game of poker at Casino Royale, Montenegro.";
    Movie "Interstellar" 2014 "Adventure, Drama" (Py.float_of_tenths 86)
      "A team of explorers travel through a wormhole in space in an attempt to ensure humanity's survival.";
    Movie "The Prestige" 2006 "Drama, Mystery" (Py.float_of_tenths 85)
      "After a tragic accident, two stage magicians engage in a battle to create the ultimate illusion while sacrificing everything they have to outwit each other.";
    Movie "Memento" 2000 "Mystery, Thriller" (Py.float_of_tenths 84)
      "A man with short-term memory loss attempts to track down his wife's murderer."
  ].

(** [_get_mock_negative_movies]: mock negative sentiment movies. *)
Definition _get_mock_negative_movies : list item :=
  [
    Movie "Joker" 2019 "Crime, Drama" (Py.float_of_tenths 84)
      "In Gotham City, mentally troubled comedian Arthur Fleck is disregarded and mistreated by society. He then embarks on a downward spiral of revolution and bloody crime. This path brings him face-to-face with his alter-ego: the Joker.";
    Movie "The Lighthouse" 2019 "Drama, Fantasy" (Py.float_of_tenths 75)
      "Two lighthouse keepers try to maintain their sanity while living on a remote and mysterious New England island in the 1890s.";
    Movie "Requiem for a Dream" 2000 "Drama" (Py.float_of_tenths 83)
      "The drug-induced utopias of four Coney Island people are shattered when their addictions run deep.";
    Movie "Black Swan" 2010 "Drama, Thriller" (Py.float_of_tenths 80)
      "A committed dancer struggles to maintain her sanity after winning the lead role in a production of Tchaikovsky's 'Swan Lake'.";
    Movie "No Country for Old Men" 2007 "Crime, Drama" (Py.float_of_tenths 81)
      "Violence and mayhem ensue after a hunter stumbles upon a drug deal gone wrong and more than two million dollars in cash near the Rio Grande.";
    Movie "Hereditary" 2018 "Drama, Horror" (Py.float_of_tenths 73)
      "A grieving family is haunted by tragic and disturbing occurrences after the death of their secretive grandmother.";
    Movie "Uncut Gems" 2019 "Crime, Drama" (Py.float_of_tenths 74)
      "With his debts mounting and angry collectors closing in, a fast-talking New York City jeweler risks everything in hope of staying afloat and alive.";
    Movie "The Revenant" 2015 "Action, Adventure" (Py.float_of_tenths 80)
      "A frontiersman on a fur trading expedition in the 1820s fights for survival after being mauled by a bear and left for dead by members of his own hunting team.";
    Movie "Se7en" 1995 "Crime, Drama" (Py.float_of_tenths 86)
      "Two detectives, a rookie and a veteran, hunt a serial killer who uses the seven deadly sins as his motives.";
    Movie "The Silence of the Lambs" 1991 "Crime, Drama" (Py.float_of_tenths 86)
      "A young F.B.I. cadet must receive the help of an incarcerated and manipulative cannibal killer to help catch another serial killer, a madman who skins his victims."
  ].

(** [_get_mock_positive_books]: mock positive sentiment books. *)
Definition _get_mock_positive_books : list item :=
  [
    Book "The Alchemist" "Paulo Coelho" "Fiction, Adventure" 1988
      "A story about following your dreams and listening to your heart.";
    Book "Atomic Habits" "James Clear" "Self-Help, Productivity" 2018
      "Tiny Changes, Remarkable Results: An Easy & Proven Way to Build Good Habits & Break Bad Ones.";
    Book "The Power of Positive Thinking" "Norman Vincent Peale" "Self-Help" 1952
      "A practical guide to mastering the problems of everyday living.";
    Book "Man's Search for Meaning" "Viktor E. Frankl" "Psychology, Memoir" 1946
      "Psychiatrist Viktor Frankl's memoir has riveted generations with its descriptions of life in Nazi death camps and its lessons for spiritual survival.";
    Book "The Book of Joy" "Dalai Lama and Desmond Tutu" "Spirituality" 2016
      "Lasting Happiness in a Changing World.";
    Book "A Man Called Ove" "Fredrik Backman" "Fiction, Humor" 2012
      "A grumpy yet loveable man finds his solitary world turned on its head when a boisterous young family moves in next door.";
    Book "Where the Crawdads Sing" "Delia Owens" "Fiction, Coming of Age" 2018
      "For years, rumors of the 'Marsh Girl' have haunted Barkley Cove, a quiet town on the North Carolina coast.";
    Book "The Happiness Project" "Gretchen Rubin" "Self-Help, Memoir" 2009
      "Or, Why I Spent a Year Trying to Sing in the Morning, Clean My Closets, Fight Right, Read Aristotle, and Generally Have More Fun.";
    Book "Little Women" "Louisa May Alcott" "Fiction, Classic" 1868
      "The story of the lives of the four March sisters—Meg, Jo, Beth, and Amy—detailing their passage from childhood to womanhood.";
    Book "Anne of Green Gables" "L.M. Montgomery" "Fiction, Children's" 1908
      "The adventures of an 11-year-old orphan girl who lives on Prince Edward Island."
  ].

(** [_get_mock_neutral_books]: mock neutral sentiment books. *)
Definition _get_mock_neutral_books : list item :=
  [
    Book "Sapiens: A Brief History of Humankind" "Yuval Noah Harari" "History, Science" 2011
      "A brief history of humankind from the Stone Age up to the twenty-first century.";
    Book "Thinking, Fast and Slow" "Daniel Kahneman" "Psychology, Economics" 2011
      "How the human mind works, and how we make decisions.";
    Book "Educated" "Tara Westover" "Memoir, Biography" 2018
      "A memoir about a young girl who, kept out of school, leaves her survivalist family and goes on to earn a PhD from Cambridge University.";
    Book "The Silent Patient" "Alex Michaelides" "Mystery, Thriller" 2019
      "A psychological thriller about a woman's act of violence against her husband―and of the therapist obsessed with uncovering her motive.";
    Book "1984" "George Orwell" "Fiction, Dystopian" 1949
      "A dystopian social science fiction novel set in a world of perpetual war, omnipresent government surveillance, and public manipulation.";
    Book "The Great Gatsby" "F. Scott Fitzgerald" "Fiction, Classic" 1925
      "A portrait of the Jazz Age in all of its decadence and excess.";
    Book "To Kill a Mockingbird" "Harper Lee" "Fiction, Classic" 1960
      "A novel about the childhood of Scout Finch in a Southern town and her father's battle for justice.";
    Book "The Catcher in the Rye" "J.D. Salinger" "Fiction, Coming of Age" 1951
      "The story of a teenaged boy dealing with alienation.";
    Book "Pride and Prejudice" "Jane Austen" "Fiction, Romance" 1813
      "A romantic novel of manners that follows the character development of Elizabeth Bennet.";
    Book "The Hobbit" "J.R.R. Tolkien" "Fiction, Fantasy" 1937
      "A fantasy novel about the adventures of hobbit Bilbo Baggins."
  ].

(** [_get_mock_negative_books]: mock negative sentiment books. *)
Definition _get_mock_negative_books : list item :=
  [
    Book "The Road" "Cormac McCarthy" "Fiction, Post-Apocalyptic" 2006
      "A journey of a father and his son walking alone through burned America, heading through the ravaged landscape to the coast.";
    Book "Crime and Punishment" "Fyodor Dostoevsky" "Fiction, Psychological" 1866
      "The story of the mental anguish and moral dilemmas of Rodion Raskolnikov, an impoverished ex-student in Saint Petersburg who formulates a plan to kill an unscrupulous pawnbroker.";
    Book "The Bell Jar" "Sylvia Plath" "Fiction, Autobiographical" 1963
      "Chronicles a young woman's descent into mental illness.";
    Book "No Longer Human" "Osamu Dazai" "Fiction, Psychological" 1948
      "The poignant and fascinating story of a young man who is caught between the breakup of the traditions of a northern Japanese aristocratic family and the impact of Western ideas.";
    Book "The Metamorphosis" "Franz Kafka" "Fiction, Absurdist" 1915
      "A novella about a man who wakes up one morning to find himself transformed into a huge insect.";
    Book "Brave New World" "Aldous Huxley" "Fiction, Dystopian" 1932
      "A dystopian novel set in a futuristic World State of genetically modified citizens and an intelligence-based social hierarchy.";
    Book "The Stranger" "Albert Camus" "Fiction, Philosophical" 1942
      "Through the story of an ordinary man unwittingly drawn into a senseless murder on an Algerian beach, Camus explored what he termed 'the nakedness of man faced with the absurd.'";
    Book "Lord of the Flies" "William Golding" "Fiction, Allegorical" 1954
      "A group of British boys stuck on an uninhabited island who try to govern themselves with disastrous results.";
    Book "A Clockwork Orange" "Anthony Burgess" "Fiction, Dystopian" 1962
      "A frightening fable about good and evil, and the meaning of human freedom.";
    Book "Pet Sematary" "Stephen King" "Fiction, Horror" 1983
      "When Dr. Louis Creed takes a new job and moves his family to the idyllic rural town of Ludlow, Maine, this new beginning seems too good to be true."
  ].

Record t : Type :=
  { genre_sentiment_mapping : Py.dict (list string);
    movies : Py.dict (list item);
    books : Py.dict (list item) }.

(** [_fetch_movie_data]: the mock data; building it raises nothing, so the
    fallback of the [except] branch is never taken. *)
Definition _fetch_movie_data : Py.dict (list item) :=
  [("Positive", _get_mock_positive_movies);
   ("Neutral", _get_mock_neutral_movies);
   ("Negative", _get_mock_negative_movies)].

Definition _fetch_book_data : Py.dict (list item) :=
  [("Positive", _get_mock_positive_books);
   ("Neutral", _get_mock_neutral_books);
   ("Negative", _get_mock_negative_books)].

(** The dataset of the [except] branches: every bucket present and empty. *)
Definition empty_dataset : Py.dict (list item) :=
  [("Positive", []); ("Neutral", []); ("Negative", [])].

(** [__init__] *)
Definition init : t :=
  {| genre_sentiment_mapping :=
       [("Positive",
         ["Comedy"; "Animation"; "Family"; "Adventure"; "Musical";
          "Romance"; "Fantasy"; "Inspirational"; "Biography"; "Sport"]);
        ("Neutral",
         ["Documentary"; "History"; "Science Fiction"; "Action"; "Western";
          "Mystery"; "Drama"; "Superhero"; "Animation"; "Thriller"]);
        ("Negative",
         ["Horror"; "Thriller"; "Crime"; "War"; "Drama";
          "Mystery"; "Film-Noir"; "Psychological"; "Disaster"; "Dystopian"])];
     movies := _fetch_movie_data;
     books := _fetch_book_data |}.

(** The dictionary that a media type selects; [None] for any other string,
    where both methods return the empty list at once. *)
Definition items_of (self : t) (media_type : string) : option (Py.dict (list item)) :=
  if String.eqb media_type "books" then Some (books self)
  else if String.eqb media_type "movies" then Some (movies self)
  else None.

Definition get_recommendations (self : t) (sentiment media_type : string)
    (num_recommendations : Z) : Py.M (list item) :=
  match items_of self media_type with
  | None => Py.ret []
  | Some all_items =>
      let all_recommendations := Py.get_default all_items sentiment [] in
      if num_recommendations <? Py.len all_recommendations
      then Py.sample all_recommendations num_recommendations
      else Py.ret all_recommendations
  end.

(** [max(1, int(round(num_recommendations * prob))) if prob > 0.1 else 0] *)
Definition items_to_take (num_recommendations : Z) (prob : Py.float) : Py.result Z :=
  if Py.float_gt prob Py.float_0_1
  then
    Py.bind_result (Py.int_mul_float num_recommendations prob) (fun x =>
    Py.bind_result (Py.round x) (fun r =>
    Py.Ok (Z.max 1 r)))
  else Py.Ok 0.

(** The body of the first loop of [get_genre_recommendations], for one
    entry of [sentiment_probs]. *)
Definition take_from_category (all_items : Py.dict (list item)) (num_recommendations : Z)
    (total_items : list item) (entry : string * Py.float) : Py.M (list item) :=
  let '(sentiment, prob) := entry in
  items_to_take <- Py.lift (items_to_take num_recommendations prob) ;;
  let available_items := Py.get_default all_items sentiment [] in
  if Py.truthy available_items && (0 <? items_to_take)
  then
    selected <- Py.sample available_items
                  (Z.min items_to_take (Py.len available_items)) ;;
    Py.ret (total_items ++ selected)
  else Py.ret total_items.

(** The second step: more items from the highest probability sentiment
    when there are not enough. *)
Definition add_from_max_sentiment (all_items : Py.dict (list item))
    (sentiment_probs : Py.dict Py.float) (num_recommendations : Z)
    (total_items : list item) : Py.M (list item) :=
  if Py.len total_items <? num_recommendations
  then
    max_sentiment <- Py.lift (Py.max_key sentiment_probs) ;;
    let available_items := Py.get_default all_items max_sentiment [] in
    let available_items :=
      filter (fun item => negb (Py.contains item total_items)) available_items in
    if Py.truthy available_items
    then
      let remaining_needed := num_recommendations - Py.len total_items in
      additional_items <- Py.sample available_items
                            (Z.min remaining_needed (Py.len available_items)) ;;
      Py.ret (total_items ++ additional_items)
    else Py.ret total_items
  else Py.ret total_items.

(** The third step: a random subset when there are too many items. *)
Definition take_subset (num_recommendations : Z) (total_items : list item) : Py.M (list item) :=
  if num_recommendations <? Py.len total_items
  then Py.sample total_items num_recommendations
  else Py.ret total_items.

Definition get_genre_recommendations (self : t) (sentiment_probs : Py.dict Py.float)
    (media_type : string) (num_recommendations : Z) : Py.M (list item) :=
  match items_of self media_type with
  | None => Py.ret []
  | Some all_items =>
      total_items <- for_each sentiment_probs []
                       (take_from_category all_items num_recommendations) ;;
      total_items <- add_from_max_sentiment all_items sentiment_probs
                       num_recommendations total_items ;;
      take_subset num_recommendations total_items
  end.

Definition get_genres_for_sentiment (self : t) (sentiment : string) : list string :=
  Py.get_default (genre_sentiment_mapping self) sentiment [].

End MediaRecommender.

(** ** app.py: the batch analysis loop *)

Module App.

(** A value of the selected column of the uploaded table: text, or what
    the CSV reader makes of a cell that is not text. *)
Inductive cell : Type :=
| CStr (s : string)
| CFloat (x : Py.float)
| CInt (n : Z)
| CBool (b : bool).

(** A number of a result row: a probability of the analyzer, or the
    integer of the row for invalid text. *)
Inductive number : Type :=
| NFloat (x : Py.float)
| NInt (n : Z).

Record result_row : Type :=
  { text : string;
    max_sentiment : string;
    positive : number;
    neutral : number;
    negative : number }.

(** The body of the loop, without the progress bar. *)
Definition analyze_row (sentiment_analyzer : SentimentAnalyzer.t)
    (results : list result_row) (text : cell) : Py.result (list result_row) :=
  match text with
  | CStr text =>
      Py.bind_result (SentimentAnalyzer.analyze_sentiment sentiment_analyzer text)
        (fun sentiment_result =>
      let probabilities := SentimentAnalyzer.probabilities sentiment_result in
      Py.bind_result (Py.getitem probabilities "Positive") (fun pos =>
      Py.bind_result (Py.getitem probabilities "Neutral") (fun neu =>
      Py.bind_result (Py.getitem probabilities "Negative") (fun neg =>
      Py.Ok (results ++
             [{| text := if 100 <? Py.len_str text
                         then (Py.slice_to 100 text ++ "...")%string
                         else text;
                 max_sentiment := SentimentAnalyzer.max_sentiment sentiment_result;
                 positive := NFloat pos;
                 neutral := NFloat neu;
                 negative := NFloat neg |}])))))
  | _ =>
      Py.Ok (results ++
             [{| text := "Invalid text";
                 max_sentiment := "N/A";
                 positive := NInt 0;
                 neutral := NInt 0;
                 negative := NInt 0 |}])
  end.

(** [for i, text in enumerate(df[text_column])], from [results = []]. *)
Definition batch_analysis (sentiment_analyzer : SentimentAnalyzer.t)
    (column : list cell) : Py.result (list result_row) :=
  for_each_result column [] (analyze_row sentiment_analyzer).

End App.

(** ** app.py: the genre counts of the tab Explore Genre Mapping *)

Module Explore.

(** The number of bytes of the whitespace character that [s] starts with,
    and 0 when it starts with none.  The characters that [strip] removes
    are those of [isspace]: U+0009 to U+000D, U+001C to U+0020, and, in two
    bytes, U+0085 and U+00A0, in three bytes, U+1680, U+2000 to U+200A,
    U+2028, U+2029, U+202F, U+205F and U+3000. *)
Definition space_width (s : string) : nat :=
  match s with
  | EmptyString => 0%nat
  | String a rest =>
      let a := nat_of_ascii a in
      if ((9 <=? a)%nat && (a <=? 13)%nat) || ((28 <=? a)%nat && (a <=? 32)%nat)
      then 1%nat
      else
        match rest with
        | EmptyString => 0%nat
        | String b rest' =>
            let b := nat_of_ascii b in
            if (a =? 194)%nat && ((b =? 133)%nat || (b =? 160)%nat) then 2%nat
            else
              match rest' with
              | EmptyString => 0%nat
              | String c _ =>
                  let c := nat_of_ascii c in
                  if ((a =? 225)%nat && (b =? 154)%nat && (c =? 128)%nat)
                     || ((a =? 226)%nat && (b =? 128)%nat
                         && (((128 <=? c)%nat && (c <=? 138)%nat)
                             || (c =? 168)%nat || (c =? 169)%nat || (c =? 175)%nat))
                     || ((a =? 226)%nat && (b =? 129)%nat && (c =? 159)%nat)
                     || ((a =? 227)%nat && (b =? 128)%nat && (c =? 128)%nat)
                  then 3%nat
                  else 0%nat
              end
        end
  end.

(** [s.lstrip()] *)
Fixpoint lstrip (s : string) : string :=
  match s with
  | EmptyString => EmptyString
  | String _ rest1 =>
      match space_width s with
      | 1%nat => lstrip rest1
      | 2%nat =>
          match rest1 with
          | String _ rest2 => lstrip rest2
          | EmptyString => s
          end
      | 3%nat =>
          match rest1 with
          | String _ (String _ rest3) => lstrip rest3
          | _ => s
          end
      | _ => s
      end
  end.

(** [s.rstrip()]: what is kept of the rest, with the byte before it, is
    dropped when it is one whitespace character and no more. *)
Fixpoint rstrip (s : string) : string :=
  match s with
  | EmptyString => EmptyString
  | String c rest =>
      let kept := String c (rstrip rest) in
      if (space_width kept =? String.length kept)%nat then EmptyString else kept
  end.

(** [s.strip()] *)
Definition strip (s : string) : string := rstrip (lstrip s).

(** [item["genre"]]: both kinds of entries have the key. *)
Definition genre_of (entry : item) : string :=
  match entry with
  | Book _ _ genre _ _ => genre
  | Movie _ _ genre _ _ => genre
  end.

(** [[g.strip() for g in item["genre"].split(",")]] *)
Definition genres_of (entry : item) : list string :=
  map strip (Py.split ","%char (genre_of entry)).

(** [d[k] = v]: the value of a key of the dictionary is replaced at its
    place, a new key is appended. *)
Fixpoint setitem {V : Type} (d : Py.dict V) (k : string) (v : V) : Py.dict V :=
  match d with
  | [] => [(k, v)]
  | (k', v') :: rest =>
      if String.eqb k' k then (k', v) :: rest else (k', v') :: setitem rest k v
  end.

(** The body of the innermost loop: [counts[genre] += 1] for a genre
    already counted, [counts[genre] = 1] for a new one. *)
Definition count_genre (counts : Py.dict Z) (genre : string) : Py.dict Z :=
  match Py.get counts genre with
  | Some c => setitem counts genre (c + 1)
  | None => setitem counts genre 1
  end.

(** The loop over the genres of one entry. *)
Definition count_entry (counts : Py.dict Z) (entry : item) : Py.dict Z :=
  fold_left count_genre (genres_of entry) counts.

(** The body of the loop over the sentiments: the books of the sentiment,
    then its movies; a sentiment without bucket raises KeyError. *)
Definition count_sentiment (media_recommender : MediaRecommender.t)
    (sentiment : string) : Py.result (Py.dict Z) :=
  Py.bind_result (Py.getitem (MediaRecommender.books media_recommender) sentiment)
    (fun books =>
  let counts := fold_left count_entry books [] in
  Py.bind_result (Py.getitem (MediaRecommender.movies media_recommender) sentiment)
    (fun movies =>
  Py.Ok (fold_left count_entry movies counts))).

(** [genre_counts] after the loop over Positive, Neutral and Negative. *)
Definition genre_counts (media_recommender : MediaRecommender.t)
    : Py.result (Py.dict (Py.dict Z)) :=
  for_each_result ["Positive"; "Neutral"; "Negative"]
    [("Positive", []); ("Neutral", []); ("Negative", [])]
    (fun genre_counts sentiment =>
       Py.bind_result (count_sentiment media_recommender sentiment) (fun counts =>
       Py.Ok (setitem genre_counts sentiment counts))).

End Explore.

(** ** Vocabulary of the properties *)

(** [sel] holds elements at pairwise distinct positions of [pool]: what is
    drawn without replacement, in any order. *)
Definition drawn_from {A : Type} (sel pool : list A) : Prop :=
  exists rest, Permutation pool (sel ++ rest).

(** [sel] is a choice of elements of [pool], one position after the other,
    no position twice. *)
Inductive picks {A : Type} : list A -> list A -> Prop :=
| picks_nil (pool : list A) : picks pool []
| picks_cons (pool : list A) (j : nat) (x : A) (sel : list A) :
    nth_error pool j = Some x ->
    picks (Py.remove_at j pool) sel ->
    picks pool (x :: sel).

(** The bucket of a sentiment in a catalog dictionary. *)
Definition pool (all_items : Py.dict (list item)) (sentiment : string) : list item :=
  Py.get_default all_items sentiment [].

(** No two items of the list are equal, in the sense of [==]. *)
Fixpoint nodupb (l : list item) : bool :=
  match l with
  | [] => true
  | x :: tl => negb (Py.contains x tl) && nodupb tl
  end.

(** On the items of the list, [==] holds of an item and itself only. *)
Definition eq_is_identity (l : list item) : Prop :=
  forall x y, In x l -> In y l -> item_eqb x y = true -> x = y.

(** No two items of the catalog are equal, neither inside a bucket nor in
    two buckets: the buckets are pairwise disjoint and list no item twice. *)
Definition disjoint_pools (all_items : Py.dict (list item)) : Prop :=
  nodupb (List.concat (map snd all_items)) = true.

(** No item occurs at two places of the catalog. *)
Definition distinct_items (all_items : Py.dict (list item)) : Prop :=
  NoDup (List.concat (map snd all_items)).

(** The catalog of a media type: the books for books, the movies for
    movies, and none for any other name. *)
Definition catalog_of (self : MediaRecommender.t) (media_type : string)
    (all_items : Py.dict (list item)) : Prop :=
  (media_type = "books" /\ all_items = MediaRecommender.books self) \/
  (media_type = "movies" /\ all_items = MediaRecommender.movies self).

(** The number of items of all the buckets together. *)
Definition catalog_size (all_items : Py.dict (list item)) : Z :=
  Py.len (List.concat (map snd all_items)).

(** The number of items to take can be computed for every entry of the
    profile: no conversion or rounding raises. *)
Definition takes_defined (num_recommendations : Z) (sentiment_probs : Py.dict Py.float) : Prop :=
  Forall (fun entry =>
            exists k, MediaRecommender.items_to_take num_recommendations (snd entry) = Py.Ok k)
         sentiment_probs.

(** A probability: a double, in its one representation, between 0.0 and
    1.0. *)
Definition is_probability (p : Py.float) : bool :=
  valid_binary Py.prec Py.emax p
  && Py.float_le (S754_zero false) p
  && Py.float_le p Py.float_1.

(** What the first loop takes from the bucket of one entry. *)
Definition share (all_items : Py.dict (list item)) (num_recommendations : Z)
    (entry : string * Py.float) : Z :=
  match MediaRecommender.items_to_take num_recommendations (snd entry) with
  | Py.Ok k =>
      if Py.truthy (pool all_items (fst entry)) && (0 <? k)
      then Z.min k (Py.len (pool all_items (fst entry)))
      else 0
  | Py.Raise _ => 0
  end.

(** The shares of the entries whose key is not [sentiment], summed. *)
Definition shares_except (all_items : Py.dict (list item)) (num_recommendations : Z)
    (sentiment : string) (sentiment_probs : Py.dict Py.float) : Z :=
  fold_right Z.add 0
    (map (fun entry =>
            if String.eqb (fst entry) sentiment then 0
            else share all_items num_recommendations entry)
         sentiment_probs).

(** What the first loop is to take from the bucket of a label of
    probability [prob]: min(max(1, round(count * prob)), bucket size) when
    [prob > 0.1], and nothing otherwise. *)
Definition expected_share (all_items : Py.dict (list item)) (num_recommendations : Z)
    (sentiment : string) (prob : Py.float) : Z :=
  if Py.float_gt prob Py.float_0_1
  then
    match Py.bind_result (Py.int_mul_float num_recommendations prob) Py.round with
    | Py.Ok rounded =>
        Z.min (Z.max 1 rounded) (Py.len (pool all_items sentiment))
    | Py.Raise _ => 0
    end
  else 0.

(** The expected shares of the labels other than [sentiment], summed. *)
Definition expected_others (all_items : Py.dict (list item)) (num_recommendations : Z)
    (sentiment : string) (sentiment_probs : Py.dict Py.float) : Z :=
  fold_right Z.add 0
    (map (fun entry =>
            if String.eqb (fst entry) sentiment then 0
            else expected_share all_items num_recommendations (fst entry) (snd entry))
         sentiment_probs).

(** The items of a bucket that are not yet in the running result. *)
Definition not_selected (all_items : Py.dict (list item)) (sentiment : string)
    (total_items : list item) : list item :=
  filter (fun item => negb (Py.contains item total_items)) (pool all_items sentiment).

(** What the second step appends to the running result. *)
Definition backfill (all_items : Py.dict (list item)) (sentiment_probs : Py.dict Py.float)
    (num_recommendations : Z) (total_items additional_items : list item) : Prop :=
  (num_recommendations <= Py.len total_items /\ additional_items = []) \/
  (Py.len total_items < num_recommendations /\
   exists max_sentiment,
     Py.max_key sentiment_probs = Py.Ok max_sentiment /\
     In max_sentiment (Py.keys sentiment_probs) /\
     drawn_from additional_items (not_selected all_items max_sentiment total_items) /\
     Py.len additional_items
       = Z.min (num_recommendations - Py.len total_items)
               (Py.len (not_selected all_items max_sentiment total_items))).

(** The draws of the first loop, one per entry of the profile. *)
Definition category_draws (all_items : Py.dict (list item)) (num_recommendations : Z)
    (sentiment_probs : Py.dict Py.float) (sels : list (list item)) : Prop :=
  Forall2 (fun entry sel =>
             drawn_from sel (pool all_items (fst entry)) /\
             Py.len sel = share all_items num_recommendations entry)
          sentiment_probs sels.

(** The character occurs in the string. *)
Fixpoint has_char (c : ascii) (s : string) : bool :=
  match s with
  | EmptyString => false
  | String c' rest => Ascii.eqb c' c || has_char c rest
  end.

(** The result row that the batch loop owes to one value of the column. *)
Definition row_for (sentiment_analyzer : SentimentAnalyzer.t) (value : App.cell)
    (row : App.result_row) : Prop :=
  match value with
  | App.CStr text =>
      exists sentiment_result pos neu neg,
        SentimentAnalyzer.analyze_sentiment sentiment_analyzer text
          = Py.Ok sentiment_result /\
        Py.get (SentimentAnalyzer.probabilities sentiment_result) "Positive" = Some pos /\
        Py.get (SentimentAnalyzer.probabilities sentiment_result) "Neutral" = Some neu /\
        Py.get (SentimentAnalyzer.probabilities sentiment_result) "Negative" = Some neg /\
        row = {| App.text := if 100 <? Py.len_str text
                             then (Py.slice_to 100 text ++ "...")%string
                             else text;
                 App.max_sentiment := SentimentAnalyzer.max_sentiment sentiment_result;
                 App.positive := App.NFloat pos;
                 App.neutral := App.NFloat neu;
                 App.negative := App.NFloat neg |}
  | _ =>
      row = {| App.text := "Invalid text";
               App.max_sentiment := "N/A";
               App.positive := App.NInt 0;
               App.neutral := App.NInt 0;
               App.negative := App.NInt 0 |}
  end.

(** The text of a result row is the preview of the text of the column:
    the text itself up to 100 characters, its first 100 characters and
    three dots beyond.  The text is cut between two characters: the tail
    holds the characters that the head does not. *)
Definition preview_of (text preview : string) : Prop :=
  (Py.len_str text <= 100 -> preview = text) /\
  (100 < Py.len_str text ->
   exists head tail,
     text = (head ++ tail)%string /\
     Py.len_str head = 100 /\
     Py.len_str tail = Py.len_str text - 100 /\
     preview = (head ++ "...")%string).

(** The counts of a dictionary are those of the occurrences in a list of
    genres: every genre of the list has its number of occurrences, no other
    genre is a key, and no key is there twice. *)
Definition tally_of (genres : list string) (counts : Py.dict Z) : Prop :=
  Py.dict_wf counts /\
  forall genre,
    Py.get counts genre
    = match count_occ string_dec genres genre with
      | O => None
      | S n => Some (Z.of_nat (S n))
      end.

(** The sum of the counts of a dictionary. *)
Definition total (counts : Py.dict Z) : Z := fold_right Z.add 0 (map snd counts).

(** ** Inputs of the examples *)

Module Examples.

(** [{"Negative": 0.2, "Neutral": 0.3, "Positive": 0.5}] *)
Definition mixed_profile : Py.dict Py.float :=
  [("Negative", Py.float_of_ratio 2 10);
   ("Neutral", Py.float_of_ratio 3 10);
   ("Positive", Py.float_of_ratio 5 10)].

(** [{"Negative": 0.05, "Neutral": 0.05, "Positive": 0.9}] *)
Definition positive_profile : Py.dict Py.float :=
  [("Negative", Py.float_of_ratio 5 100);
   ("Neutral", Py.float_of_ratio 5 100);
   ("Positive", Py.float_of_ratio 9 10)].

(** [{"Negative": 0.2, "Neutral": 0.4, "Positive": 0.4}] *)
Definition even_profile : Py.dict Py.float :=
  [("Negative", Py.float_of_ratio 2 10);
   ("Neutral", Py.float_of_ratio 4 10);
   ("Positive", Py.float_of_ratio 4 10)].

Definition dune : item :=
  Book "Dune" "Frank Herbert" "Fiction, Science" 1965 "A desert planet.".

(** A recommender whose books list one title under two sentiments. *)
Definition overlapping : MediaRecommender.t :=
  {| MediaRecommender.genre_sentiment_mapping := [];
     MediaRecommender.movies := MediaRecommender.empty_dataset;
     MediaRecommender.books :=
       [("Positive", [dune]); ("Neutral", [dune]); ("Negative", [])] |}.

(** A recommender whose books have no Neutral bucket. *)
Definition no_neutral_books : MediaRecommender.t :=
  {| MediaRecommender.genre_sentiment_mapping := [];
     MediaRecommender.movies := MediaRecommender.empty_dataset;
     MediaRecommender.books := [("Positive", [dune]); ("Negative", [])] |}.

(** A recommender after both fetches failed: every bucket empty. *)
Definition fallback : MediaRecommender.t :=
  {| MediaRecommender.genre_sentiment_mapping := [];
     MediaRecommender.movies := MediaRecommender.empty_dataset;
     MediaRecommender.books := MediaRecommender.empty_dataset |}.

(** A movie rated zero, with the sign of the zero. *)
Definition zero_rated (negative : bool) : item :=
  Movie "Untitled" 2000 "Drama" (S754_zero negative) "No description.".

(** A recommender with two movies that differ in the sign of a rating of
    zero only: [0.0 == -0.0], so the two are equal. *)
Definition zero_ratings : MediaRecommender.t :=
  {| MediaRecommender.genre_sentiment_mapping := [];
     MediaRecommender.movies :=
       [("Positive", [zero_rated false; zero_rated true])];
     MediaRecommender.books := MediaRecommender.empty_dataset |}.

(** A text of n letters of two bytes each. *)
Definition accented (n : nat) : string := String.concat "" (repeat "é" n).

(** An analyzer whose model gives two scores only. *)
Definition short_analyzer : SentimentAnalyzer.t :=
  {| SentimentAnalyzer.model := fun _ =>
       [Py.float_of_ratio 1 10; Py.float_of_ratio 9 10] |}.

(** An analyzer whose model scores every text 0.1, 0.45 and 0.45. *)
Definition tied_analyzer : SentimentAnalyzer.t :=
  {| SentimentAnalyzer.model := fun _ =>
       [Py.float_of_ratio 1 10; Py.float_of_ratio 45 100; Py.float_of_ratio 45 100] |}.

End Examples.

(** * Properties *)

(** Keys of a literal dictionary are pairwise distinct. *)
Ltac solve_dict_wf :=
  unfold Py.dict_wf; simpl; repeat constructor; simpl; intuition discriminate.

(** The numbers of items to take of a literal profile, by computation. *)
Ltac solve_takes_defined :=
  unfold takes_defined;
  repeat (apply Forall_cons; [eexists; vm_compute; reflexivity|]);
  apply Forall_nil.

(** ** Drawing without replacement *)

Lemma drawn_from_nil {A : Type} (l : list A) : drawn_from [] l.
Proof. exists l. reflexivity. Qed.

Lemma drawn_from_refl {A : Type} (l : list A) : drawn_from l l.
Proof. exists []. rewrite app_nil_r. reflexivity. Qed.

Lemma drawn_from_incl {A : Type} (sel l : list A) :
  drawn_from sel l -> incl sel l.
Proof.
  intros [rest HP] x Hx.
  apply Permutation_sym in HP.
  apply (Permutation_in x HP), in_or_app; now left.
Qed.

Lemma drawn_from_NoDup {A : Type} (sel l : list A) :
  drawn_from sel l -> NoDup l -> NoDup sel.
Proof.
  intros [rest HP] HN.
  apply (Permutation_NoDup HP) in HN.
  now apply NoDup_app_remove_r in HN.
Qed.

Lemma drawn_from_length {A : Type} (sel l : list A) :
  drawn_from sel l -> (List.length sel <= List.length l)%nat.
Proof.
  intros [rest HP]. apply Permutation_length in HP.
  rewrite HP, length_app. lia.
Qed.

Lemma drawn_from_cons {A : Type} (x : A) (sel l l' : list A) :
  Permutation l (x :: l') -> drawn_from sel l' -> drawn_from (x :: sel) l.
Proof.
  intros HP [rest HR]. exists rest.
  rewrite HP. simpl. now constructor.
Qed.

Lemma remove_at_length {A : Type} (j : nat) (l : list A) :
  (j < List.length l)%nat -> S (List.length (Py.remove_at j l)) = List.length l.
Proof.
  revert j; induction l as [|x l IH]; intros j Hj; simpl in *; [lia|].
  destruct j; simpl; [reflexivity|].
  rewrite IH; [reflexivity | lia].
Qed.

Lemma remove_at_perm {A : Type} (d : A) (j : nat) (l : list A) :
  (j < List.length l)%nat -> Permutation l (nth j l d :: Py.remove_at j l).
Proof.
  revert j; induction l as [|x l IH]; intros j Hj; simpl in *; [lia|].
  destruct j; simpl; [reflexivity|].
  rewrite perm_swap. constructor. apply IH. lia.
Qed.

Lemma randbelow_spec (n : nat) (g : Py.rng) :
  (0 < n)%nat -> exists j g', Py.randbelow n g = Py.Ok (j, g') /\ (j < n)%nat.
Proof.
  intros Hn. destruct g as [|r g]; simpl.
  - exists 0%nat, []. split; [reflexivity | exact Hn].
  - exists (Nat.modulo r n), g. split; [reflexivity|].
    apply Nat.mod_upper_bound. lia.
Qed.

(** Drawing never raises; it yields as many elements as asked for, or the
    whole pool when the pool is shorter. *)
Lemma draw_spec {A : Type} (k : nat) :
  forall (l : list A) (g : Py.rng),
  exists sel g',
    Py.draw k l g = Py.Ok (sel, g') /\
    List.length sel = Nat.min k (List.length l) /\
    drawn_from sel l.
Proof.
  induction k as [|k IH]; intros l g.
  - exists [], g. repeat split. apply drawn_from_nil.
  - destruct l as [|x l].
    + exists [], g. repeat split. apply drawn_from_nil.
    + cbn [Py.draw]. unfold Py.bind.
      destruct (randbelow_spec (List.length (x :: l)) g) as (j & g1 & Hr & Hj);
        [simpl; lia|].
      rewrite Hr.
      destruct (IH (Py.remove_at j (x :: l)) g1) as (sel & g2 & Hd & Hlen & Hdr).
      rewrite Hd. unfold Py.ret.
      exists (nth j (x :: l) x :: sel), g2. split; [reflexivity|]. split.
      * cbn [List.length]. rewrite Hlen.
        pose proof (remove_at_length j (x :: l) Hj) as HL.
        cbn [List.length] in *. lia.
      * eapply drawn_from_cons; [apply remove_at_perm; exact Hj | exact Hdr].
Qed.

(** Every choice of positions is drawn from some state of the generator. *)
Lemma draw_complete {A : Type} (pool sel : list A) :
  picks pool sel ->
  exists g, forall g0,
    Py.draw (List.length sel) pool (g ++ g0) = Py.Ok (sel, g0).
Proof.
  induction 1 as [pool|pool j x sel Hj _ [g IH]].
  - exists []. reflexivity.
  - exists (j :: g). intros g0.
    assert (Hlt : (j < List.length pool)%nat) by (apply nth_error_Some; congruence).
    destruct pool as [|x0 pool]; [simpl in Hlt; lia|].
    cbn [List.length Py.draw]. unfold Py.bind. cbn [app Py.randbelow].
    rewrite Nat.mod_small by exact Hlt.
    rewrite IH. unfold Py.ret.
    rewrite (nth_error_nth _ _ x0 Hj). reflexivity.
Qed.

Lemma sample_spec {A : Type} (population : list A) (k : Z) (g : Py.rng) :
  0 <= k <= Py.len population ->
  exists sel g',
    Py.sample population k g = Py.Ok (sel, g') /\
    Py.len sel = k /\
    drawn_from sel population.
Proof.
  intros Hk. unfold Py.sample.
  replace ((0 <=? k) && (k <=? Py.len population)) with true
    by (symmetry; apply andb_true_iff; split; apply Z.leb_le; lia).
  destruct (draw_spec (Z.to_nat k) population g) as (sel & g' & Hd & Hlen & Hdr).
  exists sel, g'. split; [exact Hd|]. split; [|exact Hdr].
  unfold Py.len in *. lia.
Qed.

Lemma sample_raises {A : Type} (population : list A) (k : Z) (g : Py.rng) :
  k < 0 \/ Py.len population < k ->
  Py.sample population k g = Py.Raise Py.ValueError.
Proof.
  intros Hk. unfold Py.sample.
  replace ((0 <=? k) && (k <=? Py.len population)) with false; [reflexivity|].
  symmetry. apply andb_false_iff.
  destruct Hk; [left; apply Z.leb_gt | right; apply Z.leb_gt]; lia.
Qed.

(** ** Lengths and truth values *)

Lemma len_nonneg {A : Type} (l : list A) : 0 <= Py.len l.
Proof. unfold Py.len. lia. Qed.

Lemma len_app {A : Type} (l1 l2 : list A) : Py.len (l1 ++ l2) = Py.len l1 + Py.len l2.
Proof. unfold Py.len. rewrite length_app. lia. Qed.

Lemma len_nil {A : Type} : Py.len (@nil A) = 0.
Proof. reflexivity. Qed.

Lemma truthy_false {A : Type} (l : list A) : Py.truthy l = false -> l = [].
Proof. destruct l; [reflexivity | discriminate]. Qed.

Lemma truthy_true {A : Type} (l : list A) : Py.truthy l = true -> 0 < Py.len l.
Proof. destruct l; [discriminate | unfold Py.len; simpl; lia]. Qed.

Lemma drawn_from_len {A : Type} (sel l : list A) :
  drawn_from sel l -> Py.len sel <= Py.len l.
Proof. intros H. apply drawn_from_length in H. unfold Py.len. lia. Qed.

(** ** Equality of floats and of items *)

Lemma SFcompare_swap (x y : Py.float) :
  SFcompare y x = match SFcompare x y with
                  | Some c => Some (CompOpp c)
                  | None => None
                  end.
Proof.
  destruct x as [sx|sx| |sx mx ex], y as [sy|sy| |sy my ey]; simpl;
    try reflexivity;
    try (destruct sx; reflexivity); try (destruct sy; reflexivity);
    try (destruct sx, sy; reflexivity).
  destruct sx, sy; try reflexivity;
    rewrite (Z.compare_antisym ex ey); destruct (ex ?= ey); simpl; try reflexivity;
    rewrite ?(Pos.compare_cont_antisym mx my Eq); simpl; reflexivity.
Qed.

Lemma SFcompare_None (x y : Py.float) :
  SFcompare x y = None -> Py.is_nan x = true \/ Py.is_nan y = true.
Proof.
  destruct x as [sx|sx| |sx mx ex], y as [sy|sy| |sy my ey]; simpl; auto;
    discriminate.
Qed.

Lemma SFcompare_refl (x : Py.float) :
  Py.is_nan x = false -> SFcompare x x = Some Eq.
Proof.
  destruct x as [sx|sx| |sx mx ex]; simpl; try discriminate; intros _.
  - reflexivity.
  - now destruct sx.
  - destruct sx; rewrite Z.compare_refl;
      change (Pos.compare_cont Eq mx mx) with (Pos.compare mx mx);
      now rewrite Pos.compare_refl.
Qed.

Lemma rating_eqb_refl (x : Py.float) : rating_eqb x x = true.
Proof.
  unfold rating_eqb, Py.float_eq, SFeqb.
  destruct (Py.is_nan x) eqn:E; [reflexivity|].
  now rewrite (SFcompare_refl x E).
Qed.

Lemma rating_eqb_sym (x y : Py.float) : rating_eqb x y = rating_eqb y x.
Proof.
  unfold rating_eqb, Py.float_eq, SFeqb.
  rewrite (SFcompare_swap x y), (andb_comm (Py.is_nan x)).
  destruct (SFcompare x y) as [[]|]; reflexivity.
Qed.

Lemma item_eqb_refl (x : item) : item_eqb x x = true.
Proof.
  destruct x; cbn [item_eqb];
    rewrite ?String.eqb_refl, ?Z.eqb_refl, ?rating_eqb_refl; reflexivity.
Qed.

Lemma item_eqb_sym (x y : item) : item_eqb x y = item_eqb y x.
Proof.
  destruct x, y; cbn [item_eqb]; try reflexivity;
    repeat (f_equal; try apply String.eqb_sym; try apply Z.eqb_sym;
            try apply rating_eqb_sym).
Qed.

(** An item is in every list that holds it. *)
Lemma contains_intro (x : item) (l : list item) : In x l -> Py.contains x l = true.
Proof.
  intros H. unfold Py.contains. apply existsb_exists.
  exists x. split; [exact H | apply item_eqb_refl].
Qed.

Lemma contains_inv (x : item) (l : list item) :
  Py.contains x l = true -> exists y, In y l /\ item_eqb x y = true.
Proof. unfold Py.contains. intros H. apply existsb_exists in H. exact H. Qed.

(** Among items that are equal to themselves only, [in] is membership. *)
Lemma contains_In (u : list item) (x : item) (l : list item) :
  eq_is_identity u -> In x u -> incl l u -> Py.contains x l = true -> In x l.
Proof.
  intros Hu Hx Hl H. destruct (contains_inv x l H) as (y & Hy & He).
  now rewrite (Hu x y Hx (Hl y Hy) He).
Qed.

Lemma nodupb_NoDup (l : list item) : nodupb l = true -> NoDup l.
Proof.
  induction l as [|x l IH]; cbn [nodupb]; intros H; [constructor|].
  apply andb_true_iff in H. destruct H as [Hx Hl].
  constructor; [|now apply IH].
  intros Hin. apply contains_intro in Hin. rewrite Hin in Hx. discriminate.
Qed.

Lemma nodupb_identity (l : list item) : nodupb l = true -> eq_is_identity l.
Proof.
  induction l as [|a l IH]; intros H x y Hx Hy He; [destruct Hx|].
  cbn [nodupb] in H. apply andb_true_iff in H. destruct H as [Ha Hl].
  apply negb_true_iff in Ha.
  assert (Hnot : forall z, In z l -> item_eqb a z = false).
  { intros z Hz. destruct (item_eqb a z) eqn:E; [|reflexivity].
    assert (Hc : Py.contains a l = true)
      by (apply existsb_exists; exists z; split; [exact Hz | exact E]).
    congruence. }
  destruct Hx as [<-|Hx], Hy as [<-|Hy].
  - reflexivity.
  - rewrite (Hnot y Hy) in He. discriminate.
  - rewrite item_eqb_sym, (Hnot x Hx) in He. discriminate.
  - now apply IH.
Qed.

Lemma NoDup_nodupb (u l : list item) :
  eq_is_identity u -> incl l u -> NoDup l -> nodupb l = true.
Proof.
  intros Hu Hl HN. induction HN as [|a l Hnin HN IH]; [reflexivity|].
  cbn [nodupb]. apply andb_true_iff. split.
  - apply negb_true_iff. destruct (Py.contains a l) eqn:E; [|reflexivity].
    exfalso. apply Hnin. apply (contains_In u); auto.
    + apply Hl. now left.
    + intros z Hz. apply Hl. now right.
  - apply IH. intros z Hz. apply Hl. now right.
Qed.

Lemma disjoint_pools_distinct (d : Py.dict (list item)) :
  disjoint_pools d -> distinct_items d.
Proof. apply nodupb_NoDup. Qed.

Lemma disjoint_pools_identity (d : Py.dict (list item)) :
  disjoint_pools d -> eq_is_identity (List.concat (map snd d)).
Proof. apply nodupb_identity. Qed.

(** ** The buckets of a catalog *)

Lemma pool_cons (k' k : string) (v : list item) (d : Py.dict (list item)) :
  pool ((k', v) :: d) k = if String.eqb k' k then v else pool d k.
Proof.
  unfold pool, Py.get_default. simpl. now destruct (String.eqb k' k).
Qed.

Lemma pool_absent (d : Py.dict (list item)) (k : string) :
  Py.get d k = None -> pool d k = [].
Proof. unfold pool, Py.get_default. now intros ->. Qed.

Lemma pool_incl (d : Py.dict (list item)) (k : string) :
  incl (pool d k) (List.concat (map snd d)).
Proof.
  induction d as [|[k' v] d IH]; [intros x []|].
  rewrite pool_cons. simpl. destruct (String.eqb k' k).
  - apply incl_appl, incl_refl.
  - apply incl_appr, IH.
Qed.

Lemma pool_NoDup (d : Py.dict (list item)) (k : string) :
  distinct_items d -> NoDup (pool d k).
Proof.
  unfold distinct_items.
  induction d as [|[k' v] d IH]; intros HN; [constructor|].
  rewrite pool_cons. simpl in HN. destruct (String.eqb k' k).
  - now apply NoDup_app_remove_r in HN.
  - apply IH. now apply NoDup_app_remove_l in HN.
Qed.

Lemma NoDup_app_disjoint {A : Type} (l1 l2 : list A) (x : A) :
  NoDup (l1 ++ l2) -> In x l1 -> In x l2 -> False.
Proof.
  induction l1 as [|a l1 IH]; simpl; intros HN H1 H2; [exact H1|].
  inversion HN as [|? ? Hnin HN']; subst.
  destruct H1 as [->|H1].
  - apply Hnin, in_or_app. now right.
  - now apply IH.
Qed.

Lemma pool_disjoint (d : Py.dict (list item)) (k1 k2 : string) (x : item) :
  distinct_items d -> k1 <> k2 -> In x (pool d k1) -> In x (pool d k2) -> False.
Proof.
  unfold distinct_items.
  induction d as [|[k' v] d IH]; intros HN Hk H1 H2; [exact H1|].
  rewrite pool_cons in H1, H2. simpl in HN.
  destruct (String.eqb_spec k' k1) as [E1|E1], (String.eqb_spec k' k2) as [E2|E2].
  - congruence.
  - apply (NoDup_app_disjoint _ _ x HN H1). now apply (pool_incl d k2).
  - apply (NoDup_app_disjoint _ _ x HN H2). now apply (pool_incl d k1).
  - apply IH; auto. now apply NoDup_app_remove_l in HN.
Qed.

Lemma pool_nodupb (d : Py.dict (list item)) (k : string) :
  disjoint_pools d -> nodupb (pool d k) = true.
Proof.
  intros Hdis. apply (NoDup_nodupb (List.concat (map snd d))).
  - now apply disjoint_pools_identity.
  - apply pool_incl.
  - now apply pool_NoDup, disjoint_pools_distinct.
Qed.

(** In a catalog that lists no item twice, no item of a bucket is in
    another bucket. *)
Lemma contains_other_pool (d : Py.dict (list item)) (k1 k2 : string) (x : item) :
  disjoint_pools d -> k1 <> k2 -> In x (pool d k1) ->
  Py.contains x (pool d k2) = false.
Proof.
  intros Hdis Hk Hx. destruct (Py.contains x (pool d k2)) eqn:E; [|reflexivity].
  exfalso.
  apply (contains_In (List.concat (map snd d))) in E.
  - exact (pool_disjoint d k1 k2 x (disjoint_pools_distinct _ Hdis) Hk Hx E).
  - now apply disjoint_pools_identity.
  - now apply (pool_incl d k1).
  - apply pool_incl.
Qed.

(** ** The first loop: items of each sentiment category *)

Lemma take_from_category_spec (all_items : Py.dict (list item)) (n : Z)
    (total : list item) (entry : string * Py.float) (g : Py.rng) :
  (exists k, MediaRecommender.items_to_take n (snd entry) = Py.Ok k) ->
  exists sel g',
    MediaRecommender.take_from_category all_items n total entry g
      = Py.Ok (total ++ sel, g') /\
    drawn_from sel (pool all_items (fst entry)) /\
    Py.len sel = share all_items n entry.
Proof.
  destruct entry as [s p]. intros [k Hk]. simpl in Hk.
  unfold MediaRecommender.take_from_category, share, Py.bind, Py.lift.
  cbn [fst snd]. rewrite Hk. fold (pool all_items s).
  destruct (Py.truthy (pool all_items s) && (0 <? k)) eqn:E.
  - apply andb_true_iff in E. destruct E as [Ht Hpos].
    apply truthy_true in Ht. apply Z.ltb_lt in Hpos.
    destruct (sample_spec (pool all_items s) (Z.min k (Py.len (pool all_items s))) g)
      as (sel & g' & Hs & Hlen & Hdr); [lia|].
    rewrite Hs. exists sel, g'. auto.
  - exists [], g. rewrite app_nil_r. repeat split. apply drawn_from_nil.
Qed.

(** The loop appends one draw per entry of the profile, in order. *)
Lemma first_loop_spec (all_items : Py.dict (list item)) (n : Z)
    (sentiment_probs : Py.dict Py.float) :
  takes_defined n sentiment_probs ->
  forall (total : list item) (g : Py.rng),
  exists sels g',
    for_each sentiment_probs total (MediaRecommender.take_from_category all_items n) g
      = Py.Ok (total ++ List.concat sels, g') /\
    category_draws all_items n sentiment_probs sels.
Proof.
  induction 1 as [|entry rest Hd _ IH]; intros total g.
  - exists [], g. simpl. rewrite app_nil_r. split; [reflexivity | constructor].
  - destruct (take_from_category_spec all_items n total entry g Hd)
      as (sel & g1 & Hs & Hdr & Hlen).
    destruct (IH (total ++ sel) g1) as (sels & g2 & Hl & HF).
    exists (sel :: sels), g2. split.
    + cbn [for_each]. unfold Py.bind at 1. rewrite Hs, Hl.
      simpl. now rewrite <- app_assoc.
    + constructor; auto.
Qed.

Lemma draws_in_pools (all_items : Py.dict (list item)) (n : Z)
    (sentiment_probs : Py.dict Py.float) (sels : list (list item)) :
  category_draws all_items n sentiment_probs sels ->
  forall x, In x (List.concat sels) ->
  exists k, In k (Py.keys sentiment_probs) /\ In x (pool all_items k).
Proof.
  induction 1 as [|entry sel rest sels [Hdr _] _ IH]; intros x Hx; [destruct Hx|].
  simpl in Hx. apply in_app_or in Hx. destruct Hx as [Hx|Hx].
  - exists (fst entry). split; [now left|]. now apply (drawn_from_incl _ _ Hdr).
  - destruct (IH x Hx) as (k & Hk & Hp). exists k. split; [now right | exact Hp].
Qed.

Lemma draws_NoDup (all_items : Py.dict (list item)) (n : Z)
    (sentiment_probs : Py.dict Py.float) (sels : list (list item)) :
  distinct_items all_items ->
  Py.dict_wf sentiment_probs ->
  category_draws all_items n sentiment_probs sels ->
  NoDup (List.concat sels).
Proof.
  intros Hdis Hwf HF. unfold Py.dict_wf in Hwf. unfold category_draws in HF.
  induction HF as [|entry sel rest sels [Hdr Hlen] HF IH]; [constructor|].
  simpl in *. inversion Hwf as [|? ? Hnin Hwf']; subst.
  apply NoDup_app; auto.
  - eapply drawn_from_NoDup; [exact Hdr | now apply pool_NoDup].
  - intros x Hx Hx'.
    destruct (draws_in_pools _ _ _ _ HF x Hx') as (k & Hk & Hp).
    apply (pool_disjoint all_items (fst entry) k x); auto.
    + intros E. apply Hnin. rewrite E. exact Hk.
    + now apply (drawn_from_incl _ _ Hdr).
Qed.

(** ** The second step: more items of the highest probability sentiment *)

Lemma max_key_from_in (best : string) (best_val : Py.float) (d : Py.dict Py.float) :
  Py.max_key_from best best_val d = best \/
  In (Py.max_key_from best best_val d) (Py.keys d).
Proof.
  revert best best_val. induction d as [|[k v] d IH]; intros best best_val; simpl.
  - now left.
  - destruct (Py.float_gt v best_val).
    + destruct (IH k v) as [-> | H]; auto.
    + destruct (IH best best_val) as [-> | H]; auto.
Qed.

Lemma max_key_defined (d : Py.dict Py.float) :
  d <> [] -> exists k, Py.max_key d = Py.Ok k /\ In k (Py.keys d).
Proof.
  destruct d as [|[k v] d]; [congruence|]. intros _.
  exists (Py.max_key_from k v d). split; [reflexivity|].
  simpl. destruct (max_key_from_in k v d) as [-> | H]; auto.
Qed.

Lemma add_from_max_sentiment_spec (all_items : Py.dict (list item))
    (sentiment_probs : Py.dict Py.float) (n : Z) (total : list item) (g : Py.rng) :
  sentiment_probs <> [] ->
  exists add g',
    MediaRecommender.add_from_max_sentiment all_items sentiment_probs n total g
      = Py.Ok (total ++ add, g') /\
    backfill all_items sentiment_probs n total add.
Proof.
  intros Hne. unfold MediaRecommender.add_from_max_sentiment, backfill.
  destruct (Py.len total <? n) eqn:E.
  - apply Z.ltb_lt in E.
    destruct (max_key_defined sentiment_probs Hne) as (dom & Hdom & Hin).
    unfold Py.bind at 1, Py.lift. rewrite Hdom.
    fold (pool all_items dom). fold (not_selected all_items dom total).
    destruct (Py.truthy (not_selected all_items dom total)) eqn:Et.
    + apply truthy_true in Et.
      destruct (sample_spec (not_selected all_items dom total)
                  (Z.min (n - Py.len total) (Py.len (not_selected all_items dom total))) g)
        as (add & g' & Hs & Hlen & Hdr); [lia|].
      unfold Py.bind. rewrite Hs. exists add, g'. split; [reflexivity|].
      right. split; [exact E|]. exists dom. auto.
    + apply truthy_false in Et. exists [], g. rewrite app_nil_r.
      split; [reflexivity|]. right. split; [exact E|]. exists dom.
      rewrite Et. repeat split; auto.
      * apply drawn_from_nil.
      * rewrite len_nil. lia.
  - apply Z.ltb_ge in E. exists [], g. rewrite app_nil_r.
    split; [reflexivity|]. left. auto.
Qed.

Lemma backfill_fresh (all_items : Py.dict (list item))
    (sentiment_probs : Py.dict Py.float) (n : Z) (total add : list item) :
  backfill all_items sentiment_probs n total add ->
  forall x, In x add -> ~ In x total.
Proof.
  intros [[_ ->] | (_ & dom & _ & _ & Hdr & _)] x Hx; [destruct Hx|].
  apply (drawn_from_incl _ _ Hdr) in Hx.
  unfold not_selected in Hx. apply filter_In in Hx. destruct Hx as [_ Hx].
  apply negb_true_iff in Hx. intros Hin. apply contains_intro in Hin. congruence.
Qed.

Lemma backfill_not_contained (all_items : Py.dict (list item))
    (sentiment_probs : Py.dict Py.float) (n : Z) (total add : list item) :
  backfill all_items sentiment_probs n total add ->
  forall x, In x add -> Py.contains x total = false.
Proof.
  intros [[_ ->] | (_ & dom & _ & _ & Hdr & _)] x Hx; [destruct Hx|].
  apply (drawn_from_incl _ _ Hdr) in Hx.
  unfold not_selected in Hx. apply filter_In in Hx. destruct Hx as [_ Hx].
  now apply negb_true_iff in Hx.
Qed.

Lemma backfill_in_pool (all_items : Py.dict (list item))
    (sentiment_probs : Py.dict Py.float) (n : Z) (total add : list item) :
  backfill all_items sentiment_probs n total add ->
  forall x, In x add ->
  exists k, In k (Py.keys sentiment_probs) /\ In x (pool all_items k).
Proof.
  intros [[_ ->] | (_ & dom & _ & Hin & Hdr & _)] x Hx; [destruct Hx|].
  apply (drawn_from_incl _ _ Hdr) in Hx.
  unfold not_selected in Hx. apply filter_In in Hx. destruct Hx as [Hx _].
  exists dom. auto.
Qed.

Lemma backfill_NoDup (all_items : Py.dict (list item))
    (sentiment_probs : Py.dict Py.float) (n : Z) (total add : list item) :
  distinct_items all_items ->
  backfill all_items sentiment_probs n total add ->
  NoDup total -> NoDup (total ++ add).
Proof.
  intros Hdis Hb Ht. apply NoDup_app; auto.
  - destruct Hb as [[_ ->] | (_ & dom & _ & _ & Hdr & _)]; [constructor|].
    eapply drawn_from_NoDup; [exact Hdr|].
    unfold not_selected. apply NoDup_filter. now apply pool_NoDup.
  - intros x Hx Hx'. now apply (backfill_fresh _ _ _ _ _ Hb x Hx').
Qed.

Lemma backfill_len (all_items : Py.dict (list item))
    (sentiment_probs : Py.dict Py.float) (n : Z) (total add : list item) :
  backfill all_items sentiment_probs n total add ->
  Py.len total < n -> Py.len (total ++ add) <= n.
Proof.
  intros [[? _] | (_ & dom & _ & _ & _ & Hlen)] Hlt; [lia|].
  rewrite len_app. lia.
Qed.

(** ** The third step: a random subset *)

Lemma take_subset_spec (n : Z) (total : list item) (g : Py.rng) :
  0 <= n ->
  exists r g',
    MediaRecommender.take_subset n total g = Py.Ok (r, g') /\
    drawn_from r total /\
    Py.len r = Z.min n (Py.len total) /\
    (Py.len total <= n -> r = total /\ g' = g).
Proof.
  intros Hn. unfold MediaRecommender.take_subset.
  destruct (n <? Py.len total) eqn:E.
  - apply Z.ltb_lt in E.
    destruct (sample_spec total n g) as (r & g' & Hs & Hlen & Hdr); [lia|].
    exists r, g'. repeat split; auto; lia.
  - apply Z.ltb_ge in E. exists total, g. repeat split; auto.
    + apply drawn_from_refl.
    + lia.
Qed.

(** ** The three steps together *)

Lemma get_genre_recommendations_unknown (self : MediaRecommender.t)
    (sentiment_probs : Py.dict Py.float) (media_type : string) (n : Z) (g : Py.rng) :
  MediaRecommender.items_of self media_type = None ->
  MediaRecommender.get_genre_recommendations self sentiment_probs media_type n g
    = Py.Ok ([], g).
Proof.
  intros H. unfold MediaRecommender.get_genre_recommendations. now rewrite H.
Qed.

(** The result in terms of its three steps: the draws of the first loop,
    what the second step adds, and the subset of the third. *)
Lemma get_genre_recommendations_steps (self : MediaRecommender.t)
    (sentiment_probs : Py.dict Py.float) (media_type : string) (n : Z) (g : Py.rng)
    (all_items : Py.dict (list item)) :
  MediaRecommender.items_of self media_type = Some all_items ->
  sentiment_probs <> [] ->
  takes_defined n sentiment_probs ->
  0 <= n ->
  exists sels add r g',
    MediaRecommender.get_genre_recommendations self sentiment_probs media_type n g
      = Py.Ok (r, g') /\
    category_draws all_items n sentiment_probs sels /\
    backfill all_items sentiment_probs n (List.concat sels) add /\
    drawn_from r (List.concat sels ++ add) /\
    Py.len r = Z.min n (Py.len (List.concat sels ++ add)) /\
    (Py.len (List.concat sels ++ add) <= n -> r = List.concat sels ++ add).
Proof.
  intros Hitems Hne Hdef Hn.
  unfold MediaRecommender.get_genre_recommendations. rewrite Hitems.
  destruct (first_loop_spec all_items n sentiment_probs Hdef [] g)
    as (sels & g1 & H1 & HF).
  simpl in H1.
  destruct (add_from_max_sentiment_spec all_items sentiment_probs n
              (List.concat sels) g1 Hne) as (add & g2 & H2 & Hb).
  destruct (take_subset_spec n (List.concat sels ++ add) g2 Hn)
    as (r & g3 & H3 & Hdr & Hlen & Hsame).
  exists sels, add, r, g3.
  unfold Py.bind. rewrite H1, H2, H3.
  repeat split; auto. intros H. now apply Hsame.
Qed.

(** What the first two steps collect comes from the buckets of the
    profile's keys, and so does the result. *)
Lemma steps_in_pools (all_items : Py.dict (list item))
    (sentiment_probs : Py.dict Py.float) (n : Z) (sels : list (list item))
    (add r : list item) :
  category_draws all_items n sentiment_probs sels ->
  backfill all_items sentiment_probs n (List.concat sels) add ->
  drawn_from r (List.concat sels ++ add) ->
  forall x, In x r ->
  exists k, In k (Py.keys sentiment_probs) /\ In x (pool all_items k).
Proof.
  intros HF Hb Hdr x Hx. apply (drawn_from_incl _ _ Hdr) in Hx.
  apply in_app_or in Hx. destruct Hx as [Hx|Hx].
  - eapply draws_in_pools; eauto.
  - eapply backfill_in_pool; eauto.
Qed.

(** With a catalog that lists no item twice, neither do the first two steps
    nor the result, in the sense of [==] as well. *)
Lemma steps_nodup (all_items : Py.dict (list item))
    (sentiment_probs : Py.dict Py.float) (n : Z) (sels : list (list item))
    (add r : list item) :
  disjoint_pools all_items ->
  Py.dict_wf sentiment_probs ->
  category_draws all_items n sentiment_probs sels ->
  backfill all_items sentiment_probs n (List.concat sels) add ->
  drawn_from r (List.concat sels ++ add) ->
  NoDup (List.concat sels ++ add) /\ NoDup r /\ nodupb r = true.
Proof.
  intros Hdis Hwf HF Hb Hdr.
  pose proof (disjoint_pools_distinct _ Hdis) as Hdist.
  assert (HN : NoDup (List.concat sels ++ add)).
  { eapply backfill_NoDup; eauto. eapply draws_NoDup; eauto. }
  assert (HNr : NoDup r) by now apply (drawn_from_NoDup _ _ Hdr).
  split; [exact HN|]. split; [exact HNr|].
  apply (NoDup_nodupb (List.concat (map snd all_items)));
    [now apply disjoint_pools_identity | | exact HNr].
  intros x Hx.
  destruct (steps_in_pools _ _ _ _ _ _ HF Hb Hdr x Hx) as (k & _ & Hk).
  now apply (pool_incl all_items k).
Qed.

(** With disjoint buckets the result has no duplicates, holds at most the
    requested number of items, and holds only items of the buckets of the
    profile's keys. *)
Lemma get_genre_recommendations_sound (self : MediaRecommender.t)
    (sentiment_probs : Py.dict Py.float) (media_type : string) (n : Z) (g : Py.rng)
    (all_items : Py.dict (list item)) :
  MediaRecommender.items_of self media_type = Some all_items ->
  disjoint_pools all_items ->
  Py.dict_wf sentiment_probs ->
  sentiment_probs <> [] ->
  takes_defined n sentiment_probs ->
  0 <= n ->
  exists r g',
    MediaRecommender.get_genre_recommendations self sentiment_probs media_type n g
      = Py.Ok (r, g') /\
    Py.len r <= n /\
    NoDup r /\
    nodupb r = true /\
    (forall x, In x r ->
       exists k, In k (Py.keys sentiment_probs) /\ In x (pool all_items k)).
Proof.
  intros Hitems Hdis Hwf Hne Hdef Hn.
  destruct (get_genre_recommendations_steps self sentiment_probs media_type n g
              all_items Hitems Hne Hdef Hn)
    as (sels & add & r & g' & Hr & HF & Hb & Hdr & Hlen & _).
  exists r, g'. split; [exact Hr|]. split; [lia|].
  destruct (steps_nodup _ _ _ _ _ _ Hdis Hwf HF Hb Hdr) as (_ & HNr & Hb').
  split; [exact HNr|]. split; [exact Hb'|].
  now apply (steps_in_pools _ _ _ _ _ _ HF Hb Hdr).
Qed.

(** ** Counting what the first loop leaves in a bucket *)

Lemma filter_length_perm {A : Type} (f : A -> bool) (l l' : list A) :
  Permutation l l' -> List.length (filter f l) = List.length (filter f l').
Proof.
  induction 1 as [|x l l' _ IH|x y l|l l' l'' _ IH1 _ IH2]; simpl.
  - reflexivity.
  - destruct (f x); simpl; congruence.
  - destruct (f x), (f y); reflexivity.
  - congruence.
Qed.

Lemma filter_none {A : Type} (f : A -> bool) (l : list A) :
  (forall x, In x l -> f x = false) -> filter f l = [].
Proof.
  induction l as [|a l IH]; intros H; simpl; [reflexivity|].
  rewrite (H a (or_introl eq_refl)). apply IH. intros x Hx. apply H. now right.
Qed.

Lemma filter_all {A : Type} (f : A -> bool) (l : list A) :
  (forall x, In x l -> f x = true) -> filter f l = l.
Proof.
  induction l as [|a l IH]; intros H; simpl; [reflexivity|].
  rewrite (H a (or_introl eq_refl)). f_equal. apply IH. intros x Hx. apply H. now right.
Qed.

(** Of a duplicate-free pool, a draw leaves as many items as it did not take. *)
Lemma not_drawn_len (sel l : list item) :
  nodupb l = true -> drawn_from sel l ->
  Py.len (filter (fun x => negb (Py.contains x sel)) l) = Py.len l - Py.len sel.
Proof.
  intros Hb Hdr. pose proof (nodupb_NoDup _ Hb) as HN.
  pose proof (nodupb_identity _ Hb) as Hid.
  pose proof (drawn_from_incl _ _ Hdr) as Hincl.
  destruct Hdr as [rest HP]. unfold Py.len.
  rewrite (filter_length_perm _ _ _ HP), (Permutation_length HP).
  assert (Hrest : incl rest l).
  { intros x Hx. apply (Permutation_in x (Permutation_sym HP)), in_or_app. now right. }
  apply (Permutation_NoDup HP) in HN.
  rewrite filter_app, !length_app.
  rewrite filter_none, filter_all; [simpl; lia | |].
  - intros x Hx. apply negb_true_iff.
    destruct (Py.contains x sel) eqn:E; [|reflexivity].
    apply (contains_In l) in E; auto.
    destruct (NoDup_app_disjoint _ _ x HN E Hx).
  - intros x Hx. apply negb_false_iff. now apply contains_intro.
Qed.

Lemma category_draws_len (all_items : Py.dict (list item)) (n : Z)
    (sentiment_probs : Py.dict Py.float) (sels : list (list item)) :
  category_draws all_items n sentiment_probs sels ->
  Py.len (List.concat sels)
    = fold_right Z.add 0 (map (share all_items n) sentiment_probs).
Proof.
  induction 1 as [|entry sel rest sels [_ Hlen] _ IH]; [reflexivity|].
  simpl. rewrite len_app. lia.
Qed.

Lemma shares_except_absent (all_items : Py.dict (list item)) (n : Z)
    (sentiment : string) (sentiment_probs : Py.dict Py.float) :
  ~ In sentiment (Py.keys sentiment_probs) ->
  shares_except all_items n sentiment sentiment_probs
    = fold_right Z.add 0 (map (share all_items n) sentiment_probs).
Proof.
  unfold shares_except.
  induction sentiment_probs as [|entry rest IH]; intros Hnin; [reflexivity|].
  simpl in *. destruct (String.eqb_spec (fst entry) sentiment) as [E|E].
  - exfalso. apply Hnin. now left.
  - rewrite IH; [reflexivity|]. intros H. apply Hnin. now right.
Qed.

(** The draws miss the bucket of a key that the profile does not have. *)
Lemma draws_miss_pool (all_items : Py.dict (list item)) (n : Z)
    (sentiment_probs : Py.dict Py.float) (sels : list (list item)) (sentiment : string) :
  distinct_items all_items ->
  category_draws all_items n sentiment_probs sels ->
  ~ In sentiment (Py.keys sentiment_probs) ->
  forall x, In x (pool all_items sentiment) -> ~ In x (List.concat sels).
Proof.
  intros Hdis HF Hnin x Hx Hx'.
  destruct (draws_in_pools _ _ _ _ HF x Hx') as (k & Hk & Hp).
  apply (pool_disjoint all_items sentiment k x); auto.
  intros ->. contradiction.
Qed.

(** The draws meet the bucket of a key of the profile in the draw of that
    key only. *)
Lemma draws_meet_pool (all_items : Py.dict (list item)) (n : Z)
    (sentiment_probs : Py.dict Py.float) (sels : list (list item)) (sentiment : string) :
  distinct_items all_items ->
  Py.dict_wf sentiment_probs ->
  category_draws all_items n sentiment_probs sels ->
  In sentiment (Py.keys sentiment_probs) ->
  exists sel,
    drawn_from sel (pool all_items sentiment) /\
    (forall x, In x (pool all_items sentiment) ->
       (In x (List.concat sels) <-> In x sel)) /\
    Py.len (List.concat sels)
      = Py.len sel + shares_except all_items n sentiment sentiment_probs.
Proof.
  intros Hdis Hwf HF. unfold Py.dict_wf in Hwf.
  induction HF as [|entry sel0 rest sels [Hdr Hlen] HF IH]; intros Hin; [destruct Hin|].
  simpl in Hwf. inversion Hwf as [|? ? Hnin Hwf']; subst.
  assert (Hsh : shares_except all_items n sentiment (entry :: rest)
                = (if String.eqb (fst entry) sentiment then 0
                   else share all_items n entry)
                  + shares_except all_items n sentiment rest) by reflexivity.
  destruct (String.eqb_spec (fst entry) sentiment) as [E|E].
  - subst sentiment. exists sel0. split; [exact Hdr|]. split.
    + intros x Hx. simpl. rewrite in_app_iff. split; [|now left].
      intros [H|H]; [exact H|].
      destruct (draws_miss_pool _ _ _ _ _ Hdis HF Hnin x Hx H).
    + simpl. rewrite len_app, (category_draws_len _ _ _ _ HF), Hsh.
      rewrite shares_except_absent; [lia | exact Hnin].
  - destruct Hin as [Hin|Hin]; [contradiction|].
    destruct (IH Hwf' Hin) as (sel & Hdr' & Hiff & Hlen').
    exists sel. split; [exact Hdr'|]. split.
    + intros x Hx. simpl. rewrite in_app_iff, <- (Hiff x Hx). split; [|now right].
      intros [H|H]; [|exact H]. exfalso.
      apply (pool_disjoint all_items (fst entry) sentiment x); auto.
      now apply (drawn_from_incl _ _ Hdr).
    + simpl. rewrite len_app, Hlen', Hsh, Hlen. lia.
Qed.

(** What is in the running result and what is left of a bucket: together
    the whole bucket and the shares of the other keys. *)
Lemma not_selected_len (all_items : Py.dict (list item)) (n : Z)
    (sentiment_probs : Py.dict Py.float) (sels : list (list item)) (sentiment : string) :
  disjoint_pools all_items ->
  Py.dict_wf sentiment_probs ->
  category_draws all_items n sentiment_probs sels ->
  In sentiment (Py.keys sentiment_probs) ->
  Py.len (List.concat sels)
    + Py.len (not_selected all_items sentiment (List.concat sels))
  = Py.len (pool all_items sentiment)
    + shares_except all_items n sentiment sentiment_probs.
Proof.
  intros Hdis Hwf HF Hin.
  pose proof (disjoint_pools_distinct _ Hdis) as Hdist.
  pose proof (disjoint_pools_identity _ Hdis) as Hid.
  destruct (draws_meet_pool _ _ _ _ _ Hdist Hwf HF Hin) as (sel & Hdr & Hiff & Hlen).
  assert (Hsels : incl (List.concat sels) (List.concat (map snd all_items))).
  { intros x Hx. destruct (draws_in_pools _ _ _ _ HF x Hx) as (k & _ & Hk).
    now apply (pool_incl all_items k). }
  assert (Hsel : incl sel (List.concat (map snd all_items))).
  { intros x Hx. apply (pool_incl all_items sentiment).
    now apply (drawn_from_incl _ _ Hdr). }
  unfold not_selected.
  rewrite (filter_ext_in _ (fun x => negb (Py.contains x sel))).
  - rewrite not_drawn_len; [lia | now apply pool_nodupb | exact Hdr].
  - intros x Hx. f_equal.
    pose proof (pool_incl all_items sentiment x Hx) as Hcat.
    destruct (Py.contains x (List.concat sels)) eqn:E1,
             (Py.contains x sel) eqn:E2; try reflexivity.
    + apply (contains_In _ _ _ Hid Hcat Hsels) in E1. apply (Hiff x Hx) in E1.
      apply contains_intro in E1. congruence.
    + apply (contains_In _ _ _ Hid Hcat Hsel) in E2. apply (Hiff x Hx) in E2.
      apply contains_intro in E2. congruence.
Qed.

(** ** Rounding to a double does not overflow below a bound *)

Lemma Zdigits2_log2 (m : Z) : 0 < m -> Zdigits2 m = Z.log2 m + 1.
Proof.
  destruct m as [|p|p]; try lia. intros _. simpl.
  induction p as [p IH|p IH|]; simpl; try reflexivity.
  - rewrite Pos2Z.inj_succ, IH. destruct p; simpl; lia.
  - rewrite Pos2Z.inj_succ, IH. destruct p; simpl; lia.
Qed.

Lemma Zdigits2_nonneg (m : Z) : 0 <= Zdigits2 m.
Proof. destruct m; simpl; lia. Qed.

Lemma Zdigits2_mono (a b : Z) : 0 <= a <= b -> Zdigits2 a <= Zdigits2 b.
Proof.
  intros [Ha Hab]. destruct (Z.eq_dec a 0) as [->|Hne].
  - apply Zdigits2_nonneg.
  - rewrite !Zdigits2_log2 by lia. pose proof (Z.log2_le_mono a b Hab). lia.
Qed.

Lemma Zdigits2_succ (m : Z) : 0 <= m -> Zdigits2 (m + 1) <= Zdigits2 m + 1.
Proof.
  intros Hm. destruct (Z.eq_dec m 0) as [->|Hne]; [simpl; lia|].
  rewrite !Zdigits2_log2 by lia.
  pose proof (Z.log2_succ_le m). unfold Z.succ in *. lia.
Qed.

Lemma Zdigits2_div_pow2 (m k : Z) :
  0 <= m -> 0 < k -> Zdigits2 (m / 2 ^ k) <= Z.max (Zdigits2 m - k) 0.
Proof.
  intros Hm Hk.
  assert (Hq : 0 <= m / 2 ^ k) by (apply Z.div_pos; [lia | apply Z.pow_pos_nonneg; lia]).
  destruct (Z.eq_dec (m / 2 ^ k) 0) as [->|Hne]; [simpl; lia|].
  assert (Hpos : 0 < m).
  { destruct (Z.eq_dec m 0) as [->|]; [|lia]. rewrite Z.div_0_l in Hne; [lia|].
    apply Z.pow_nonzero; lia. }
  rewrite !Zdigits2_log2 by lia.
  rewrite <- Z.shiftr_div_pow2 by lia.
  rewrite Z.log2_shiftr by lia. 
  assert (k <= Z.log2 m).
  { apply Z.log2_le_pow2; [lia|].
    destruct (Z_lt_le_dec m (2 ^ k)) as [Hlt|]; [|lia].
    rewrite Z.div_small in Hne by lia. lia. }
  lia.
Qed.

Lemma Zdigits2_mul (a b : positive) :
  Zdigits2 (Zpos (a * b)) <= Zdigits2 (Zpos a) + Zdigits2 (Zpos b).
Proof.
  rewrite !Zdigits2_log2 by lia. rewrite Pos2Z.inj_mul.
  pose proof (Z.log2_mul_above (Zpos a) (Zpos b)). lia.
Qed.

Lemma shr_1_m (mrs : shr_record) :
  0 <= shr_m mrs -> shr_m (shr_1 mrs) = shr_m mrs / 2.
Proof.
  destruct mrs as [m r s]. simpl. intros Hm.
  destruct m as [|[p|p|]|p]; simpl; try lia; try reflexivity.
  - rewrite Pos2Z.inj_xI. apply Z.div_unique with 1; lia.
  - rewrite Pos2Z.inj_xO. apply Z.div_unique with 0; lia.
Qed.

Lemma iter_shr_1_m (p : positive) :
  forall mrs, 0 <= shr_m mrs ->
  shr_m (iter_pos shr_1 p mrs) = shr_m mrs / 2 ^ Zpos p.
Proof.
  assert (Hdiv : forall x a b, 0 < a -> 0 < b -> x / a / b = x / (a * b)).
  { intros. apply Z.div_div; lia. }
  assert (Hstep : forall mrs, 0 <= shr_m mrs -> 0 <= shr_m (shr_1 mrs)).
  { intros mrs H. rewrite shr_1_m by exact H. apply Z.div_pos; lia. }
  induction p as [p IH|p IH|]; intros mrs Hm; cbn [iter_pos].
  - assert (H1 := Hstep mrs Hm).
    assert (H2 : 0 <= shr_m (iter_pos shr_1 p (shr_1 mrs))).
    { rewrite IH by exact H1. apply Z.div_pos; [lia | apply Z.pow_pos_nonneg; lia]. }
    rewrite IH by exact H2. rewrite IH by exact H1. rewrite shr_1_m by exact Hm.
    rewrite !Hdiv by (try apply Z.mul_pos_pos; try apply Z.pow_pos_nonneg; lia).
    f_equal. rewrite (Pos2Z.inj_xI p).
    replace (2 * Zpos p + 1) with (1 + Zpos p + Zpos p) by lia.
    rewrite !Z.pow_add_r by lia. change (2 ^ 1) with 2. lia.
  - assert (H2 : 0 <= shr_m (iter_pos shr_1 p mrs)).
    { rewrite IH by exact Hm. apply Z.div_pos; [lia | apply Z.pow_pos_nonneg; lia]. }
    rewrite IH by exact H2. rewrite IH by exact Hm.
    rewrite Hdiv by (apply Z.pow_pos_nonneg; lia).
    f_equal. rewrite (Pos2Z.inj_xO p).
    replace (2 * Zpos p) with (Zpos p + Zpos p) by lia.
    rewrite Z.pow_add_r by lia. reflexivity.
  - rewrite shr_1_m by exact Hm. reflexivity.
Qed.

Lemma shr_record_of_loc_m (m : Z) (l : location) : shr_m (shr_record_of_loc m l) = m.
Proof. destruct l as [|[]]; reflexivity. Qed.

(** One shift of [binary_round_aux]: the mantissa stays non-negative, the
    exponent is the greater of the old one and the target one, and the
    magnitude does not grow. *)
Lemma shr_fexp_bound (m e : Z) (l : location) :
  0 <= m ->
  let '(mrs, e') := shr_fexp Py.prec Py.emax m e l in
  0 <= shr_m mrs /\
  e' = Z.max e (fexp Py.prec Py.emax (Zdigits2 m + e)) /\
  Zdigits2 (shr_m mrs) + e' <= Z.max (Zdigits2 m + e) e'.
Proof.
  intros Hm. unfold shr_fexp, shr.
  set (t := fexp Py.prec Py.emax (Zdigits2 m + e)).
  destruct (t - e) as [|p|p] eqn:E.
  - rewrite shr_record_of_loc_m. repeat split; lia.
  - assert (H0 : 0 <= shr_m (shr_record_of_loc m l))
      by (rewrite shr_record_of_loc_m; exact Hm).
    rewrite iter_shr_1_m by exact H0. rewrite shr_record_of_loc_m.
    split; [apply Z.div_pos; [lia | apply Z.pow_pos_nonneg; lia]|].
    split; [lia|].
    pose proof (Zdigits2_div_pow2 m (Zpos p) Hm ltac:(lia)). lia.
  - rewrite shr_record_of_loc_m. repeat split; lia.
Qed.

Lemma round_nearest_even_bound (m : Z) (l : location) :
  0 <= m -> 0 <= round_nearest_even m l <= m + 1.
Proof.
  intros Hm. destruct l as [|[]]; simpl; try lia.
  destruct (Z.even m); lia.
Qed.

(** The result of [binary_round_aux] on a non-negative mantissa: never a
    NaN, an infinity only above the bound, and otherwise of a magnitude at
    most one more than that of the input. *)
Lemma binary_round_aux_bound (s : bool) (m e : Z) (l : location) :
  0 <= m ->
  match binary_round_aux Py.prec Py.emax s m e l with
  | S754_zero _ => True
  | S754_finite _ m' e' =>
      e' <= Py.emax - Py.prec /\
      Zdigits2 (Zpos m') + e' <= Z.max (Zdigits2 m + e + 1) (-1073)
  | S754_infinity _ =>
      Py.emax - Py.prec < Z.max e (Z.max (Zdigits2 m + e - 52) (-1074))
  | S754_nan => False
  end.
Proof.
  intros Hm. unfold binary_round_aux.
  pose proof (shr_fexp_bound m e l Hm) as H1.
  destruct (shr_fexp Py.prec Py.emax m e l) as [mrs1 e1].
  destruct H1 as (Hm1 & He1 & Hd1).
  set (m1 := round_nearest_even (shr_m mrs1) (loc_of_shr_record mrs1)).
  pose proof (round_nearest_even_bound (shr_m mrs1) (loc_of_shr_record mrs1) Hm1) as Hr.
  fold m1 in Hr.
  pose proof (shr_fexp_bound m1 e1 loc_Exact ltac:(lia)) as H2.
  destruct (shr_fexp Py.prec Py.emax m1 e1 loc_Exact) as [mrs2 e2].
  destruct H2 as (Hm2 & He2 & Hd2).
  assert (Hdm1 : Zdigits2 m1 <= Zdigits2 (shr_m mrs1) + 1).
  { etransitivity; [apply (Zdigits2_mono m1 (shr_m mrs1 + 1)); lia|].
    now apply Zdigits2_succ. }
  pose proof (Zdigits2_nonneg m) as Hd0.
  unfold fexp, emin, Py.prec, Py.emax in *.
  destruct (shr_m mrs2) as [|p|p] eqn:E2; [exact I | | lia].
  destruct (e2 <=? 1024 - 53) eqn:El.
  - apply Z.leb_le in El. split; [exact El|]. lia.
  - apply Z.leb_gt in El. lia.
Qed.

Lemma digits2_pos_iter_xO (m d : positive) :
  digits2_pos (Pos.iter xO m d) = (digits2_pos m + d)%positive.
Proof.
  induction d as [|d IH] using Pos.peano_ind.
  - simpl. lia.
  - rewrite Pos.iter_succ. simpl. rewrite IH. lia.
Qed.

Lemma shl_align_bound (mx : positive) (ex ex' : Z) :
  let '(mz, ez) := shl_align mx ex ex' in
  ez <= ex /\ Zdigits2 (Zpos mz) + ez = Zdigits2 (Zpos mx) + ex.
Proof.
  unfold shl_align. destruct (ex' - ex) as [|d|d] eqn:E; try (split; lia).
  pose proof (Pos2Z.opp_pos d) as Hd.
  split; [lia|]. cbn [Zdigits2]. rewrite digits2_pos_iter_xO, Pos2Z.inj_add. lia.
Qed.

(** An integer below [2 ^ 1000] converts to a zero or to a finite double
    of a magnitude below [2 ^ 1001]. *)
Lemma float_of_int_bound (n : Z) :
  0 <= n < 2 ^ 1000 ->
  exists x,
    Py.float_of_int n = Py.Ok x /\
    match x with
    | S754_zero _ => True
    | S754_finite _ m e => e <= 971 /\ Zdigits2 (Zpos m) + e <= 1001
    | _ => False
    end.
Proof.
  intros [Hn0 Hn]. unfold Py.float_of_int, binary_normalize.
  destruct n as [|p|p]; [exists (S754_zero false); split; [reflexivity | exact I] | |].
  2: { exfalso. apply Hn0. reflexivity. }
  assert (Hdp : Zdigits2 (Zpos p) <= 1000).
  { rewrite Zdigits2_log2 by reflexivity.
    apply (Z.log2_lt_pow2 (Zpos p) 1000 eq_refl) in Hn. clear Hn0.
    apply Z.lt_succ_r. apply -> Z.succ_lt_mono. exact Hn. }
  clear Hn Hn0.
  unfold binary_round.
  pose proof (shl_align_bound p 0
                (fexp Py.prec Py.emax (Zpos (digits2_pos p) + 0))) as Ha.
  destruct (shl_align p 0 (fexp Py.prec Py.emax (Zpos (digits2_pos p) + 0)))
    as [mz ez].
  destruct Ha as [Hez Hd].
  pose proof (binary_round_aux_bound false (Zpos mz) ez loc_Exact ltac:(lia)) as Hb.
  unfold Py.prec, Py.emax in *.
  destruct (binary_round_aux 53 1024 false (Zpos mz) ez loc_Exact) as [s|s| |s m e].
  - now exists (S754_zero s).
  - lia.
  - destruct Hb.
  - exists (S754_finite s m e). split; [reflexivity|]. lia.
Qed.

(** The product of such a double and a valid double of exponent at most
    -52, which every double up to 1.0 is, is a zero or a finite double. *)
Lemma float_mul_bound (x y : Py.float) :
  match x with
  | S754_zero _ => True
  | S754_finite _ m e => e <= 971 /\ Zdigits2 (Zpos m) + e <= 1001
  | _ => False
  end ->
  match y with
  | S754_finite _ m e => e <= -52 /\ Zdigits2 (Zpos m) <= 53
  | _ => False
  end ->
  Py.is_finite (Py.float_mul x y) = true.
Proof.
  intros Hx Hy.
  destruct x as [sx|sx| |sx mx ex], y as [sy|sy| |sy my ey]; try contradiction;
    [reflexivity|].
  unfold Py.float_mul, SFmul.
  pose proof (binary_round_aux_bound (xorb sx sy) (Zpos (mx * my)) (ex + ey)
                loc_Exact ltac:(lia)) as Hb.
  pose proof (Zdigits2_mul mx my) as Hmul.
  unfold Py.prec, Py.emax in *.
  destruct (binary_round_aux 53 1024 (xorb sx sy) (Zpos (mx * my)) (ex + ey) loc_Exact);
    try reflexivity; [lia | destruct Hb].
Qed.

Lemma round_finite (x : Py.float) :
  Py.is_finite x = true -> exists r, Py.round x = Py.Ok r.
Proof.
  destruct x; try discriminate; intros _; eexists; reflexivity.
Qed.

Lemma SFltb_finite_sign (ma : positive) (ea : Z) (s : bool) (m : positive) (e : Z) :
  SFltb (S754_finite false ma ea) (S754_finite s m e) = true -> s = false.
Proof. unfold SFltb, SFcompare. now destruct s. Qed.

Lemma SFleb_finite_exponent (m : positive) (e : Z) (mb : positive) (eb : Z) :
  SFleb (S754_finite false m e) (S754_finite false mb eb) = true -> e <= eb.
Proof.
  unfold SFleb, SFcompare.
  destruct (Z.compare_spec e eb); try discriminate; lia.
Qed.

Lemma probability_above_threshold (p : Py.float) :
  is_probability p = true ->
  Py.float_gt p Py.float_0_1 = true ->
  match p with
  | S754_finite _ m e => e <= -52 /\ Zdigits2 (Zpos m) <= 53
  | _ => False
  end.
Proof.
  unfold is_probability, Py.float_gt, Py.float_le, Py.float_0_1, Py.float_1.
  intros H Hgt. apply andb_true_iff in H. destruct H as [H Hle].
  apply andb_true_iff in H. destruct H as [Hvalid _].
  destruct p as [s|s| |s m e].
  - destruct s; discriminate Hgt.
  - destruct s; [discriminate Hgt | discriminate Hle].
  - discriminate Hgt.
  - apply SFltb_finite_sign in Hgt. subst s.
    apply SFleb_finite_exponent in Hle. split; [exact Hle|].
    unfold valid_binary, bounded, canonical_mantissa, fexp, emin,
      Py.prec, Py.emax in Hvalid.
    apply andb_true_iff in Hvalid. destruct Hvalid as [Hc _].
    apply Z.eqb_eq in Hc. cbn [Zdigits2]. lia.
Qed.

(** For a count below [2 ^ 1000] and probabilities that are doubles
    between 0.0 and 1.0, the number of items to take is always computed. *)
Lemma items_to_take_defined (n : Z) (p : Py.float) :
  0 <= n < 2 ^ 1000 ->
  is_probability p = true ->
  exists k, MediaRecommender.items_to_take n p = Py.Ok k.
Proof.
  intros Hn Hp. unfold MediaRecommender.items_to_take.
  destruct (Py.float_gt p Py.float_0_1) eqn:Hgt; [|now exists 0].
  destruct (float_of_int_bound n Hn) as (x & Hx & Hbx).
  unfold Py.int_mul_float. rewrite Hx. cbn [Py.bind_result].
  destruct (round_finite (Py.float_mul x p)) as (r & Hr).
  { apply float_mul_bound; [exact Hbx|].
    now apply probability_above_threshold. }
  rewrite Hr. now exists (Z.max 1 r).
Qed.

Lemma takes_defined_probabilities (n : Z) (sentiment_probs : Py.dict Py.float) :
  0 <= n < 2 ^ 1000 ->
  Forall (fun entry => is_probability (snd entry) = true) sentiment_probs ->
  takes_defined n sentiment_probs.
Proof.
  intros Hn HF. unfold takes_defined.
  eapply Forall_impl; [|exact HF].
  intros entry Hp. now apply items_to_take_defined.
Qed.

(** ** The recommendations of the allocator *)

Lemma builtin_books_disjoint :
  disjoint_pools (MediaRecommender.books MediaRecommender.init).
Proof. vm_compute. reflexivity. Qed.

Lemma builtin_movies_disjoint :
  disjoint_pools (MediaRecommender.movies MediaRecommender.init).
Proof. vm_compute. reflexivity. Qed.

Lemma items_of_cases (self : MediaRecommender.t) (media_type : string)
    (all_items : Py.dict (list item)) :
  MediaRecommender.items_of self media_type = Some all_items ->
  all_items = MediaRecommender.books self \/ all_items = MediaRecommender.movies self.
Proof.
  unfold MediaRecommender.items_of.
  destruct (String.eqb media_type "books"); [intros [= <-]; now left|].
  destruct (String.eqb media_type "movies"); [intros [= <-]; now right | discriminate].
Qed.

Lemma no_elements {A : Type} (l : list A) : (forall x, ~ In x l) -> l = [].
Proof.
  destruct l as [|a l]; [reflexivity|]. intros H. destruct (H a). now left.
Qed.

Lemma drawn_from_nil_inv {A : Type} (sel : list A) : drawn_from sel [] -> sel = [].
Proof.
  intros H. apply drawn_from_length in H. destruct sel; [reflexivity | simpl in H; lia].
Qed.

Lemma catalog_of_items_of (self : MediaRecommender.t) (media_type : string)
    (all_items : Py.dict (list item)) :
  catalog_of self media_type all_items ->
  MediaRecommender.items_of self media_type = Some all_items.
Proof. intros [[-> ->] | [-> ->]]; reflexivity. Qed.

Lemma catalog_size_bound (all_items : Py.dict (list item)) (l : list item) :
  NoDup l ->
  (forall x, In x l -> exists k, In x (pool all_items k)) ->
  Py.len l <= catalog_size all_items.
Proof.
  intros HN Hin. unfold catalog_size, Py.len.
  apply Nat2Z.inj_le, NoDup_incl_length; [exact HN|].
  intros x Hx. destruct (Hin x Hx) as (k & Hk). now apply (pool_incl all_items k).
Qed.

Lemma drawn_from_all {A : Type} (sel l : list A) :
  drawn_from sel l -> List.length sel = List.length l -> incl l sel.
Proof.
  intros [rest HP] Hlen. pose proof (Permutation_length HP) as HL.
  rewrite length_app in HL. destruct rest; [|simpl in HL; lia].
  rewrite app_nil_r in HP. intros x Hx. now apply (Permutation_in x HP).
Qed.

(** What the first loop takes is what it is to take, whenever the number
    of items to take is computed. *)
Lemma share_expected (all_items : Py.dict (list item)) (n : Z)
    (entry : string * Py.float) :
  (exists k, MediaRecommender.items_to_take n (snd entry) = Py.Ok k) ->
  share all_items n entry = expected_share all_items n (fst entry) (snd entry).
Proof.
  intros [k Hk]. unfold share, expected_share. rewrite Hk.
  unfold MediaRecommender.items_to_take in Hk.
  destruct (Py.float_gt (snd entry) Py.float_0_1).
  - destruct (Py.int_mul_float n (snd entry)) as [x|]; [|discriminate].
    cbn [Py.bind_result] in *.
    destruct (Py.round x) as [rounded|]; [|discriminate].
    cbn [Py.bind_result] in Hk. injection Hk as <-.
    replace (0 <? Z.max 1 rounded) with true by (symmetry; apply Z.ltb_lt; lia).
    destruct (pool all_items (fst entry)) as [|x0 l]; [|reflexivity].
    cbn [Py.truthy andb]. unfold Py.len. cbn [List.length Z.of_nat]. lia.
  - injection Hk as <-. now rewrite andb_false_r.
Qed.

Lemma shares_except_expected (all_items : Py.dict (list item)) (n : Z)
    (sentiment : string) (sentiment_probs : Py.dict Py.float) :
  takes_defined n sentiment_probs ->
  shares_except all_items n sentiment sentiment_probs
  = expected_others all_items n sentiment sentiment_probs.
Proof.
  unfold shares_except, expected_others.
  induction 1 as [|entry rest Hd _ IH]; [reflexivity|].
  cbn [map fold_right]. rewrite IH, (share_expected all_items n entry Hd). reflexivity.
Qed.

Lemma category_draws_expected (all_items : Py.dict (list item)) (n : Z)
    (sentiment_probs : Py.dict Py.float) (sels : list (list item)) :
  takes_defined n sentiment_probs ->
  category_draws all_items n sentiment_probs sels ->
  Forall2 (fun entry sel =>
             drawn_from sel (pool all_items (fst entry)) /\
             Py.len sel = expected_share all_items n (fst entry) (snd entry))
          sentiment_probs sels.
Proof.
  intros Hdef HF. induction HF as [|entry sel rest sels [Hdr Hlen] HF IH];
    [constructor|].
  inversion Hdef as [|? ? Hd Hdef']; subst.
  constructor; [|now apply IH].
  split; [exact Hdr|]. now rewrite Hlen, (share_expected all_items n entry Hd).
Qed.

(** Of the draws of the first loop, those of a label are the ones that are
    in its bucket. *)
Lemma draws_of_label (all_items : Py.dict (list item)) (n : Z)
    (sentiment_probs : Py.dict Py.float) (sels : list (list item))
    (sentiment : string) (prob : Py.float) :
  disjoint_pools all_items ->
  Py.dict_wf sentiment_probs ->
  category_draws all_items n sentiment_probs sels ->
  In (sentiment, prob) sentiment_probs ->
  Py.len (filter (fun x => Py.contains x (pool all_items sentiment)) (List.concat sels))
  = share all_items n (sentiment, prob).
Proof.
  intros Hdis Hwf HF. unfold Py.dict_wf in Hwf.
  induction HF as [|entry sel rest sels [Hdr Hlen] HF IH]; intros Hin; [destruct Hin|].
  simpl in Hwf. inversion Hwf as [|? ? Hnin Hwf']; subst.
  cbn [List.concat]. rewrite filter_app, len_app.
  destruct Hin as [->|Hin].
  - cbn [fst] in *. rewrite filter_all.
    + rewrite filter_none; [rewrite len_nil; lia|].
      intros x Hx. destruct (draws_in_pools _ _ _ _ HF x Hx) as (k & Hk & Hp).
      apply (contains_other_pool all_items k); auto.
      intros ->. contradiction.
    + intros x Hx. apply contains_intro. now apply (drawn_from_incl _ _ Hdr).
  - assert (Hk : fst entry <> sentiment).
    { intros E. apply Hnin. rewrite E. apply (in_map fst) in Hin. exact Hin. }
    rewrite filter_none.
    + rewrite len_nil, (IH Hwf' Hin). lia.
    + intros x Hx. apply (contains_other_pool all_items (fst entry)); auto.
      now apply (drawn_from_incl _ _ Hdr).
Qed.

(** The first loop appends what it draws to any running result. *)
Lemma take_from_category_appends (all_items : Py.dict (list item)) (n : Z)
    (total : list item) (entry : string * Py.float) (g : Py.rng) :
  MediaRecommender.take_from_category all_items n total entry g
  = match MediaRecommender.take_from_category all_items n [] entry g with
    | Py.Ok (selected, g') => Py.Ok (total ++ selected, g')
    | Py.Raise e => Py.Raise e
    end.
Proof.
  destruct entry as [s p].
  unfold MediaRecommender.take_from_category, Py.bind, Py.lift.
  destruct (MediaRecommender.items_to_take n p) as [k|e]; [|reflexivity].
  destruct (Py.truthy (Py.get_default all_items s []) && (0 <? k)).
  - destruct (Py.sample (Py.get_default all_items s [])
                (Z.min k (Py.len (Py.get_default all_items s []))) g)
      as [[selected g']|e]; reflexivity.
  - unfold Py.ret. now rewrite app_nil_r.
Qed.

(** C1: for every profile of probabilities with pairwise distinct labels,
    one at least, every count from 1 on, below 2 ^ 1000, and every media
    type, the call on the built-in catalog returns a list of at most count
    items, no two of them equal, whatever the random draws. *)
Theorem builtin_recommendations_bounded_nodup
    (sentiment_probs : Py.dict Py.float) (media_type : string) (n : Z) (g : Py.rng) :
  Py.dict_wf sentiment_probs ->
  sentiment_probs <> [] ->
  Forall (fun entry => is_probability (snd entry) = true) sentiment_probs ->
  1 <= n ->
  n < 2 ^ 1000 ->
  exists r g',
    MediaRecommender.get_genre_recommendations MediaRecommender.init
      sentiment_probs media_type n g = Py.Ok (r, g') /\
    Py.len r <= n /\
    NoDup r /\
    nodupb r = true.
Proof.
  intros Hwf Hne Hprob Hn. assert (Hn0 : 0 <= n) by lia. intros Hmax.
  assert (Hdef : takes_defined n sentiment_probs)
    by (apply takes_defined_probabilities; [split; assumption | exact Hprob]).
  clear Hmax Hn.
  destruct (MediaRecommender.items_of MediaRecommender.init media_type)
    as [all_items|] eqn:Hitems.
  - assert (Hdis : disjoint_pools all_items).
    { destruct (items_of_cases _ _ _ Hitems) as [-> | ->];
        [apply builtin_books_disjoint | apply builtin_movies_disjoint]. }
    destruct (get_genre_recommendations_sound MediaRecommender.init sentiment_probs
                media_type n g all_items Hitems Hdis Hwf Hne Hdef Hn0)
      as (r & g' & Hr & Hlen & HN & Hb & _).
    exists r, g'. auto.
  - exists [], g. split; [now apply get_genre_recommendations_unknown|].
    split; [rewrite len_nil; lia|]. split; [constructor | reflexivity].
Qed.

Lemma builtin_recommendations_bounded_nodup_witness :
  exists r g',
    MediaRecommender.get_genre_recommendations MediaRecommender.init
      Examples.mixed_profile "books" 5 [3; 1; 4; 1; 5]%nat = Py.Ok (r, g') /\
    Py.len r <= 5 /\
    NoDup r /\
    nodupb r = true.
Proof.
  apply builtin_recommendations_bounded_nodup;
    [solve_dict_wf | discriminate | repeat constructor | lia
    | apply Z.ltb_lt; reflexivity].
Defined.

(** The bound on the count is that of the doubles: the product of a count
    of 2 ^ 1024 and a probability cannot be computed. *)
Example count_beyond_doubles_raises :
  MediaRecommender.get_genre_recommendations MediaRecommender.init
    Examples.mixed_profile "books" (2 ^ 1024) [] = Py.Raise Py.OverflowError.
Proof. vm_compute. reflexivity. Qed.

(** C4 (amended): the first loop skips nothing: what it takes from a bucket
    is drawn from the whole bucket, in the number that C3 gives, and is
    appended as it is, whatever the running result holds.  Only the second
    step leaves out the items that are equal to one of the running result.
    The result is what the two steps collect, or count items of it, and no
    two of its items are equal when no two items of the catalog are, in one
    bucket or in two. *)
Theorem disjoint_pools_no_duplicates (self : MediaRecommender.t)
    (sentiment_probs : Py.dict Py.float) (media_type : string) (n : Z) (g : Py.rng)
    (all_items : Py.dict (list item)) :
  catalog_of self media_type all_items ->
  Py.dict_wf sentiment_probs ->
  sentiment_probs <> [] ->
  takes_defined n sentiment_probs ->
  0 <= n ->
  (forall total entry g0,
     MediaRecommender.take_from_category all_items n total entry g0
     = match MediaRecommender.take_from_category all_items n [] entry g0 with
       | Py.Ok (selected, g1) => Py.Ok (total ++ selected, g1)
       | Py.Raise e => Py.Raise e
       end) /\
  (forall total g0,
   exists additional_items g1,
     MediaRecommender.add_from_max_sentiment all_items sentiment_probs n total g0
       = Py.Ok (total ++ additional_items, g1) /\
     forall x, In x additional_items -> Py.contains x total = false) /\
  exists sels add r g',
    MediaRecommender.get_genre_recommendations self sentiment_probs media_type n g
      = Py.Ok (r, g') /\
    Forall2 (fun entry sel =>
               drawn_from sel (pool all_items (fst entry)) /\
               Py.len sel = expected_share all_items n (fst entry) (snd entry))
            sentiment_probs sels /\
    backfill all_items sentiment_probs n (List.concat sels) add /\
    drawn_from r (List.concat sels ++ add) /\
    Py.len r = Z.min n (Py.len (List.concat sels ++ add)) /\
    (Py.len (List.concat sels ++ add) <= n -> r = List.concat sels ++ add) /\
    (disjoint_pools all_items -> nodupb r = true).
Proof.
  intros Hcat Hwf Hne Hdef Hn. apply catalog_of_items_of in Hcat.
  split; [intros total entry g0; apply take_from_category_appends|].
  split.
  { intros total g0.
    destruct (add_from_max_sentiment_spec all_items sentiment_probs n total g0 Hne)
      as (add & g1 & Hadd & Hb).
    exists add, g1. split; [exact Hadd|].
    now apply (backfill_not_contained _ _ _ _ _ Hb). }
  destruct (get_genre_recommendations_steps self sentiment_probs media_type n g
              all_items Hcat Hne Hdef Hn)
    as (sels & add & r & g' & Hr & HF & Hb & Hdr & Hlen & Hsame).
  exists sels, add, r, g'. split; [exact Hr|].
  split; [now apply category_draws_expected|].
  split; [exact Hb|]. split; [exact Hdr|]. split; [exact Hlen|].
  split; [exact Hsame|].
  intros Hdis. now destruct (steps_nodup _ _ _ _ _ _ Hdis Hwf HF Hb Hdr) as (_ & _ & H).
Qed.

Lemma disjoint_pools_no_duplicates_witness :
  (forall total entry g0,
     MediaRecommender.take_from_category MediaRecommender._fetch_movie_data 4
       total entry g0
     = match MediaRecommender.take_from_category MediaRecommender._fetch_movie_data 4
               [] entry g0 with
       | Py.Ok (selected, g1) => Py.Ok (total ++ selected, g1)
       | Py.Raise e => Py.Raise e
       end) /\
  (forall total g0,
   exists additional_items g1,
     MediaRecommender.add_from_max_sentiment MediaRecommender._fetch_movie_data
       Examples.even_profile 4 total g0
       = Py.Ok (total ++ additional_items, g1) /\
     forall x, In x additional_items -> Py.contains x total = false) /\
  exists sels add r g',
    MediaRecommender.get_genre_recommendations MediaRecommender.init
      Examples.even_profile "movies" 4 [2; 7; 1; 8]%nat = Py.Ok (r, g') /\
    Forall2 (fun entry sel =>
               drawn_from sel (pool MediaRecommender._fetch_movie_data (fst entry)) /\
               Py.len sel
               = expected_share MediaRecommender._fetch_movie_data 4
                   (fst entry) (snd entry))
            Examples.even_profile sels /\
    backfill MediaRecommender._fetch_movie_data Examples.even_profile 4
      (List.concat sels) add /\
    drawn_from r (List.concat sels ++ add) /\
    Py.len r = Z.min 4 (Py.len (List.concat sels ++ add)) /\
    (Py.len (List.concat sels ++ add) <= 4 -> r = List.concat sels ++ add) /\
    (disjoint_pools MediaRecommender._fetch_movie_data -> nodupb r = true).
Proof.
  apply (disjoint_pools_no_duplicates MediaRecommender.init Examples.even_profile
           "movies" 4 [2; 7; 1; 8]%nat MediaRecommender._fetch_movie_data);
    [right; split; reflexivity | solve_dict_wf | discriminate | solve_takes_defined
    | lia].
Defined.

(** C4, as stated, fails: with one book under two sentiments the first loop
    takes it twice and the call returns it twice. *)
Lemma overlapping_pools_return_duplicate :
  MediaRecommender.get_genre_recommendations Examples.overlapping
    Examples.even_profile "books" 2 []
    = Py.Ok ([Examples.dune; Examples.dune], []) /\
  ~ NoDup [Examples.dune; Examples.dune].
Proof.
  split; [vm_compute; reflexivity|].
  intros H. inversion H as [|? ? Hnin _]; subst. apply Hnin. now left.
Qed.

(** C5: when every bucket of the requested media type is empty, the call
    returns the empty list and raises nothing, for every profile of
    probabilities with an entry and every count from 1 on, below 2 ^ 1000,
    whatever the random draws. *)
Theorem empty_pools_empty_result (self : MediaRecommender.t)
    (sentiment_probs : Py.dict Py.float) (media_type : string) (n : Z) (g : Py.rng)
    (all_items : Py.dict (list item)) :
  catalog_of self media_type all_items ->
  (forall sentiment, pool all_items sentiment = []) ->
  sentiment_probs <> [] ->
  Forall (fun entry => is_probability (snd entry) = true) sentiment_probs ->
  1 <= n ->
  n < 2 ^ 1000 ->
  exists g',
    MediaRecommender.get_genre_recommendations self sentiment_probs media_type n g
      = Py.Ok ([], g').
Proof.
  intros Hcat Hempty Hne Hprob Hn. assert (Hn0 : 0 <= n) by lia. intros Hmax.
  assert (Hdef : takes_defined n sentiment_probs)
    by (apply takes_defined_probabilities; [split; assumption | exact Hprob]).
  clear Hmax Hn. apply catalog_of_items_of in Hcat.
  destruct (get_genre_recommendations_steps self sentiment_probs media_type n g
              all_items Hcat Hne Hdef Hn0)
    as (sels & add & r & g' & Hr & HF & Hb & Hdr & _ & _).
  assert (Hsels : List.concat sels = []).
  { apply no_elements. intros x Hx.
    destruct (draws_in_pools _ _ _ _ HF x Hx) as (k & _ & Hp).
    rewrite Hempty in Hp. exact Hp. }
  assert (Hadd : add = []).
  { apply no_elements. intros x Hx.
    destruct (backfill_in_pool _ _ _ _ _ Hb x Hx) as (k & _ & Hp).
    rewrite Hempty in Hp. exact Hp. }
  rewrite Hsels, Hadd in Hdr. apply drawn_from_nil_inv in Hdr. subst r.
  exists g'. exact Hr.
Qed.

Lemma empty_pools_empty_result_witness :
  (exists g',
     MediaRecommender.get_genre_recommendations Examples.fallback
       Examples.mixed_profile "movies" 5 [1; 2; 3]%nat = Py.Ok ([], g')) /\
  (exists g',
     MediaRecommender.get_genre_recommendations Examples.fallback
       Examples.mixed_profile "books" 5 [1; 2; 3]%nat = Py.Ok ([], g')).
Proof.
  assert (Hempty : forall sentiment,
            pool MediaRecommender.empty_dataset sentiment = []).
  { intros k. unfold MediaRecommender.empty_dataset. rewrite !pool_cons.
    destruct (String.eqb "Positive" k), (String.eqb "Neutral" k),
             (String.eqb "Negative" k); reflexivity. }
  split.
  - apply (empty_pools_empty_result Examples.fallback Examples.mixed_profile "movies" 5
             [1; 2; 3]%nat MediaRecommender.empty_dataset);
      [right; split; reflexivity | exact Hempty | discriminate | repeat constructor
      | lia | apply Z.ltb_lt; reflexivity].
  - apply (empty_pools_empty_result Examples.fallback Examples.mixed_profile "books" 5
             [1; 2; 3]%nat MediaRecommender.empty_dataset);
      [left; split; reflexivity | exact Hempty | discriminate | repeat constructor
      | lia | apply Z.ltb_lt; reflexivity].
Defined.

(** Without an entry in the profile the second step finds no maximum. *)
Example empty_profile_raises :
  MediaRecommender.get_genre_recommendations Examples.fallback [] "books" 5 []
  = Py.Raise Py.ValueError.
Proof. reflexivity. Qed.

(** C2 (amended): when count exceeds the number of items of all the buckets
    of the media type, the result holds the whole bucket of the label of
    highest probability and, of every other label of the profile, what the
    first loop took of it: min(max(1, round(count * p)), bucket size) items
    when p > 0.1 and none otherwise.  No two of its items are equal, so its
    length is at most the catalog size, and it is the catalog size only
    when every other label's share is its whole bucket.  This for a catalog
    no two items of which are equal, a profile of probabilities with
    pairwise distinct labels, and a count below 2 ^ 1000. *)
Theorem large_count_result_length (self : MediaRecommender.t)
    (sentiment_probs : Py.dict Py.float) (media_type : string) (n : Z) (g : Py.rng)
    (all_items : Py.dict (list item)) :
  catalog_of self media_type all_items ->
  disjoint_pools all_items ->
  Py.dict_wf sentiment_probs ->
  sentiment_probs <> [] ->
  Forall (fun entry => is_probability (snd entry) = true) sentiment_probs ->
  catalog_size all_items < n ->
  n < 2 ^ 1000 ->
  exists r g' max_sentiment,
    MediaRecommender.get_genre_recommendations self sentiment_probs media_type n g
      = Py.Ok (r, g') /\
    Py.max_key sentiment_probs = Py.Ok max_sentiment /\
    nodupb r = true /\
    (forall x, In x r ->
       exists sentiment,
         In sentiment (Py.keys sentiment_probs) /\ In x (pool all_items sentiment)) /\
    incl (pool all_items max_sentiment) r /\
    (forall sentiment prob,
       In (sentiment, prob) sentiment_probs ->
       sentiment <> max_sentiment ->
       Py.len (filter (fun x => Py.contains x (pool all_items sentiment)) r)
       = expected_share all_items n sentiment prob) /\
    Py.len r = Py.len (pool all_items max_sentiment)
               + expected_others all_items n max_sentiment sentiment_probs /\
    Py.len r <= catalog_size all_items.
Proof.
  intros Hcat Hdis Hwf Hne Hprob Hn.
  assert (Hsize : 0 <= catalog_size all_items) by apply len_nonneg.
  assert (Hn0 : 0 <= n) by lia. intros Hmax.
  assert (Hdef : takes_defined n sentiment_probs)
    by (apply takes_defined_probabilities; [split; assumption | exact Hprob]).
  clear Hmax. apply catalog_of_items_of in Hcat.
  pose proof (disjoint_pools_distinct _ Hdis) as Hdist.
  pose proof (disjoint_pools_identity _ Hdis) as Hid.
  destruct (get_genre_recommendations_steps self sentiment_probs media_type n g
              all_items Hcat Hne Hdef Hn0)
    as (sels & add & r & g' & Hr & HF & Hb & Hdr & _ & Hsame).
  destruct (steps_nodup _ _ _ _ _ _ Hdis Hwf HF Hb Hdr) as (HN & _ & Hnodup).
  pose proof (steps_in_pools _ _ _ _ _ _ HF Hb Hdr) as Hsrc.
  assert (HN1 : NoDup (List.concat sels)) by (eapply draws_NoDup; eauto).
  assert (Hsels : incl (List.concat sels) (List.concat (map snd all_items))).
  { intros x Hx. destruct (draws_in_pools _ _ _ _ HF x Hx) as (k & _ & Hk).
    now apply (pool_incl all_items k). }
  assert (Hin : forall x, In x (List.concat sels ++ add) ->
                  exists k, In x (pool all_items k)).
  { intros x Hx. apply in_app_or in Hx. destruct Hx as [Hx|Hx].
    - destruct (draws_in_pools _ _ _ _ HF x Hx) as (k & _ & Hk). now exists k.
    - destruct (backfill_in_pool _ _ _ _ _ Hb x Hx) as (k & _ & Hk). now exists k. }
  pose proof (catalog_size_bound all_items _ HN Hin) as Hle.
  assert (Hrs : r = List.concat sels ++ add) by (apply Hsame; lia).
  subst r.
  assert (Hle1 : Py.len (List.concat sels) <= catalog_size all_items).
  { rewrite len_app in Hle. pose proof (len_nonneg add). lia. }
  destruct Hb as [[Hge _] | (_ & dom & Hdom & Hkey & Hadd & Hlen)]; [lia|].
  set (left := not_selected all_items dom (List.concat sels)) in *.
  assert (HNl : NoDup (List.concat sels ++ left)).
  { apply NoDup_app; auto.
    - unfold left, not_selected. apply NoDup_filter. now apply pool_NoDup.
    - intros x Hx Hx'. unfold left, not_selected in Hx'.
      apply filter_In in Hx'. destruct Hx' as [_ Hx'].
      apply negb_true_iff in Hx'. apply contains_intro in Hx. congruence. }
  assert (Hinl : forall x, In x (List.concat sels ++ left) ->
                   exists k, In x (pool all_items k)).
  { intros x Hx. apply in_app_or in Hx. destruct Hx as [Hx|Hx].
    - destruct (draws_in_pools _ _ _ _ HF x Hx) as (k & _ & Hk). now exists k.
    - unfold left, not_selected in Hx. apply filter_In in Hx. now exists dom. }
  pose proof (catalog_size_bound all_items _ HNl Hinl) as Hlel.
  rewrite len_app in Hlel.
  assert (Hall : Py.len add = Py.len left) by lia.
  exists (List.concat sels ++ add), g', dom.
  split; [exact Hr|]. split; [exact Hdom|]. split; [exact Hnodup|].
  split; [exact Hsrc|]. split; [|split; [|split]].
  - intros x Hx. apply in_or_app.
    destruct (Py.contains x (List.concat sels)) eqn:E.
    + left. apply (contains_In _ _ _ Hid) in E; auto.
      now apply (pool_incl all_items dom).
    + right. apply (drawn_from_all _ _ Hadd); [unfold Py.len in Hall; lia|].
      unfold left, not_selected. apply filter_In. split; [exact Hx|].
      now rewrite E.
  - intros sentiment prob Hentry Hother.
    rewrite filter_app, len_app.
    rewrite (draws_of_label all_items n sentiment_probs sels sentiment prob
               Hdis Hwf HF Hentry).
    rewrite (filter_none _ add).
    + rewrite len_nil, Z.add_0_r. apply share_expected.
      unfold takes_defined in Hdef. rewrite Forall_forall in Hdef.
      exact (Hdef _ Hentry).
    + intros x Hx. apply (contains_other_pool all_items dom); auto.
      apply (drawn_from_incl _ _ Hadd) in Hx.
      unfold left, not_selected in Hx. apply filter_In in Hx. tauto.
  - rewrite len_app, Hall, <- (shares_except_expected _ _ _ _ Hdef).
    now apply not_selected_len.
  - exact Hle.
Qed.

Lemma large_count_result_length_witness :
  exists r g' max_sentiment,
    MediaRecommender.get_genre_recommendations MediaRecommender.init
      Examples.mixed_profile "books" 31 [5; 3; 5; 8; 9; 7]%nat = Py.Ok (r, g') /\
    Py.max_key Examples.mixed_profile = Py.Ok max_sentiment /\
    nodupb r = true /\
    (forall x, In x r ->
       exists sentiment,
         In sentiment (Py.keys Examples.mixed_profile) /\
         In x (pool MediaRecommender._fetch_book_data sentiment)) /\
    incl (pool MediaRecommender._fetch_book_data max_sentiment) r /\
    (forall sentiment prob,
       In (sentiment, prob) Examples.mixed_profile ->
       sentiment <> max_sentiment ->
       Py.len (filter (fun x =>
                         Py.contains x (pool MediaRecommender._fetch_book_data sentiment))
                      r)
       = expected_share MediaRecommender._fetch_book_data 31 sentiment prob) /\
    Py.len r = Py.len (pool MediaRecommender._fetch_book_data max_sentiment)
               + expected_others MediaRecommender._fetch_book_data 31 max_sentiment
                   Examples.mixed_profile /\
    Py.len r <= catalog_size MediaRecommender._fetch_book_data.
Proof.
  apply (large_count_result_length MediaRecommender.init Examples.mixed_profile
           "books" 31 [5; 3; 5; 8; 9; 7]%nat MediaRecommender._fetch_book_data);
    [left; split; reflexivity | apply builtin_books_disjoint | solve_dict_wf
    | discriminate | repeat constructor | vm_compute; reflexivity
    | apply Z.ltb_lt; reflexivity].
Defined.

(** C2, as stated, fails: with a count of 31 for the 30 books and a profile
    of 0.05, 0.05 and 0.9, the two small labels give nothing and the result
    is the 10 positive books. *)
Lemma large_count_returns_ten_of_thirty :
  catalog_size (MediaRecommender.books MediaRecommender.init) = 30 /\
  exists r g',
    MediaRecommender.get_genre_recommendations MediaRecommender.init
      Examples.positive_profile "books" 31 [] = Py.Ok (r, g') /\
    Py.len r = 10.
Proof.
  split; [vm_compute; reflexivity|].
  vm_compute. eexists. eexists. split; reflexivity.
Qed.

(** ** The order of floats *)

Ltac order_cases :=
  repeat match goal with
         | H : context [Z.compare ?a ?b] |- _ =>
             destruct (Z.compare_spec a b); try discriminate H
         | |- context [Z.compare ?a ?b] =>
             destruct (Z.compare_spec a b)
         | H : context [Pos.compare ?a ?b] |- _ =>
             destruct (Pos.compare_spec a b); try discriminate H
         | |- context [Pos.compare ?a ?b] =>
             destruct (Pos.compare_spec a b)
         end.

(** Below or equal, then below or equal; strictly below as soon as one of
    the two steps is. *)
Lemma SFcompare_trans (x y z : Py.float) (c1 c2 : comparison) :
  SFcompare x y = Some c1 -> SFcompare y z = Some c2 ->
  c1 <> Gt -> c2 <> Gt ->
  SFcompare x z = Some (match c1, c2 with Eq, Eq => Eq | _, _ => Lt end).
Proof.
  destruct x as [sx|sx| |sx mx ex], y as [sy|sy| |sy my ey], z as [sz|sz| |sz mz ez];
    simpl; try discriminate; intros H1 H2 N1 N2;
    try (destruct sx; try destruct sy; try destruct sz; destruct c1, c2;
         simpl in *; congruence).
  all: change (Pos.compare_cont Eq) with Pos.compare in *.
  all: destruct sx, sy, sz; destruct c1, c2; simpl in *; try congruence.
  all: order_cases; simpl in *; try congruence; try lia.
Qed.

Lemma float_le_refl (x : Py.float) : Py.is_nan x = false -> Py.float_le x x = true.
Proof. intros H. unfold Py.float_le, SFleb. now rewrite SFcompare_refl. Qed.

Lemma float_gt_le (x y : Py.float) : Py.float_gt y x = true -> Py.float_le x y = true.
Proof.
  unfold Py.float_gt, Py.float_le, SFltb, SFleb.
  destruct (SFcompare x y) as [[]|]; auto.
Qed.

Lemma float_le_not_gt (x y : Py.float) :
  Py.float_le x y = true -> Py.float_gt x y = false.
Proof.
  unfold Py.float_gt, Py.float_le, SFltb, SFleb. rewrite (SFcompare_swap x y).
  destruct (SFcompare x y) as [[]|]; simpl; auto; discriminate.
Qed.

Lemma float_not_gt_le (x y : Py.float) :
  Py.is_nan x = false -> Py.is_nan y = false ->
  Py.float_gt x y = false -> Py.float_le x y = true.
Proof.
  unfold Py.float_gt, Py.float_le, SFltb, SFleb. intros Hx Hy.
  rewrite (SFcompare_swap x y).
  destruct (SFcompare x y) as [[]|] eqn:E; simpl; auto.
  destruct (SFcompare_None _ _ E); congruence.
Qed.

Lemma float_not_le_gt (x y : Py.float) :
  Py.is_nan x = false -> Py.is_nan y = false ->
  Py.float_le x y = false -> Py.float_gt x y = true.
Proof.
  unfold Py.float_gt, Py.float_le, SFltb, SFleb. intros Hx Hy.
  rewrite (SFcompare_swap x y).
  destruct (SFcompare x y) as [[]|] eqn:E; simpl; auto.
  destruct (SFcompare_None _ _ E); congruence.
Qed.

Lemma float_le_trans (x y z : Py.float) :
  Py.float_le x y = true -> Py.float_le y z = true -> Py.float_le x z = true.
Proof.
  unfold Py.float_le, SFleb.
  destruct (SFcompare x y) as [c1|] eqn:E1; [|discriminate].
  destruct (SFcompare y z) as [c2|] eqn:E2; [|destruct c1; discriminate].
  intros H1 H2.
  rewrite (SFcompare_trans x y z c1 c2 E1 E2);
    destruct c1, c2; try discriminate; auto.
Qed.

Lemma float_le_gt_trans (x y z : Py.float) :
  Py.float_le x y = true -> Py.float_gt z y = true -> Py.float_gt z x = true.
Proof.
  unfold Py.float_le, Py.float_gt, SFleb, SFltb.
  destruct (SFcompare x y) as [c1|] eqn:E1; [|discriminate].
  destruct (SFcompare y z) as [c2|] eqn:E2; [|discriminate].
  intros H1 H2.
  rewrite (SFcompare_trans x y z c1 c2 E1 E2);
    destruct c1, c2; try discriminate; auto.
Qed.

Lemma float_mul_nan (x : Py.float) : Py.float_mul x S754_nan = S754_nan.
Proof. now destruct x. Qed.

(** ** One entry of the profile in the first loop *)

(** C3: for a label whose bucket is not empty, the first loop takes nothing
    when p <= 0.1 and otherwise exactly min(max(1, round(count * p)),
    bucket size) items, drawn from that bucket without replacement and
    appended to the running result. *)
Theorem category_contribution (all_items : Py.dict (list item)) (n : Z)
    (total : list item) (sentiment : string) (prob : Py.float) (g : Py.rng) :
  pool all_items sentiment <> [] ->
  (Py.float_le prob Py.float_0_1 = true ->
   MediaRecommender.take_from_category all_items n total (sentiment, prob) g
     = Py.Ok (total, g)) /\
  (Py.float_le prob Py.float_0_1 = false ->
   forall rounded,
     Py.bind_result (Py.int_mul_float n prob) Py.round = Py.Ok rounded ->
     exists sel g',
       MediaRecommender.take_from_category all_items n total (sentiment, prob) g
         = Py.Ok (total ++ sel, g') /\
       Py.len sel = Z.min (Z.max 1 rounded) (Py.len (pool all_items sentiment)) /\
       drawn_from sel (pool all_items sentiment)).
Proof.
  intros Hpool. split.
  - intros Hle. apply float_le_not_gt in Hle.
    unfold MediaRecommender.take_from_category, MediaRecommender.items_to_take.
    rewrite Hle. unfold Py.bind, Py.lift.
    now rewrite andb_false_r.
  - intros Hle rounded Hround.
    assert (Hnan : Py.is_nan prob = false).
    { destruct prob; try reflexivity. exfalso.
      unfold Py.int_mul_float, Py.bind_result in Hround.
      destruct (Py.float_of_int n); [|discriminate].
      rewrite float_mul_nan in Hround. discriminate. }
    assert (Hgt : Py.float_gt prob Py.float_0_1 = true)
      by (apply float_not_le_gt; auto).
    assert (Htake : MediaRecommender.items_to_take n prob = Py.Ok (Z.max 1 rounded)).
    { unfold MediaRecommender.items_to_take. rewrite Hgt.
      unfold Py.bind_result in *.
      destruct (Py.int_mul_float n prob); [|discriminate].
      now rewrite Hround. }
    destruct (take_from_category_spec all_items n total (sentiment, prob) g)
      as (sel & g' & Hs & Hdr & Hlen); [now exists (Z.max 1 rounded)|].
    exists sel, g'. split; [exact Hs|]. split; [|exact Hdr].
    rewrite Hlen. unfold share. cbn [fst snd]. rewrite Htake.
    destruct (pool all_items sentiment) as [|x l] eqn:E; [congruence|].
    replace (0 <? Z.max 1 rounded) with true by (symmetry; apply Z.ltb_lt; lia).
    reflexivity.
Qed.

Lemma category_contribution_witness :
  MediaRecommender.take_from_category MediaRecommender._fetch_book_data 5 []
    ("Neutral", Py.float_of_ratio 5 100) [4; 2]%nat = Py.Ok ([], [4; 2]%nat) /\
  exists sel g',
    MediaRecommender.take_from_category MediaRecommender._fetch_book_data 5 []
      ("Neutral", Py.float_of_ratio 3 10) [4; 2]%nat = Py.Ok ([] ++ sel, g') /\
    Py.len sel = Z.min (Z.max 1 2) (Py.len (pool MediaRecommender._fetch_book_data "Neutral")) /\
    drawn_from sel (pool MediaRecommender._fetch_book_data "Neutral").
Proof.
  split.
  - apply (category_contribution MediaRecommender._fetch_book_data 5 [] "Neutral"
             (Py.float_of_ratio 5 100) [4; 2]%nat);
      [vm_compute; discriminate | vm_compute; reflexivity].
  - apply (category_contribution MediaRecommender._fetch_book_data 5 [] "Neutral"
             (Py.float_of_ratio 3 10) [4; 2]%nat);
      [vm_compute; discriminate | vm_compute; reflexivity | vm_compute; reflexivity].
Defined.

(** ** The lookup of one sentiment *)

(** C9: for the media type books the bucket of a sentiment is the one of
    the books, for the media type movies the one of the movies.  A bucket
    of at most num_recommendations items is returned as it is, the same
    items in the same order, and no random number is drawn; for a sentiment
    that the catalog does not have, the empty list is returned, for every
    num_recommendations that is not negative. *)
Theorem get_recommendations_whole_pool (self : MediaRecommender.t)
    (sentiment : string) (n : Z) (g : Py.rng) :
  (forall bucket,
     Py.get (MediaRecommender.books self) sentiment = Some bucket ->
     Py.len bucket <= n ->
     MediaRecommender.get_recommendations self sentiment "books" n g
       = Py.Ok (bucket, g)) /\
  (forall bucket,
     Py.get (MediaRecommender.movies self) sentiment = Some bucket ->
     Py.len bucket <= n ->
     MediaRecommender.get_recommendations self sentiment "movies" n g
       = Py.Ok (bucket, g)) /\
  (Py.get (MediaRecommender.books self) sentiment = None ->
   0 <= n ->
   MediaRecommender.get_recommendations self sentiment "books" n g
     = Py.Ok ([], g)) /\
  (Py.get (MediaRecommender.movies self) sentiment = None ->
   0 <= n ->
   MediaRecommender.get_recommendations self sentiment "movies" n g
     = Py.Ok ([], g)).
Proof.
  assert (H : forall media_type all_items bucket,
            MediaRecommender.items_of self media_type = Some all_items ->
            Py.get_default all_items sentiment [] = bucket ->
            Py.len bucket <= n ->
            MediaRecommender.get_recommendations self sentiment media_type n g
            = Py.Ok (bucket, g)).
  { intros media_type all_items bucket Hitems Hbucket Hle.
    unfold MediaRecommender.get_recommendations. rewrite Hitems, Hbucket.
    replace (n <? Py.len bucket) with false by (symmetry; apply Z.ltb_ge; lia).
    reflexivity. }
  repeat split.
  - intros bucket Hget Hle. apply (H "books" (MediaRecommender.books self));
      [reflexivity | unfold Py.get_default; now rewrite Hget | exact Hle].
  - intros bucket Hget Hle. apply (H "movies" (MediaRecommender.movies self));
      [reflexivity | unfold Py.get_default; now rewrite Hget | exact Hle].
  - intros Hget Hn. apply (H "books" (MediaRecommender.books self));
      [reflexivity | unfold Py.get_default; now rewrite Hget | rewrite len_nil; lia].
  - intros Hget Hn. apply (H "movies" (MediaRecommender.movies self));
      [reflexivity | unfold Py.get_default; now rewrite Hget | rewrite len_nil; lia].
Qed.

Lemma get_recommendations_whole_pool_witness :
  (MediaRecommender.get_recommendations MediaRecommender.init "Positive" "books" 10
     [6; 6]%nat
   = Py.Ok (MediaRecommender._get_mock_positive_books, [6; 6]%nat)) /\
  (MediaRecommender.get_recommendations MediaRecommender.init "Negative" "movies" 12
     [6; 6]%nat
   = Py.Ok (MediaRecommender._get_mock_negative_movies, [6; 6]%nat)) /\
  (MediaRecommender.get_recommendations MediaRecommender.init "Joyful" "books" 3
     [6; 6]%nat = Py.Ok ([], [6; 6]%nat)) /\
  (MediaRecommender.get_recommendations MediaRecommender.init "Joyful" "movies" 0
     [6; 6]%nat = Py.Ok ([], [6; 6]%nat)).
Proof.
  split; [|split; [|split]].
  - destruct (get_recommendations_whole_pool MediaRecommender.init "Positive" 10
                [6; 6]%nat) as (Hbooks & _).
    apply Hbooks; [reflexivity | vm_compute; discriminate].
  - destruct (get_recommendations_whole_pool MediaRecommender.init "Negative" 12
                [6; 6]%nat) as (_ & Hmovies & _).
    apply Hmovies; [reflexivity | vm_compute; discriminate].
  - destruct (get_recommendations_whole_pool MediaRecommender.init "Joyful" 3
                [6; 6]%nat) as (_ & _ & Hbooks & _).
    apply Hbooks; [reflexivity | lia].
  - destruct (get_recommendations_whole_pool MediaRecommender.init "Joyful" 0
                [6; 6]%nat) as (_ & _ & _ & Hmovies).
    apply Hmovies; [reflexivity | lia].
Defined.

(** C6 (amended): no lookup fails for a name it does not know.  For a media
    type other than books and movies both methods return the empty list;
    for a sentiment that the catalog does not have, get_recommendations
    returns the empty list when num_recommendations is not negative. *)
Theorem unknown_names_give_empty_list (self : MediaRecommender.t)
    (sentiment media_type : string) (sentiment_probs : Py.dict Py.float)
    (n : Z) (g : Py.rng) :
  (MediaRecommender.items_of self media_type = None ->
   MediaRecommender.get_recommendations self sentiment media_type n g
     = Py.Ok ([], g) /\
   MediaRecommender.get_genre_recommendations self sentiment_probs media_type n g
     = Py.Ok ([], g)) /\
  (forall all_items,
     MediaRecommender.items_of self media_type = Some all_items ->
     Py.get all_items sentiment = None ->
     0 <= n ->
     MediaRecommender.get_recommendations self sentiment media_type n g
       = Py.Ok ([], g)).
Proof.
  split.
  - intros Hnone. split.
    + unfold MediaRecommender.get_recommendations. now rewrite Hnone.
    + now apply get_genre_recommendations_unknown.
  - intros all_items Hitems Habs Hn.
    unfold MediaRecommender.get_recommendations. rewrite Hitems.
    fold (pool all_items sentiment). rewrite (pool_absent _ _ Habs).
    rewrite len_nil.
    replace (n <? 0) with false by (symmetry; apply Z.ltb_ge; lia).
    reflexivity.
Qed.

Lemma unknown_names_give_empty_list_witness :
  (MediaRecommender.get_recommendations MediaRecommender.init "Positive" "music" 3
     [9]%nat = Py.Ok ([], [9]%nat) /\
   MediaRecommender.get_genre_recommendations MediaRecommender.init
     Examples.mixed_profile "music" 3 [9]%nat = Py.Ok ([], [9]%nat)) /\
  MediaRecommender.get_recommendations MediaRecommender.init "Joyful" "movies" 3
    [9]%nat = Py.Ok ([], [9]%nat).
Proof.
  split.
  - apply (unknown_names_give_empty_list MediaRecommender.init "Positive" "music"
             Examples.mixed_profile 3 [9]%nat).
    reflexivity.
  - apply (unknown_names_give_empty_list MediaRecommender.init "Joyful" "movies"
             Examples.mixed_profile 3 [9]%nat) with MediaRecommender._fetch_movie_data;
      [reflexivity | reflexivity | lia].
Defined.

(** C6, as stated, fails: a sentiment and a media type that the catalog
    does not know give the empty list, and nothing is raised. *)
Lemma unknown_names_raise_nothing :
  MediaRecommender.get_recommendations MediaRecommender.init "Joyful" "books" 3 []
    = Py.Ok ([], []) /\
  MediaRecommender.get_recommendations MediaRecommender.init "Positive" "music" 3 []
    = Py.Ok ([], []) /\
  MediaRecommender.get_genre_recommendations MediaRecommender.init
    Examples.mixed_profile "music" 5 [] = Py.Ok ([], []).
Proof. repeat split. Qed.

(** ** The key of the greatest value *)

(** [max_key_from] continues a scan: [pre] is what was visited, its entry
    at position [ib] the running maximum.  The key returned is at a position
    whose value no entry exceeds and every earlier entry is strictly
    below. *)
Lemma max_key_from_spec (d : Py.dict Py.float) :
  forall (pre : Py.dict Py.float) (ib : nat) (best : string) (bv : Py.float),
  nth_error pre ib = Some (best, bv) ->
  Forall (fun e => Py.is_nan (snd e) = false) (pre ++ d) ->
  (forall e, In e pre -> Py.float_le (snd e) bv = true) ->
  (forall j e, (j < ib)%nat -> nth_error pre j = Some e ->
     Py.float_gt bv (snd e) = true) ->
  exists i v,
    nth_error (pre ++ d) i = Some (Py.max_key_from best bv d, v) /\
    (forall e, In e (pre ++ d) -> Py.float_le (snd e) v = true) /\
    (forall j e, (j < i)%nat -> nth_error (pre ++ d) j = Some e ->
       Py.float_gt v (snd e) = true).
Proof.
  induction d as [|[k1 v1] d IH]; intros pre ib best bv Hib Hnan Hle Hlt.
  - rewrite app_nil_r in *. exists ib, bv. simpl. auto.
  - assert (Hlen : (ib < List.length pre)%nat)
      by (apply nth_error_Some; congruence).
    rewrite Forall_forall in Hnan.
    assert (Hbv : Py.is_nan bv = false).
    { apply (Hnan (best, bv)), in_or_app. left. eapply nth_error_In; eauto. }
    assert (Hv1 : Py.is_nan v1 = false).
    { apply (Hnan (k1, v1)), in_or_app. right. now left. }
    replace (pre ++ (k1, v1) :: d) with ((pre ++ [(k1, v1)]) ++ d) in *
      by (rewrite <- app_assoc; reflexivity).
    simpl. destruct (Py.float_gt v1 bv) eqn:E.
    + apply (IH (pre ++ [(k1, v1)]) (List.length pre)).
      * rewrite nth_error_app2, Nat.sub_diag; [reflexivity | lia].
      * now apply Forall_forall.
      * intros e He. apply in_app_or in He. destruct He as [He|[<-|[]]].
        -- apply (float_le_trans _ bv); [now apply Hle | now apply float_gt_le].
        -- now apply float_le_refl.
      * intros j e Hj He. rewrite nth_error_app1 in He by exact Hj.
        apply (float_le_gt_trans _ bv); [|exact E].
        apply Hle. eapply nth_error_In; eauto.
    + apply (IH (pre ++ [(k1, v1)]) ib).
      * rewrite nth_error_app1; [exact Hib | exact Hlen].
      * now apply Forall_forall.
      * intros e He. apply in_app_or in He. destruct He as [He|[<-|[]]].
        -- now apply Hle.
        -- now apply float_not_gt_le.
      * intros j e Hj He. rewrite nth_error_app1 in He by lia.
        now apply (Hlt j).
Qed.

(** [max(d, key=d.get)] on values that are numbers: the first key of the
    greatest value. *)
Lemma max_key_spec (d : Py.dict Py.float) :
  d <> [] ->
  Forall (fun e => Py.is_nan (snd e) = false) d ->
  exists i k v,
    Py.max_key d = Py.Ok k /\
    nth_error d i = Some (k, v) /\
    (forall e, In e d -> Py.float_le (snd e) v = true) /\
    (forall j e, (j < i)%nat -> nth_error d j = Some e ->
       Py.float_gt v (snd e) = true).
Proof.
  destruct d as [|[k0 v0] d]; [congruence|]. intros _ Hnan.
  destruct (max_key_from_spec d [(k0, v0)] 0%nat k0 v0) as (i & v & Hi & Hle & Hlt).
  - reflexivity.
  - exact Hnan.
  - intros e [<-|[]]. apply float_le_refl.
    now inversion Hnan.
  - intros j e Hj. lia.
  - exists i, (Py.max_key_from k0 v0 d), v. simpl in *. auto.
Qed.

(** ** The dominant sentiment *)

(** C7: on three scores that are numbers, the analysis returns the scores
    under the labels Negative, Neutral, Positive, and as max_sentiment a label
    whose probability no other exceeds; the labels before it in that order
    have a strictly smaller probability, so that among equal maxima the
    first is returned. *)
Theorem analyze_sentiment_dominant (self : SentimentAnalyzer.t) (tweet : string)
    (a b c : Py.float) (more : list Py.float) :
  SentimentAnalyzer.model self (SentimentAnalyzer.preprocess_tweet tweet)
    = a :: b :: c :: more ->
  Py.is_nan a = false -> Py.is_nan b = false -> Py.is_nan c = false ->
  exists i vmax,
    SentimentAnalyzer.analyze_sentiment self tweet
      = Py.Ok {| SentimentAnalyzer.probabilities :=
                   [("Negative", a); ("Neutral", b); ("Positive", c)];
                 SentimentAnalyzer.max_sentiment :=
                   nth i SentimentAnalyzer.LABELS "" |} /\
    nth_error [a; b; c] i = Some vmax /\
    (forall v, In v [a; b; c] -> Py.float_le v vmax = true) /\
    (forall j v, (j < i)%nat -> nth_error [a; b; c] j = Some v ->
       Py.float_gt vmax v = true).
Proof.
  intros Hmodel Ha Hb Hc.
  set (d := [("Negative", a); ("Neutral", b); ("Positive", c)]).
  destruct (max_key_spec d) as (i & k & v & Hk & Hi & Hle & Hlt).
  - discriminate.
  - repeat constructor; assumption.
  - assert (Hres : SentimentAnalyzer.analyze_sentiment self tweet
                   = Py.Ok {| SentimentAnalyzer.probabilities := d;
                              SentimentAnalyzer.max_sentiment := k |}).
    { unfold SentimentAnalyzer.analyze_sentiment. rewrite Hmodel.
      change (SentimentAnalyzer.label_scores (a :: b :: c :: more)) with (Py.Ok d).
      cbn [Py.bind_result]. now rewrite Hk. }
    assert (Hpos : nth_error (map snd d) i = Some v /\
                   k = nth i SentimentAnalyzer.LABELS "").
    { unfold d in Hi |- *.
      destruct i as [|[|[|i']]]; simpl in Hi |- *;
        [inversion Hi; now split | inversion Hi; now split
        | inversion Hi; now split|].
      destruct i'; discriminate. }
    destruct Hpos as [Hv ->].
    exists i, v. split; [exact Hres|]. split; [exact Hv|]. split.
    + intros x Hx. change [a; b; c] with (map snd d) in Hx.
      apply in_map_iff in Hx. destruct Hx as (e & <- & He). now apply Hle.
    + intros j x Hj Hx. change [a; b; c] with (map snd d) in Hx.
      rewrite nth_error_map in Hx.
      destruct (nth_error d j) as [e|] eqn:E; [|discriminate].
      injection Hx as <-. now apply (Hlt j).
Qed.

Lemma analyze_sentiment_dominant_witness :
  exists i vmax,
    SentimentAnalyzer.analyze_sentiment Examples.tied_analyzer "so so"
      = Py.Ok {| SentimentAnalyzer.probabilities :=
                   [("Negative", Py.float_of_ratio 1 10);
                    ("Neutral", Py.float_of_ratio 45 100);
                    ("Positive", Py.float_of_ratio 45 100)];
                 SentimentAnalyzer.max_sentiment :=
                   nth i SentimentAnalyzer.LABELS "" |} /\
    nth_error [Py.float_of_ratio 1 10; Py.float_of_ratio 45 100;
               Py.float_of_ratio 45 100] i = Some vmax /\
    (forall v, In v [Py.float_of_ratio 1 10; Py.float_of_ratio 45 100;
                     Py.float_of_ratio 45 100] -> Py.float_le v vmax = true) /\
    (forall j v, (j < i)%nat ->
       nth_error [Py.float_of_ratio 1 10; Py.float_of_ratio 45 100;
                  Py.float_of_ratio 45 100] j = Some v ->
       Py.float_gt vmax v = true).
Proof.
  apply (analyze_sentiment_dominant Examples.tied_analyzer "so so"
           (Py.float_of_ratio 1 10) (Py.float_of_ratio 45 100)
           (Py.float_of_ratio 45 100) []);
    [reflexivity | vm_compute; reflexivity | vm_compute; reflexivity
    | vm_compute; reflexivity].
Defined.

(** Neutral and Positive tie at 0.45: Neutral, the earlier label, wins. *)
Example tie_returns_earlier_label :
  Py.bind_result (SentimentAnalyzer.analyze_sentiment Examples.tied_analyzer "so so")
    (fun r => Py.Ok (SentimentAnalyzer.max_sentiment r)) = Py.Ok "Neutral".
Proof. vm_compute. reflexivity. Qed.

(** ** The batch loop *)

Lemma analyze_sentiment_three_scores (self : SentimentAnalyzer.t) (tweet : string)
    (a b c : Py.float) (more : list Py.float) :
  SentimentAnalyzer.model self (SentimentAnalyzer.preprocess_tweet tweet)
    = a :: b :: c :: more ->
  exists k,
    SentimentAnalyzer.analyze_sentiment self tweet
      = Py.Ok {| SentimentAnalyzer.probabilities :=
                   [("Negative", a); ("Neutral", b); ("Positive", c)];
                 SentimentAnalyzer.max_sentiment := k |}.
Proof.
  intros Hmodel. unfold SentimentAnalyzer.analyze_sentiment. rewrite Hmodel.
  change (SentimentAnalyzer.label_scores (a :: b :: c :: more))
    with (Py.Ok [("Negative", a); ("Neutral", b); ("Positive", c)]).
  cbn [Py.bind_result Py.max_key]. eexists. reflexivity.
Qed.

Lemma analyze_row_spec (sentiment_analyzer : SentimentAnalyzer.t)
    (results : list App.result_row) (value : App.cell) :
  (forall text, value = App.CStr text ->
     exists a b c more,
       SentimentAnalyzer.model sentiment_analyzer
         (SentimentAnalyzer.preprocess_tweet text) = a :: b :: c :: more) ->
  exists row,
    App.analyze_row sentiment_analyzer results value = Py.Ok (results ++ [row]) /\
    row_for sentiment_analyzer value row.
Proof.
  intros Hmodel. destruct value as [text|x|z|b0];
    try (eexists; split; reflexivity).
  destruct (Hmodel text eq_refl) as (a & b & c & more & Hm).
  destruct (analyze_sentiment_three_scores _ _ _ _ _ _ Hm) as (k & Hk).
  unfold App.analyze_row. rewrite Hk. cbn.
  eexists. split; [reflexivity|].
  eexists. exists c, b, a. split; [exact Hk|]. repeat split.
Qed.

Lemma batch_loop_spec (sentiment_analyzer : SentimentAnalyzer.t)
    (column : list App.cell) :
  (forall text, In (App.CStr text) column ->
     exists a b c more,
       SentimentAnalyzer.model sentiment_analyzer
         (SentimentAnalyzer.preprocess_tweet text) = a :: b :: c :: more) ->
  forall results,
  exists rows,
    for_each_result column results (App.analyze_row sentiment_analyzer)
      = Py.Ok (results ++ rows) /\
    Forall2 (row_for sentiment_analyzer) column rows.
Proof.
  induction column as [|value column IH]; intros Hmodel results.
  - exists []. rewrite app_nil_r. split; [reflexivity | constructor].
  - destruct (analyze_row_spec sentiment_analyzer results value) as (row & Hrow & Hfor).
    { intros text ->. apply Hmodel. now left. }
    destruct (IH (fun text H => Hmodel text (or_intror H)) (results ++ [row]))
      as (rows & Hrows & HF).
    exists (row :: rows). split.
    + cbn [for_each_result]. rewrite Hrow. cbn [Py.bind_result].
      rewrite Hrows, <- app_assoc. reflexivity.
    + now constructor.
Qed.

(** C8: a value of the column that is not a string gets the row with the
    text Invalid text, the sentiment N/A and the three numbers 0, whatever
    the analyzer and the rows before it.  When the model scores every text
    of the column, the batch loop yields one result row per value of the
    column, in order: that row at the place of each value that is not a
    string, and at the place of each string the row of its analysis. *)
Theorem batch_analysis_invalid_rows (sentiment_analyzer : SentimentAnalyzer.t)
    (column : list App.cell) :
  (forall text, In (App.CStr text) column ->
     exists a b c more,
       SentimentAnalyzer.model sentiment_analyzer
         (SentimentAnalyzer.preprocess_tweet text) = a :: b :: c :: more) ->
  (forall results value,
     (forall text, value <> App.CStr text) ->
     App.analyze_row sentiment_analyzer results value
     = Py.Ok (results ++
              [{| App.text := "Invalid text";
                  App.max_sentiment := "N/A";
                  App.positive := App.NInt 0;
                  App.neutral := App.NInt 0;
                  App.negative := App.NInt 0 |}])) /\
  exists results,
    App.batch_analysis sentiment_analyzer column = Py.Ok results /\
    List.length results = List.length column /\
    Forall2 (row_for sentiment_analyzer) column results /\
    (forall i value,
       nth_error column i = Some value ->
       (forall text, value <> App.CStr text) ->
       nth_error results i
       = Some {| App.text := "Invalid text";
                 App.max_sentiment := "N/A";
                 App.positive := App.NInt 0;
                 App.neutral := App.NInt 0;
                 App.negative := App.NInt 0 |}).
Proof.
  intros Hmodel. split.
  { intros results value Hv. destruct value as [text| | |]; try reflexivity.
    now destruct (Hv text). }
  destruct (batch_loop_spec sentiment_analyzer column Hmodel []) as (rows & Hrows & HF).
  exists rows. split; [exact Hrows|]. split; [symmetry; eapply Forall2_length; eauto|].
  split; [exact HF|].
  clear Hrows Hmodel. induction HF as [|value row column rows Hrow HF IH];
    intros i v Hi Hv.
  - destruct i; discriminate.
  - destruct i as [|i]; simpl in *.
    + injection Hi as ->. destruct v; try (now rewrite Hrow).
      now destruct (Hv s).
    + now apply (IH i v).
Qed.

Lemma batch_analysis_invalid_rows_witness :
  (forall results value,
     (forall text, value <> App.CStr text) ->
     App.analyze_row Examples.tied_analyzer results value
     = Py.Ok (results ++
              [{| App.text := "Invalid text";
                  App.max_sentiment := "N/A";
                  App.positive := App.NInt 0;
                  App.neutral := App.NInt 0;
                  App.negative := App.NInt 0 |}])) /\
  exists results,
    App.batch_analysis Examples.tied_analyzer
      [App.CStr "fine"; App.CFloat S754_nan; App.CStr "well"] = Py.Ok results /\
    List.length results = 3%nat /\
    Forall2 (row_for Examples.tied_analyzer)
      [App.CStr "fine"; App.CFloat S754_nan; App.CStr "well"] results /\
    (forall i value,
       nth_error [App.CStr "fine"; App.CFloat S754_nan; App.CStr "well"] i = Some value ->
       (forall text, value <> App.CStr text) ->
       nth_error results i
       = Some {| App.text := "Invalid text";
                 App.max_sentiment := "N/A";
                 App.positive := App.NInt 0;
                 App.neutral := App.NInt 0;
                 App.negative := App.NInt 0 |}).
Proof.
  apply (batch_analysis_invalid_rows Examples.tied_analyzer
           [App.CStr "fine"; App.CFloat S754_nan; App.CStr "well"]).
  intros text _. do 3 eexists. exists []. reflexivity.
Defined.

(** The batch of a number, a text and a truth value, row by row. *)
Example batch_of_three_values :
  App.batch_analysis Examples.tied_analyzer
    [App.CInt 7; App.CStr "fine"; App.CBool true]
  = Py.Ok
      [{| App.text := "Invalid text";
          App.max_sentiment := "N/A";
          App.positive := App.NInt 0;
          App.neutral := App.NInt 0;
          App.negative := App.NInt 0 |};
       {| App.text := "fine";
          App.max_sentiment := "Neutral";
          App.positive := App.NFloat (Py.float_of_ratio 45 100);
          App.neutral := App.NFloat (Py.float_of_ratio 45 100);
          App.negative := App.NFloat (Py.float_of_ratio 1 10) |};
       {| App.text := "Invalid text";
          App.max_sentiment := "N/A";
          App.positive := App.NInt 0;
          App.neutral := App.NInt 0;
          App.negative := App.NInt 0 |}].
Proof. vm_compute. reflexivity. Qed.

(** ** Splitting and joining words *)

Lemma split_not_nil (sep : ascii) (s : string) : Py.split sep s <> [].
Proof.
  destruct s as [|c s]; simpl; [discriminate|].
  destruct (Ascii.eqb c sep); [discriminate|].
  destruct (Py.split sep s); discriminate.
Qed.

Lemma split_words_clean (sep : ascii) (s : string) :
  Forall (fun w => has_char sep w = false) (Py.split sep s).
Proof.
  induction s as [|c s IH]; simpl; [repeat constructor|].
  destruct (Ascii.eqb c sep) eqn:E; [constructor; [reflexivity | exact IH]|].
  destruct (Py.split sep s) as [|w ws]; [repeat constructor; simpl; now rewrite E|].
  inversion IH; subst. constructor; [simpl; now rewrite E | assumption].
Qed.

Lemma split_word (sep : ascii) (w : string) :
  has_char sep w = false -> Py.split sep w = [w].
Proof.
  induction w as [|c w IH]; simpl; [reflexivity|].
  intros H. apply orb_false_iff in H. destruct H as [Hc Hw].
  rewrite Hc, (IH Hw). reflexivity.
Qed.

Lemma split_word_sep (sep : ascii) (w s : string) :
  has_char sep w = false ->
  Py.split sep (w ++ String sep s)%string = w :: Py.split sep s.
Proof.
  induction w as [|c w IH]; simpl.
  - intros _. now rewrite Ascii.eqb_refl.
  - intros H. apply orb_false_iff in H. destruct H as [Hc Hw].
    rewrite Hc, (IH Hw). reflexivity.
Qed.

(** Words without the separator, joined and split again, are the same
    words. *)
Lemma split_join (sep : ascii) (words : list string) :
  words <> [] ->
  Forall (fun w => has_char sep w = false) words ->
  Py.split sep (Py.join (String sep EmptyString) words) = words.
Proof.
  unfold Py.join. induction words as [|w ws IH]; [congruence|].
  intros _ HF. inversion HF as [|? ? Hw Hws]; subst.
  destruct ws as [|w' ws].
  - simpl. now apply split_word.
  - change (String.concat (String sep "") (w :: w' :: ws))
      with (w ++ String sep (String.concat (String sep "") (w' :: ws)))%string.
    rewrite (split_word_sep sep w _ Hw), IH; [reflexivity | discriminate | exact Hws].
Qed.

(** ** The preprocessing of a tweet *)

Lemma preprocess_word_cases (word : string) :
  SentimentAnalyzer.preprocess_word word = "@user"%string \/
  SentimentAnalyzer.preprocess_word word = "http"%string \/
  (SentimentAnalyzer.preprocess_word word = word /\
   Py.startswith word "@" && (1 <? Py.len_str word) = false /\
   Py.startswith word "http" = false).
Proof.
  unfold SentimentAnalyzer.preprocess_word.
  destruct (Py.startswith word "@" && (1 <? Py.len_str word)); [now left|].
  destruct (Py.startswith word "http"); [right; now left|].
  right. right. auto.
Qed.

Lemma preprocess_word_idempotent (word : string) :
  SentimentAnalyzer.preprocess_word (SentimentAnalyzer.preprocess_word word)
  = SentimentAnalyzer.preprocess_word word.
Proof.
  destruct (preprocess_word_cases word) as [-> | [-> | (Hw & H1 & H2)]];
    [reflexivity | reflexivity|].
  rewrite Hw. unfold SentimentAnalyzer.preprocess_word. now rewrite H1, H2.
Qed.

Lemma preprocess_word_clean (word : string) :
  has_char " " word = false ->
  has_char " " (SentimentAnalyzer.preprocess_word word) = false.
Proof.
  intros H.
  destruct (preprocess_word_cases word) as [-> | [-> | (-> & _ & _)]];
    [reflexivity | reflexivity | exact H].
Qed.

(** C10: preprocessing a preprocessed tweet changes nothing. *)
Theorem preprocess_tweet_idempotent (tweet : string) :
  SentimentAnalyzer.preprocess_tweet (SentimentAnalyzer.preprocess_tweet tweet)
  = SentimentAnalyzer.preprocess_tweet tweet.
Proof.
  unfold SentimentAnalyzer.preprocess_tweet.
  rewrite split_join.
  - rewrite map_map. f_equal. apply map_ext. intros w.
    apply preprocess_word_idempotent.
  - pose proof (split_not_nil " " tweet) as H.
    destruct (Py.split " " tweet); [congruence | discriminate].
  - apply Forall_map.
    eapply Forall_impl; [|apply split_words_clean].
    intros w. apply preprocess_word_clean.
Qed.

Example preprocess_tweet_mentions_and_links :
  SentimentAnalyzer.preprocess_tweet "hi @bob see https://x.y  @ ok http"
  = "hi @user see http  @ ok http"%string.
Proof. reflexivity. Qed.

(** * Further properties *)

(** ** Words of a preprocessed tweet *)

Lemma join_split (sep : ascii) (s : string) :
  Py.join (String sep EmptyString) (Py.split sep s) = s.
Proof.
  unfold Py.join. induction s as [|c s IH]; [reflexivity|].
  cbn [Py.split]. destruct (Ascii.eqb_spec c sep) as [->|Hc].
  - pose proof (split_not_nil sep s) as Hne.
    destruct (Py.split sep s) as [|w ws] eqn:E; [congruence|].
    change (String.concat (String sep "") ("" :: w :: ws))
      with (String sep (String.concat (String sep "") (w :: ws))).
    now rewrite IH.
  - pose proof (split_not_nil sep s) as Hne.
    destruct (Py.split sep s) as [|w ws] eqn:E; [congruence|].
    destruct ws as [|w' ws].
    + simpl in *. now rewrite IH.
    + change (String.concat (String sep "") (String c w :: w' :: ws))
        with (String c (String.concat (String sep "") (w :: w' :: ws))).
      now rewrite IH.
Qed.

(** The words of the preprocessed tweet are the preprocessed words of the
    tweet. *)
Lemma preprocess_words (tweet : string) :
  Py.split " " (SentimentAnalyzer.preprocess_tweet tweet)
  = map SentimentAnalyzer.preprocess_word (Py.split " " tweet).
Proof.
  unfold SentimentAnalyzer.preprocess_tweet. apply split_join.
  - pose proof (split_not_nil " " tweet) as H.
    destruct (Py.split " " tweet); [congruence | discriminate].
  - apply Forall_map.
    eapply Forall_impl; [|apply split_words_clean].
    intros w. apply preprocess_word_clean.
Qed.

Lemma preprocess_tweet_again (tweet : string) :
  SentimentAnalyzer.preprocess_tweet (SentimentAnalyzer.preprocess_tweet tweet)
  = SentimentAnalyzer.preprocess_tweet tweet.
Proof.
  unfold SentimentAnalyzer.preprocess_tweet at 1. rewrite preprocess_words.
  unfold SentimentAnalyzer.preprocess_tweet. rewrite map_map. f_equal.
  apply map_ext. intros w. apply preprocess_word_idempotent.
Qed.

(** X1: preprocessing works word by word and keeps the spacing: the
    preprocessed tweet has as many words between single spaces as the
    tweet, each one the replacement of the word at its place. *)
Theorem preprocess_tweet_word_by_word (tweet : string) :
  Py.split " " (SentimentAnalyzer.preprocess_tweet tweet)
  = map SentimentAnalyzer.preprocess_word (Py.split " " tweet) /\
  List.length (Py.split " " (SentimentAnalyzer.preprocess_tweet tweet))
  = List.length (Py.split " " tweet) /\
  forall i word,
    nth_error (Py.split " " tweet) i = Some word ->
    nth_error (Py.split " " (SentimentAnalyzer.preprocess_tweet tweet)) i
    = Some (SentimentAnalyzer.preprocess_word word).
Proof.
  rewrite preprocess_words. split; [reflexivity|]. split.
  - apply length_map.
  - intros i word Hi. rewrite nth_error_map, Hi. reflexivity.
Qed.

(** X2: a tweet is left as it is exactly when each of its words is: no
    word is a mention other than @user, none starts with http other than
    http itself. *)
Theorem preprocess_tweet_unchanged_iff (tweet : string) :
  SentimentAnalyzer.preprocess_tweet tweet = tweet <->
  Forall (fun word => SentimentAnalyzer.preprocess_word word = word)
         (Py.split " " tweet).
Proof.
  split.
  - intros H. pose proof (preprocess_words tweet) as Hw. rewrite H in Hw.
    induction (Py.split " " tweet) as [|w ws IH]; [constructor|].
    simpl in Hw. injection Hw as Hw1 Hw2. constructor; [now symmetry | now apply IH].
  - intros H. unfold SentimentAnalyzer.preprocess_tweet.
    rewrite <- (join_split " " tweet) at 2. f_equal.
    induction H as [|w ws Hw _ IH]; [reflexivity|].
    simpl. now rewrite Hw, IH.
Qed.

Lemma len_from_nonneg (k : nat) (s : string) : 0 <= Py.len_from k s.
Proof.
  revert k. induction s as [|c s IH]; intros k; cbn [Py.len_from]; [lia|].
  pose proof (IH (Py.followers c)).
  destruct k as [|k]; [lia|]. destruct (Py.is_continuation c); [apply IH | lia].
Qed.

(** A byte that is no continuation byte starts a character. *)
Lemma len_from_start (k : nat) (c : ascii) (s : string) :
  Py.is_continuation c = false ->
  Py.len_from k (String c s) = 1 + Py.len_from (Py.followers c) s.
Proof. intros H. cbn [Py.len_from]. rewrite H. now destruct k. Qed.

(** A text with more than one byte after a first byte below 128 has more
    than one character. *)
Lemma len_str_two (c c' : ascii) (rest : string) :
  Py.is_continuation c = false -> Py.followers c = 0%nat ->
  1 < Py.len_str (String c (String c' rest)).
Proof.
  intros Hc Hf. unfold Py.len_str. rewrite (len_from_start _ _ _ Hc), Hf.
  cbn [Py.len_from]. pose proof (len_from_nonneg (Py.followers c') rest). lia.
Qed.

Lemma prefix_at_short (word : string) :
  Py.startswith word "@" = true -> (1 <? Py.len_str word) = false ->
  word = "@"%string.
Proof.
  unfold Py.startswith. destruct word as [|c [|c' rest]].
  - discriminate.
  - cbn [String.prefix].
    destruct (ascii_dec "@" c) as [<-|]; [reflexivity | discriminate].
  - cbn [String.prefix].
    destruct (ascii_dec "@" c) as [<-|]; [|discriminate].
    intros _ H. apply Z.ltb_ge in H.
    pose proof (len_str_two "@" c' rest eq_refl eq_refl). lia.
Qed.

(** X3: in a preprocessed tweet no user name and no link is left: a word
    that starts with @ is @ alone or the placeholder @user, and a word that
    starts with http is the placeholder http. *)
Theorem preprocess_tweet_placeholders (tweet : string) :
  Forall (fun word =>
            (Py.startswith word "@" = true ->
             word = "@"%string \/ word = "@user"%string) /\
            (Py.startswith word "http" = true -> word = "http"%string))
         (Py.split " " (SentimentAnalyzer.preprocess_tweet tweet)).
Proof.
  rewrite preprocess_words. apply Forall_map, Forall_forall. intros w _.
  destruct (preprocess_word_cases w) as [-> | [-> | (-> & H1 & H2)]].
  - split; [now right | discriminate].
  - split; [discriminate | reflexivity].
  - split; [|congruence].
    intros Hat. left. rewrite Hat in H1. now apply prefix_at_short.
Qed.

(** ** The analysis and its scores *)

(** X4: the analysis sees a tweet only through its preprocessing: a tweet
    and its preprocessed form have the same analysis, so that two tweets
    that differ in user names and links only are analysed alike. *)
Theorem analyze_sentiment_preprocessed (self : SentimentAnalyzer.t) (tweet : string) :
  SentimentAnalyzer.analyze_sentiment self (SentimentAnalyzer.preprocess_tweet tweet)
  = SentimentAnalyzer.analyze_sentiment self tweet.
Proof.
  unfold SentimentAnalyzer.analyze_sentiment.
  now rewrite preprocess_tweet_again.
Qed.

(** X5: with fewer than three scores from the model the analysis raises
    IndexError; with three or more it returns the first three under the
    labels Negative, Neutral and Positive, in that order, and a max_sentiment
    that is one of these labels, whatever the scores are. *)
Theorem analyze_sentiment_scores (self : SentimentAnalyzer.t) (tweet : string) :
  let scores :=
    SentimentAnalyzer.model self (SentimentAnalyzer.preprocess_tweet tweet) in
  ((List.length scores < 3)%nat ->
   SentimentAnalyzer.analyze_sentiment self tweet = Py.Raise Py.IndexError) /\
  ((3 <= List.length scores)%nat ->
   exists res,
     SentimentAnalyzer.analyze_sentiment self tweet = Py.Ok res /\
     Py.keys (SentimentAnalyzer.probabilities res) = SentimentAnalyzer.LABELS /\
     map snd (SentimentAnalyzer.probabilities res) = firstn 3 scores /\
     In (SentimentAnalyzer.max_sentiment res) SentimentAnalyzer.LABELS).
Proof.
  intros scores. unfold SentimentAnalyzer.analyze_sentiment. fold scores.
  destruct scores as [|a [|b [|c more]]]; cbn [List.length]; split; intros H;
    try lia; try reflexivity.
  change (SentimentAnalyzer.label_scores (a :: b :: c :: more))
    with (Py.Ok [("Negative", a); ("Neutral", b); ("Positive", c)]).
  cbn [Py.bind_result Py.max_key]. eexists. split; [reflexivity|].
  cbn [SentimentAnalyzer.probabilities SentimentAnalyzer.max_sentiment].
  split; [reflexivity|]. split; [reflexivity|].
  destruct (max_key_from_in "Negative" a [("Neutral", b); ("Positive", c)])
    as [-> | Hin]; [now left | right; exact Hin].
Qed.

Lemma analyze_sentiment_scores_witness :
  SentimentAnalyzer.analyze_sentiment Examples.short_analyzer "hello"
    = Py.Raise Py.IndexError /\
  exists res,
    SentimentAnalyzer.analyze_sentiment Examples.tied_analyzer "hello" = Py.Ok res /\
    Py.keys (SentimentAnalyzer.probabilities res) = SentimentAnalyzer.LABELS /\
    map snd (SentimentAnalyzer.probabilities res)
      = firstn 3 (SentimentAnalyzer.model Examples.tied_analyzer
                    (SentimentAnalyzer.preprocess_tweet "hello")) /\
    In (SentimentAnalyzer.max_sentiment res) SentimentAnalyzer.LABELS.
Proof.
  split.
  - apply (analyze_sentiment_scores Examples.short_analyzer "hello"). simpl. lia.
  - apply (analyze_sentiment_scores Examples.tied_analyzer "hello"). simpl. lia.
Defined.

(** ** The lookup of one sentiment, in general *)

(** X6: for a known media type and a number of recommendations that is not
    negative, get_recommendations returns that many items of the bucket, or
    all of them when the bucket has fewer; they are at pairwise distinct
    positions of the bucket, so without duplicates when the bucket has
    none. *)
Theorem get_recommendations_length (self : MediaRecommender.t)
    (sentiment media_type : string) (n : Z) (g : Py.rng)
    (all_items : Py.dict (list item)) :
  MediaRecommender.items_of self media_type = Some all_items ->
  0 <= n ->
  exists r g',
    MediaRecommender.get_recommendations self sentiment media_type n g
      = Py.Ok (r, g') /\
    Py.len r = Z.min n (Py.len (pool all_items sentiment)) /\
    drawn_from r (pool all_items sentiment) /\
    (NoDup (pool all_items sentiment) -> NoDup r).
Proof.
  intros Hitems Hn. unfold MediaRecommender.get_recommendations. rewrite Hitems.
  fold (pool all_items sentiment).
  destruct (n <? Py.len (pool all_items sentiment)) eqn:E.
  - apply Z.ltb_lt in E.
    destruct (sample_spec (pool all_items sentiment) n g) as (r & g' & Hs & Hlen & Hdr);
      [lia|].
    exists r, g'. split; [exact Hs|]. split; [lia|]. split; [exact Hdr|].
    now apply drawn_from_NoDup.
  - apply Z.ltb_ge in E. exists (pool all_items sentiment), g.
    split; [reflexivity|]. split; [lia|]. split; [apply drawn_from_refl | auto].
Qed.

Lemma get_recommendations_length_witness :
  exists r g',
    MediaRecommender.get_recommendations MediaRecommender.init "Negative" "movies" 3
      [7; 7; 7]%nat = Py.Ok (r, g') /\
    Py.len r = Z.min 3 (Py.len (pool MediaRecommender._fetch_movie_data "Negative")) /\
    drawn_from r (pool MediaRecommender._fetch_movie_data "Negative") /\
    (NoDup (pool MediaRecommender._fetch_movie_data "Negative") -> NoDup r).
Proof.
  apply (get_recommendations_length MediaRecommender.init "Negative" "movies" 3
           [7; 7; 7]%nat MediaRecommender._fetch_movie_data); [reflexivity | lia].
Defined.

(** X7: for a known media type a negative number of recommendations raises
    ValueError, whatever the sentiment, known or not: the bucket, even the
    empty one of an unknown sentiment, is longer than the number, and the
    sample of a negative size is refused. *)
Theorem get_recommendations_negative (self : MediaRecommender.t)
    (sentiment media_type : string) (n : Z) (g : Py.rng)
    (all_items : Py.dict (list item)) :
  MediaRecommender.items_of self media_type = Some all_items ->
  n < 0 ->
  MediaRecommender.get_recommendations self sentiment media_type n g
    = Py.Raise Py.ValueError.
Proof.
  intros Hitems Hn. unfold MediaRecommender.get_recommendations. rewrite Hitems.
  pose proof (len_nonneg (Py.get_default all_items sentiment [])) as Hlen.
  replace (n <? Py.len (Py.get_default all_items sentiment [])) with true
    by (symmetry; apply Z.ltb_lt; lia).
  apply sample_raises. now left.
Qed.

Lemma get_recommendations_negative_witness :
  MediaRecommender.get_recommendations MediaRecommender.init "Joyful" "books" (-1)
    [2]%nat = Py.Raise Py.ValueError.
Proof.
  apply (get_recommendations_negative MediaRecommender.init "Joyful" "books" (-1)
           [2]%nat MediaRecommender._fetch_book_data); [reflexivity | lia].
Defined.

(** ** The allocator: how many items, and from which buckets *)

Lemma share_nonneg (all_items : Py.dict (list item)) (n : Z) (entry : string * Py.float) :
  0 <= share all_items n entry.
Proof.
  unfold share. destruct (MediaRecommender.items_to_take n (snd entry)) as [k|]; [|lia].
  destruct (Py.truthy (pool all_items (fst entry)) && (0 <? k)) eqn:E; [|lia].
  apply andb_true_iff in E. destruct E as [_ E]. apply Z.ltb_lt in E.
  pose proof (len_nonneg (pool all_items (fst entry))). lia.
Qed.

Lemma shares_except_nonneg (all_items : Py.dict (list item)) (n : Z)
    (sentiment : string) (sentiment_probs : Py.dict Py.float) :
  0 <= shares_except all_items n sentiment sentiment_probs.
Proof.
  unfold shares_except. induction sentiment_probs as [|entry rest IH]; simpl; [lia|].
  pose proof (share_nonneg all_items n entry).
  destruct (String.eqb (fst entry) sentiment); lia.
Qed.

(** A positive share is the share of a probability above the threshold. *)
Lemma share_positive (all_items : Py.dict (list item)) (n : Z) (entry : string * Py.float) :
  0 < share all_items n entry -> Py.float_gt (snd entry) Py.float_0_1 = true.
Proof.
  unfold share, MediaRecommender.items_to_take.
  destruct (Py.float_gt (snd entry) Py.float_0_1); [reflexivity|].
  rewrite Z.ltb_irrefl, andb_false_r. lia.
Qed.

(** X8: with a catalog no two items of which are equal, when the bucket of
    the label of highest probability has at least count items, the result
    has exactly count items: what the first loop leaves open, the second
    step fills from that bucket. *)
Theorem get_genre_recommendations_exact_count (self : MediaRecommender.t)
    (sentiment_probs : Py.dict Py.float) (media_type : string) (n : Z) (g : Py.rng)
    (all_items : Py.dict (list item)) (max_sentiment : string) :
  MediaRecommender.items_of self media_type = Some all_items ->
  disjoint_pools all_items ->
  Py.dict_wf sentiment_probs ->
  takes_defined n sentiment_probs ->
  0 <= n ->
  Py.max_key sentiment_probs = Py.Ok max_sentiment ->
  n <= Py.len (pool all_items max_sentiment) ->
  exists r g',
    MediaRecommender.get_genre_recommendations self sentiment_probs media_type n g
      = Py.Ok (r, g') /\
    Py.len r = n.
Proof.
  intros Hitems Hdis Hwf Hdef Hn Hmax Hpool.
  assert (Hne : sentiment_probs <> []) by (intros ->; discriminate).
  destruct (get_genre_recommendations_steps self sentiment_probs media_type n g
              all_items Hitems Hne Hdef Hn)
    as (sels & add & r & g' & Hr & HF & Hb & _ & Hlen & _).
  exists r, g'. split; [exact Hr|].
  rewrite Hlen, len_app.
  destruct Hb as [[Hge ->] | (Hlt & dom & Hdom & Hkey & _ & Hadd)].
  - rewrite len_nil. lia.
  - rewrite Hmax in Hdom. injection Hdom as <-.
    pose proof (not_selected_len all_items n sentiment_probs sels max_sentiment
                  Hdis Hwf HF Hkey) as Hcount.
    pose proof (shares_except_nonneg all_items n max_sentiment sentiment_probs).
    lia.
Qed.

Lemma get_genre_recommendations_exact_count_witness :
  exists r g',
    MediaRecommender.get_genre_recommendations MediaRecommender.init
      Examples.positive_profile "books" 7 [1; 9; 8; 4]%nat = Py.Ok (r, g') /\
    Py.len r = 7.
Proof.
  apply (get_genre_recommendations_exact_count MediaRecommender.init
           Examples.positive_profile "books" 7 [1; 9; 8; 4]%nat
           MediaRecommender._fetch_book_data "Positive");
    [reflexivity | apply builtin_books_disjoint | solve_dict_wf | solve_takes_defined
    | lia | vm_compute; reflexivity | vm_compute; discriminate].
Defined.

(** Two movies that differ in the sign of a rating of zero are equal: once
    the first loop has taken the one, the second step leaves the other out,
    and a count of 2 gives one movie. *)
Example equal_items_are_left_out :
  item_eqb (Examples.zero_rated false) (Examples.zero_rated true) = true /\
  ~ disjoint_pools (MediaRecommender.movies Examples.zero_ratings) /\
  MediaRecommender.get_genre_recommendations Examples.zero_ratings
    [("Positive", Py.float_of_ratio 5 10)] "movies" 2 []
  = Py.Ok ([Examples.zero_rated false], []).
Proof.
  split; [reflexivity|]. split; [intros H; vm_compute in H; discriminate H|].
  vm_compute. reflexivity.
Qed.

Lemma draws_above_threshold (all_items : Py.dict (list item)) (n : Z)
    (sentiment_probs : Py.dict Py.float) (sels : list (list item)) :
  category_draws all_items n sentiment_probs sels ->
  forall x, In x (List.concat sels) ->
  exists entry,
    In entry sentiment_probs /\
    In x (pool all_items (fst entry)) /\
    Py.float_gt (snd entry) Py.float_0_1 = true.
Proof.
  induction 1 as [|entry sel rest sels [Hdr Hlen] _ IH]; intros x Hx; [destruct Hx|].
  simpl in Hx. apply in_app_or in Hx. destruct Hx as [Hx|Hx].
  - exists entry. split; [now left|]. split; [now apply (drawn_from_incl _ _ Hdr)|].
    apply (share_positive all_items n). rewrite <- Hlen.
    destruct sel; [destruct Hx | unfold Py.len; simpl; lia].
  - destruct (IH x Hx) as (e & He & Hp & Hgt). exists e. split; [now right | auto].
Qed.

(** X9: every item of the result comes from the bucket of a label of the
    profile whose probability is above 0.1, or from the bucket of the label
    of highest probability.  So when no other label is above 0.1, all the
    items are of the bucket of the label of highest probability. *)
Theorem get_genre_recommendations_sources (self : MediaRecommender.t)
    (sentiment_probs : Py.dict Py.float) (media_type : string) (n : Z) (g : Py.rng)
    (all_items : Py.dict (list item)) (max_sentiment : string) :
  MediaRecommender.items_of self media_type = Some all_items ->
  takes_defined n sentiment_probs ->
  0 <= n ->
  Py.max_key sentiment_probs = Py.Ok max_sentiment ->
  exists r g',
    MediaRecommender.get_genre_recommendations self sentiment_probs media_type n g
      = Py.Ok (r, g') /\
    (forall x, In x r ->
       exists sentiment prob,
         In (sentiment, prob) sentiment_probs /\
         In x (pool all_items sentiment) /\
         (Py.float_gt prob Py.float_0_1 = true \/ sentiment = max_sentiment)) /\
    ((forall sentiment prob,
        In (sentiment, prob) sentiment_probs ->
        sentiment <> max_sentiment ->
        Py.float_gt prob Py.float_0_1 = false) ->
     forall x, In x r -> In x (pool all_items max_sentiment)).
Proof.
  intros Hitems Hdef Hn Hmax.
  assert (Hne : sentiment_probs <> []) by (intros ->; discriminate).
  destruct (get_genre_recommendations_steps self sentiment_probs media_type n g
              all_items Hitems Hne Hdef Hn)
    as (sels & add & r & g' & Hr & HF & Hb & Hdr & _ & _).
  assert (Hsrc : forall x, In x r ->
            exists sentiment prob,
              In (sentiment, prob) sentiment_probs /\
              In x (pool all_items sentiment) /\
              (Py.float_gt prob Py.float_0_1 = true \/ sentiment = max_sentiment)).
  { intros x Hx. apply (drawn_from_incl _ _ Hdr) in Hx.
    apply in_app_or in Hx. destruct Hx as [Hx|Hx].
    - destruct (draws_above_threshold _ _ _ _ HF x Hx) as ([k p] & He & Hp & Hgt).
      exists k, p. auto.
    - destruct Hb as [[_ ->] | (_ & dom & Hdom & Hkey & Hadd & _)]; [destruct Hx|].
      rewrite Hmax in Hdom. injection Hdom as <-.
      apply (drawn_from_incl _ _ Hadd) in Hx.
      unfold not_selected in Hx. apply filter_In in Hx. destruct Hx as [Hx _].
      unfold Py.keys in Hkey. apply in_map_iff in Hkey.
      destruct Hkey as ([k p] & Hk & He). simpl in Hk. subst k.
      exists max_sentiment, p. auto. }
  exists r, g'. split; [exact Hr|]. split; [exact Hsrc|].
  intros Hsmall x Hx.
  destruct (Hsrc x Hx) as (k & p & He & Hp & [Hgt | ->]); [|exact Hp].
  destruct (string_dec k max_sentiment) as [->|Hk]; [exact Hp|].
  rewrite (Hsmall k p He Hk) in Hgt. discriminate.
Qed.

Lemma get_genre_recommendations_sources_witness :
  exists r g',
    MediaRecommender.get_genre_recommendations MediaRecommender.init
      Examples.positive_profile "movies" 5 [3; 3; 0; 6]%nat = Py.Ok (r, g') /\
    (forall x, In x r ->
       exists sentiment prob,
         In (sentiment, prob) Examples.positive_profile /\
         In x (pool MediaRecommender._fetch_movie_data sentiment) /\
         (Py.float_gt prob Py.float_0_1 = true \/ sentiment = "Positive"%string)) /\
    ((forall sentiment prob,
        In (sentiment, prob) Examples.positive_profile ->
        sentiment <> "Positive"%string ->
        Py.float_gt prob Py.float_0_1 = false) ->
     forall x, In x r -> In x (pool MediaRecommender._fetch_movie_data "Positive")).
Proof.
  apply (get_genre_recommendations_sources MediaRecommender.init
           Examples.positive_profile "movies" 5 [3; 3; 0; 6]%nat
           MediaRecommender._fetch_movie_data "Positive");
    [reflexivity | solve_takes_defined | lia | vm_compute; reflexivity].
Defined.

(** X10: for a known media type, a count of 0 gives the empty list, and a
    negative count raises ValueError: the first loop takes at least one item
    for a label above 0.1 whatever the count, nothing is added, and the last
    step samples count items of what there is. *)
Theorem get_genre_recommendations_no_count (self : MediaRecommender.t)
    (sentiment_probs : Py.dict Py.float) (media_type : string) (n : Z) (g : Py.rng)
    (all_items : Py.dict (list item)) :
  MediaRecommender.items_of self media_type = Some all_items ->
  takes_defined n sentiment_probs ->
  (n = 0 ->
   exists g',
     MediaRecommender.get_genre_recommendations self sentiment_probs media_type n g
       = Py.Ok ([], g')) /\
  (n < 0 ->
   MediaRecommender.get_genre_recommendations self sentiment_probs media_type n g
     = Py.Raise Py.ValueError).
Proof.
  intros Hitems Hdef.
  destruct (first_loop_spec all_items n sentiment_probs Hdef [] g)
    as (sels & g1 & H1 & _).
  simpl in H1.
  pose proof (len_nonneg (List.concat sels)) as Hlen.
  assert (Hsteps : n <= 0 ->
            MediaRecommender.get_genre_recommendations self sentiment_probs
              media_type n g
            = MediaRecommender.take_subset n (List.concat sels) g1).
  { intros Hn. unfold MediaRecommender.get_genre_recommendations. rewrite Hitems.
    unfold Py.bind at 1. rewrite H1.
    unfold Py.bind, MediaRecommender.add_from_max_sentiment.
    replace (Py.len (List.concat sels) <? n) with false
      by (symmetry; apply Z.ltb_ge; lia).
    reflexivity. }
  split; intros Hn; rewrite Hsteps by lia; unfold MediaRecommender.take_subset.
  - subst n. destruct (0 <? Py.len (List.concat sels)) eqn:E.
    + destruct (sample_spec (List.concat sels) 0 g1) as (r & g' & Hs & Hr & _); [lia|].
      exists g'. rewrite Hs. destruct r; [reflexivity|].
      unfold Py.len in Hr. simpl in Hr. lia.
    + apply Z.ltb_ge in E. exists g1.
      destruct (List.concat sels); [reflexivity|].
      unfold Py.len in E. simpl in E. lia.
  - replace (n <? Py.len (List.concat sels)) with true
      by (symmetry; apply Z.ltb_lt; lia).
    apply sample_raises. now left.
Qed.

Lemma get_genre_recommendations_no_count_witness :
  (exists g',
     MediaRecommender.get_genre_recommendations MediaRecommender.init
       Examples.mixed_profile "books" 0 [4; 4]%nat = Py.Ok ([], g')) /\
  MediaRecommender.get_genre_recommendations MediaRecommender.init
    Examples.mixed_profile "books" (-2) [4; 4]%nat = Py.Raise Py.ValueError.
Proof.
  split.
  - apply (get_genre_recommendations_no_count MediaRecommender.init
             Examples.mixed_profile "books" 0 [4; 4]%nat
             MediaRecommender._fetch_book_data);
      [reflexivity | solve_takes_defined | reflexivity].
  - apply (get_genre_recommendations_no_count MediaRecommender.init
             Examples.mixed_profile "books" (-2) [4; 4]%nat
             MediaRecommender._fetch_book_data);
      [reflexivity | solve_takes_defined | lia].
Defined.

(** ** The rows of a batch *)

(** The characters of a text followed by a text that starts with a
    character: those of the one and those of the other. *)
Lemma len_from_append (k : nat) (s1 : string) (c : ascii) (s2 : string) :
  Py.is_continuation c = false ->
  Py.len_from k (s1 ++ String c s2) = Py.len_from k s1 + Py.len_str (String c s2).
Proof.
  intros Hc. revert k. induction s1 as [|a s1 IH]; intros k.
  - cbn [append]. unfold Py.len_str. rewrite !(len_from_start _ c s2 Hc).
    replace (Py.len_from k "") with 0 by (now destruct k). lia.
  - cbn [append Py.len_from].
    destruct k as [|k]; [|destruct (Py.is_continuation a)]; rewrite IH; lia.
Qed.

Lemma len_from_new (k : nat) (c : ascii) (s : string) :
  k = 0%nat \/ Py.is_continuation c = false ->
  Py.len_from k (String c s) = 1 + Py.len_from (Py.followers c) s.
Proof.
  intros [-> | Hc]; [reflexivity|]. now apply len_from_start.
Qed.

Lemma take_chars_new (n k : nat) (c : ascii) (s : string) :
  k = 0%nat \/ Py.is_continuation c = false ->
  Py.take_chars n k (String c s)
  = match n with
    | O => ""%string
    | S n' => String c (Py.take_chars n' (Py.followers c) s)
    end.
Proof.
  intros [-> | Hc]; [reflexivity|]. cbn [Py.take_chars]. rewrite Hc. now destruct k.
Qed.

(** The first characters of a text: a head of the text, with as many
    characters as asked for or with all there are, and a tail that holds
    the others. *)
Lemma take_chars_split (s : string) :
  forall n k,
  exists tail,
    s = (Py.take_chars n k s ++ tail)%string /\
    Py.len_from k (Py.take_chars n k s) = Z.min (Z.of_nat n) (Py.len_from k s) /\
    Py.len_from k s = Py.len_from k (Py.take_chars n k s) + Py.len_str tail.
Proof.
  induction s as [|c s IH]; intros n k.
  - exists ""%string. cbn [Py.take_chars Py.len_from append]. unfold Py.len_str.
    cbn [Py.len_from]. repeat split; lia.
  - assert (Hcase : (k = 0%nat \/ Py.is_continuation c = false) \/
                    (exists k', k = S k' /\ Py.is_continuation c = true)).
    { destruct k as [|k']; [left; now left|].
      destruct (Py.is_continuation c); [right; now exists k' | left; now right]. }
    pose proof (len_from_nonneg (Py.followers c) s) as Hpos.
    destruct Hcase as [Hnew | (k' & -> & Hc)].
    + rewrite (take_chars_new n k c s Hnew), (len_from_new k c s Hnew).
      destruct n as [|n'].
      * exists (String c s). split; [reflexivity|].
        replace (Py.len_from k "") with 0 by (now destruct k).
        split; [lia|]. unfold Py.len_str. cbn [Py.len_from]. lia.
      * destruct (IH n' (Py.followers c)) as (tail & Hs & Hmin & Hsum).
        exists tail. split; [cbn [append]; now rewrite <- Hs|].
        rewrite (len_from_new k c _ Hnew). split; lia.
    + destruct (IH n k') as (tail & Hs & Hmin & Hsum).
      exists tail. cbn [Py.take_chars Py.len_from]. rewrite Hc.
      cbn [append Py.len_from]. rewrite Hc.
      split; [now rewrite <- Hs|]. split; assumption.
Qed.

Lemma preview_spec (text : string) :
  preview_of text (if 100 <? Py.len_str text
                   then (Py.slice_to 100 text ++ "...")%string
                   else text).
Proof.
  unfold preview_of. destruct (100 <? Py.len_str text) eqn:E.
  - apply Z.ltb_lt in E. split; [lia|]. intros _.
    destruct (take_chars_split text 100 0) as (tail & Hs & Hmin & Hsum).
    fold (Py.slice_to 100 text) in Hs, Hmin, Hsum.
    fold (Py.len_str (Py.slice_to 100 text)) in Hmin, Hsum.
    fold (Py.len_str text) in Hmin, Hsum.
    exists (Py.slice_to 100 text), tail.
    split; [exact Hs|]. split; [lia|]. split; [lia | reflexivity].
  - apply Z.ltb_ge in E. split; [reflexivity | lia].
Qed.

Lemma preview_length (text preview : string) :
  preview_of text preview ->
  Py.len_str preview = if 100 <? Py.len_str text then 103 else Py.len_str text.
Proof.
  intros [Hshort Hlong]. destruct (100 <? Py.len_str text) eqn:E.
  - apply Z.ltb_lt in E.
    destruct (Hlong E) as (head & tail & _ & Hlen & _ & ->).
    unfold Py.len_str in *. rewrite (len_from_append 0 head "." ".." eq_refl).
    rewrite Hlen. reflexivity.
  - apply Z.ltb_ge in E. now rewrite (Hshort E).
Qed.

(** X11: when the model scores every text of the column, the text of each
    result row is the preview of the text of the column at its place: the
    text itself when it has at most 100 characters, otherwise its first 100
    characters followed by three dots, 103 characters in all, which is
    longer than a text of 101 or 102 characters; the row of a value that is
    not a string reads Invalid text.  Characters are counted, not bytes. *)
Theorem batch_analysis_previews (sentiment_analyzer : SentimentAnalyzer.t)
    (column : list App.cell) :
  (forall text, In (App.CStr text) column ->
     exists a b c more,
       SentimentAnalyzer.model sentiment_analyzer
         (SentimentAnalyzer.preprocess_tweet text) = a :: b :: c :: more) ->
  exists results,
    App.batch_analysis sentiment_analyzer column = Py.Ok results /\
    Forall2 (fun value row =>
               match value with
               | App.CStr text =>
                   preview_of text (App.text row) /\
                   Py.len_str (App.text row)
                   = (if 100 <? Py.len_str text then 103 else Py.len_str text)
               | _ => App.text row = "Invalid text"%string
               end)
            column results.
Proof.
  intros Hmodel.
  destruct (batch_loop_spec sentiment_analyzer column Hmodel []) as (rows & Hrows & HF).
  exists rows. split; [exact Hrows|].
  clear Hrows Hmodel. induction HF as [|value row column rows Hrow _ IH]; constructor;
    [|exact IH].
  destruct value as [text|x|z|b]; try (now rewrite Hrow).
  destruct Hrow as (res & pos & neu & neg & _ & _ & _ & _ & ->).
  cbn [App.text]. split; [apply preview_spec|].
  apply preview_length, preview_spec.
Qed.

Lemma batch_analysis_previews_witness :
  exists results,
    App.batch_analysis Examples.tied_analyzer
      [App.CStr "short text"; App.CInt 7; App.CStr (Examples.accented 101)]
      = Py.Ok results /\
    Forall2 (fun value row =>
               match value with
               | App.CStr text =>
                   preview_of text (App.text row) /\
                   Py.len_str (App.text row)
                   = (if 100 <? Py.len_str text then 103 else Py.len_str text)
               | _ => App.text row = "Invalid text"%string
               end)
            [App.CStr "short text"; App.CInt 7; App.CStr (Examples.accented 101)]
            results.
Proof.
  apply (batch_analysis_previews Examples.tied_analyzer
           [App.CStr "short text"; App.CInt 7; App.CStr (Examples.accented 101)]).
  intros text _. do 3 eexists. exists []. reflexivity.
Defined.

(** Sixty letters of two bytes are sixty characters, and the text is kept
    whole; of a hundred and one such letters the first hundred are kept. *)
Example previews_of_accented_texts :
  String.length (Examples.accented 60) = 120%nat /\
  Py.len_str (Examples.accented 60) = 60 /\
  Py.bind_result
    (App.batch_analysis Examples.tied_analyzer
       [App.CStr (Examples.accented 60); App.CStr (Examples.accented 101)])
    (fun results => Py.Ok (map App.text results))
  = Py.Ok [Examples.accented 60; (Examples.accented 100 ++ "...")%string].
Proof. repeat split; vm_compute; reflexivity. Qed.

Lemma analyze_row_acc (sentiment_analyzer : SentimentAnalyzer.t)
    (results : list App.result_row) (value : App.cell) :
  App.analyze_row sentiment_analyzer results value
  = Py.bind_result (App.analyze_row sentiment_analyzer [] value)
      (fun rows => Py.Ok (results ++ rows)).
Proof.
  destruct value as [text|x|z|b]; try reflexivity.
  unfold App.analyze_row.
  destruct (SentimentAnalyzer.analyze_sentiment sentiment_analyzer text) as [res|e];
    [|reflexivity].
  cbn [Py.bind_result].
  destruct (Py.getitem (SentimentAnalyzer.probabilities res) "Positive");
    [|reflexivity].
  cbn [Py.bind_result].
  destruct (Py.getitem (SentimentAnalyzer.probabilities res) "Neutral");
    [|reflexivity].
  cbn [Py.bind_result].
  destruct (Py.getitem (SentimentAnalyzer.probabilities res) "Negative");
    reflexivity.
Qed.

Lemma batch_loop_acc (sentiment_analyzer : SentimentAnalyzer.t)
    (column : list App.cell) :
  forall results,
  for_each_result column results (App.analyze_row sentiment_analyzer)
  = Py.bind_result
      (for_each_result column [] (App.analyze_row sentiment_analyzer))
      (fun rows => Py.Ok (results ++ rows)).
Proof.
  induction column as [|value column IH]; intros results.
  - simpl. now rewrite app_nil_r.
  - cbn [for_each_result]. rewrite (analyze_row_acc sentiment_analyzer results value).
    destruct (App.analyze_row sentiment_analyzer [] value) as [row|e]; [|reflexivity].
    cbn [Py.bind_result]. rewrite (IH (results ++ row)), (IH row).
    destruct (for_each_result column [] (App.analyze_row sentiment_analyzer))
      as [rows|e]; [|reflexivity].
    cbn [Py.bind_result]. now rewrite app_assoc.
Qed.

Lemma for_each_result_app {A B : Type} (l1 l2 : list B) (body : A -> B -> Py.result A) :
  forall acc,
  for_each_result (l1 ++ l2) acc body
  = Py.bind_result (for_each_result l1 acc body)
      (fun acc' => for_each_result l2 acc' body).
Proof.
  induction l1 as [|b l1 IH]; intros acc; [reflexivity|].
  simpl. destruct (body acc b); [apply IH | reflexivity].
Qed.

(** X12: the rows of a column do not depend on each other: the batch of two
    columns one after the other is the batch of the first followed by the
    batch of the second, and it raises what the first of them to fail
    raises. *)
Theorem batch_analysis_app (sentiment_analyzer : SentimentAnalyzer.t)
    (column1 column2 : list App.cell) :
  App.batch_analysis sentiment_analyzer (column1 ++ column2)
  = Py.bind_result (App.batch_analysis sentiment_analyzer column1) (fun rows1 =>
    Py.bind_result (App.batch_analysis sentiment_analyzer column2) (fun rows2 =>
    Py.Ok (rows1 ++ rows2))).
Proof.
  unfold App.batch_analysis. rewrite for_each_result_app.
  destruct (for_each_result column1 [] (App.analyze_row sentiment_analyzer))
    as [rows1|e]; [|reflexivity].
  cbn [Py.bind_result]. apply batch_loop_acc.
Qed.

(** ** The genre counts *)

Lemma get_setitem {V : Type} (d : Py.dict V) (k k' : string) (v : V) :
  Py.get (Explore.setitem d k v) k'
  = if String.eqb k k' then Some v else Py.get d k'.
Proof.
  induction d as [|[k0 v0] d IH]; simpl.
  - reflexivity.
  - destruct (String.eqb_spec k0 k) as [->|Hk]; simpl.
    + now destruct (String.eqb k k').
    + rewrite IH. destruct (String.eqb_spec k0 k') as [->|Hk'];
        [|reflexivity].
      destruct (String.eqb_spec k k'); [congruence | reflexivity].
Qed.

Lemma get_none_keys {V : Type} (d : Py.dict V) (k : string) :
  Py.get d k = None <-> ~ In k (Py.keys d).
Proof.
  induction d as [|[k0 v0] d IH]; simpl; [tauto|].
  destruct (String.eqb_spec k0 k) as [->|Hk].
  - split; [discriminate | intros H; destruct H; now left].
  - rewrite IH. tauto.
Qed.

Lemma keys_setitem {V : Type} (d : Py.dict V) (k : string) (v : V) :
  Py.keys (Explore.setitem d k v)
  = match Py.get d k with
    | Some _ => Py.keys d
    | None => Py.keys d ++ [k]
    end.
Proof.
  induction d as [|[k0 v0] d IH]; simpl; [reflexivity|].
  destruct (String.eqb k0 k); simpl; [reflexivity|].
  rewrite IH. now destruct (Py.get d k).
Qed.

Lemma setitem_wf {V : Type} (d : Py.dict V) (k : string) (v : V) :
  Py.dict_wf d -> Py.dict_wf (Explore.setitem d k v).
Proof.
  unfold Py.dict_wf. intros Hwf. rewrite keys_setitem.
  destruct (Py.get d k) eqn:E; [exact Hwf|].
  apply get_none_keys in E.
  apply NoDup_app; [exact Hwf | repeat constructor; intros [] |].
  intros x Hx [<-|[]]. contradiction.
Qed.

Lemma total_setitem (d : Py.dict Z) (k : string) (v : Z) :
  total (Explore.setitem d k v)
  = total d + v - match Py.get d k with Some c => c | None => 0 end.
Proof.
  unfold total. induction d as [|[k0 v0] d IH]; simpl; [lia|].
  destruct (String.eqb k0 k); simpl; lia.
Qed.

Lemma total_count_genre (counts : Py.dict Z) (genre : string) :
  total (Explore.count_genre counts genre) = total counts + 1.
Proof.
  unfold Explore.count_genre.
  destruct (Py.get counts genre) eqn:E; rewrite total_setitem, E; lia.
Qed.

Lemma tally_count_genre (genres : list string) (counts : Py.dict Z) (genre : string) :
  tally_of genres counts ->
  tally_of (genres ++ [genre]) (Explore.count_genre counts genre).
Proof.
  intros [Hwf Hget]. split.
  - unfold Explore.count_genre. destruct (Py.get counts genre); now apply setitem_wf.
  - intros g. rewrite count_occ_app. cbn [count_occ].
    specialize (Hget genre) as Hg. unfold Explore.count_genre.
    destruct (string_dec genre g) as [<-|Hne].
    + destruct (Py.get counts genre) as [c|] eqn:E;
        rewrite get_setitem, String.eqb_refl;
        destruct (count_occ string_dec genres genre) as [|n]; try discriminate.
      * injection Hg as ->. rewrite Nat.add_1_r. f_equal. lia.
      * reflexivity.
    + apply String.eqb_neq in Hne.
      destruct (Py.get counts genre) as [c|] eqn:E;
        rewrite get_setitem, Hne, Nat.add_0_r; apply Hget.
Qed.

Lemma tally_fold (genres : list string) :
  forall seen counts,
  tally_of seen counts ->
  tally_of (seen ++ genres) (fold_left Explore.count_genre genres counts) /\
  total (fold_left Explore.count_genre genres counts)
  = total counts + Z.of_nat (List.length genres).
Proof.
  induction genres as [|g genres IH]; intros seen counts Ht.
  - rewrite app_nil_r. simpl. split; [exact Ht | lia].
  - cbn [fold_left]. destruct (IH (seen ++ [g]) (Explore.count_genre counts g))
      as [IH1 IH2]; [now apply tally_count_genre|].
    rewrite <- app_assoc in IH1. split; [exact IH1|].
    rewrite IH2, total_count_genre. cbn [List.length]. lia.
Qed.

Lemma count_entries_genres (entries : list item) :
  forall counts,
  fold_left Explore.count_entry entries counts
  = fold_left Explore.count_genre (flat_map Explore.genres_of entries) counts.
Proof.
  induction entries as [|e entries IH]; intros counts; [reflexivity|].
  simpl. rewrite fold_left_app. apply IH.
Qed.

(** X13: for a sentiment that has a bucket of books and one of movies, the
    counts are those of the genres of the books, then of the movies: each
    genre, stripped of the spaces around it, is a key once, with the number
    of its occurrences, and the counts add up to the number of genres
    listed. *)
Theorem count_sentiment_tally (media_recommender : MediaRecommender.t)
    (sentiment : string) (books movies : list item) :
  Py.get (MediaRecommender.books media_recommender) sentiment = Some books ->
  Py.get (MediaRecommender.movies media_recommender) sentiment = Some movies ->
  exists counts,
    Explore.count_sentiment media_recommender sentiment = Py.Ok counts /\
    tally_of (flat_map Explore.genres_of (books ++ movies)) counts /\
    total counts
    = Z.of_nat (List.length (flat_map Explore.genres_of (books ++ movies))).
Proof.
  intros Hb Hm. unfold Explore.count_sentiment, Py.getitem. rewrite Hb, Hm.
  cbn [Py.bind_result]. eexists. split; [reflexivity|].
  rewrite !count_entries_genres, <- fold_left_app, <- flat_map_app.
  destruct (tally_fold (flat_map Explore.genres_of (books ++ movies)) [] [])
    as [Ht Hs].
  - split; [constructor | reflexivity].
  - split; [exact Ht | exact Hs].
Qed.

Lemma count_sentiment_tally_witness :
  exists counts,
    Explore.count_sentiment MediaRecommender.init "Neutral" = Py.Ok counts /\
    tally_of (flat_map Explore.genres_of
                (MediaRecommender._get_mock_neutral_books
                 ++ MediaRecommender._get_mock_neutral_movies)) counts /\
    total counts
    = Z.of_nat (List.length
                  (flat_map Explore.genres_of
                     (MediaRecommender._get_mock_neutral_books
                      ++ MediaRecommender._get_mock_neutral_movies))).
Proof.
  apply (count_sentiment_tally MediaRecommender.init "Neutral"); reflexivity.
Defined.

Lemma count_sentiment_cases (media_recommender : MediaRecommender.t)
    (sentiment : string) :
  Explore.count_sentiment media_recommender sentiment
  = match Py.get (MediaRecommender.books media_recommender) sentiment,
          Py.get (MediaRecommender.movies media_recommender) sentiment with
    | Some books, Some movies =>
        Py.Ok (fold_left Explore.count_entry movies
                 (fold_left Explore.count_entry books []))
    | _, _ => Py.Raise Py.KeyError
    end.
Proof.
  unfold Explore.count_sentiment, Py.getitem.
  destruct (Py.get (MediaRecommender.books media_recommender) sentiment);
    destruct (Py.get (MediaRecommender.movies media_recommender) sentiment);
    reflexivity.
Qed.

(** X14: the genre counts need every bucket: where the books or the movies
    have no bucket for one of Positive, Neutral and Negative, the loop
    raises KeyError, unlike the recommendations, which take a missing bucket
    for an empty one; with all the buckets there the result has the three
    sentiments as keys, in that order, each with its counts. *)
Theorem genre_counts_buckets (media_recommender : MediaRecommender.t) :
  ((exists sentiment,
      In sentiment ["Positive"; "Neutral"; "Negative"]%string /\
      (Py.get (MediaRecommender.books media_recommender) sentiment = None \/
       Py.get (MediaRecommender.movies media_recommender) sentiment = None)) ->
   Explore.genre_counts media_recommender = Py.Raise Py.KeyError) /\
  ((forall sentiment,
      In sentiment ["Positive"; "Neutral"; "Negative"]%string ->
      Py.get (MediaRecommender.books media_recommender) sentiment <> None /\
      Py.get (MediaRecommender.movies media_recommender) sentiment <> None) ->
   exists positive neutral negative,
     Explore.genre_counts media_recommender
       = Py.Ok [("Positive", positive); ("Neutral", neutral); ("Negative", negative)]
     /\ Explore.count_sentiment media_recommender "Positive" = Py.Ok positive
     /\ Explore.count_sentiment media_recommender "Neutral" = Py.Ok neutral
     /\ Explore.count_sentiment media_recommender "Negative" = Py.Ok negative).
Proof.
  unfold Explore.genre_counts. cbn [for_each_result].
  rewrite !count_sentiment_cases. split.
  - intros (sentiment & Hin & Hnone).
    destruct Hin as [<-|[<-|[<-|[]]]]; destruct Hnone as [H|H]; rewrite H;
      repeat match goal with
             | |- context [Py.get ?d ?k] => destruct (Py.get d k)
             end; reflexivity.
  - intros Hall.
    destruct (Hall "Positive"%string) as [Hp1 Hp2]; [simpl; auto|].
    destruct (Hall "Neutral"%string) as [Hn1 Hn2]; [simpl; auto|].
    destruct (Hall "Negative"%string) as [Hg1 Hg2]; [simpl; auto|].
    destruct (Py.get (MediaRecommender.books media_recommender) "Positive");
      [|congruence].
    destruct (Py.get (MediaRecommender.movies media_recommender) "Positive");
      [|congruence].
    destruct (Py.get (MediaRecommender.books media_recommender) "Neutral");
      [|congruence].
    destruct (Py.get (MediaRecommender.movies media_recommender) "Neutral");
      [|congruence].
    destruct (Py.get (MediaRecommender.books media_recommender) "Negative");
      [|congruence].
    destruct (Py.get (MediaRecommender.movies media_recommender) "Negative");
      [|congruence].
    do 3 eexists. repeat split.
Qed.

Lemma genre_counts_buckets_witness :
  Explore.genre_counts Examples.no_neutral_books = Py.Raise Py.KeyError /\
  exists positive neutral negative,
    Explore.genre_counts MediaRecommender.init
      = Py.Ok [("Positive", positive); ("Neutral", neutral); ("Negative", negative)]
    /\ Explore.count_sentiment MediaRecommender.init "Positive" = Py.Ok positive
    /\ Explore.count_sentiment MediaRecommender.init "Neutral" = Py.Ok neutral
    /\ Explore.count_sentiment MediaRecommender.init "Negative" = Py.Ok negative.
Proof.
  split.
  - apply (genre_counts_buckets Examples.no_neutral_books).
    exists "Neutral"%string. split; [simpl; auto | now left].
  - apply (genre_counts_buckets MediaRecommender.init).
    intros sentiment [<-|[<-|[<-|[]]]]; split; discriminate.
Defined.
